(** * mapannai-rcmnd: the asynchronous recommendation pipeline

    A shallow embedding of the job pipeline of the repository
    (recommendation_generator.py, lambda_a_starter.py,
    lambda_b_executor.py, lambda_c_checker.py, config.py) together with the properties the
    specification states about it.

    Conventions of the embedding.
    - Python [str] values are UTF-8 byte strings ([string]); comparing two
      strings byte by byte gives the code-point order Python uses.
      [lower] and [strip] act on the ASCII range.
    - Python numbers that carry fractions (ratings, coordinates, scores)
      are exact rationals ([Q]): the decimals they are written as. The
      relevance score is given a second time in binary64 (module [F64]),
      the arithmetic Python evaluates it in.
    - A [dict] read with [.get] is a record whose optional keys are
      [option] fields.
    - Every external collaborator (generative model, places provider,
      geocoder, image upload, JSON decoding, clock, random identifiers) is
      a field of the record [Providers]; durable storage is an explicit
      state of type [S3].
    - A raised exception is the [Raise] constructor of [result]. *)

From Stdlib Require Import QArith Qround Qabs Qminmax Lqa.
From Stdlib Require Import Ascii String DecimalString.
From Stdlib Require SpecFloat.
From stdpp Require Import gmap strings list sorting.

Local Open Scope string_scope.

(** ** Exceptions *)

Inductive result (A : Type) : Type :=
| Ok (a : A)
| Raise (msg : string).
Arguments Ok {A} a.
Arguments Raise {A} msg.

#[global] Instance result_ret : MRet result := fun A a => Ok a.

#[global] Instance result_bind : MBind result := fun A B k r =>
  match r with
  | Ok a => k a
  | Raise msg => Raise msg
  end.

(** ** Python helpers *)

Module Py.

(** [bool(s)] for a string. *)
Definition truthy (s : string) : bool := negb (String.eqb s "").

(** [d.get(k) or dflt] for a string-valued key. *)
Definition or_str (a : option string) (dflt : string) : string :=
  match a with
  | Some s => if truthy s then s else dflt
  | None => dflt
  end.

(** [d.get(k, dflt)]. *)
Definition get_default {A : Type} (a : option A) (dflt : A) : A :=
  match a with
  | Some v => v
  | None => dflt
  end.

(** [bool(x)] for a number. *)
Definition truthy_num (x : Q) : bool := negb (Qeq_bool x 0).

(** [a or b] where both come from [d.get(k)] on numeric keys. *)
Definition or_num (a b : option Q) : option Q :=
  match a with
  | Some x => if truthy_num x then Some x else b
  | None => b
  end.

(** [s[:n]] *)
Definition take_str (n : nat) (s : string) : string := String.substring 0 n s.

(** [s[n:]] *)
Definition drop_str (n : nat) (s : string) : string :=
  String.substring n (String.length s - n) s.

Definition startswith (s p : string) : bool := String.prefix p s.

Definition endswith (s p : string) : bool :=
  (String.length p <=? String.length s)%nat
  && String.eqb (drop_str (String.length s - String.length p) s) p.

Definition is_space (c : ascii) : bool :=
  match c with
  | " "%char | "009"%char | "010"%char | "011"%char | "012"%char | "013"%char => true
  | _ => false
  end.

Fixpoint lstrip (s : string) : string :=
  match s with
  | String c s' => if is_space c then lstrip s' else s
  | EmptyString => EmptyString
  end.

Fixpoint rstrip (s : string) : string :=
  match s with
  | String c s' =>
      match rstrip s' with
      | EmptyString => if is_space c then EmptyString else String c EmptyString
      | r => String c r
      end
  | EmptyString => EmptyString
  end.

Definition strip (s : string) : string := rstrip (lstrip s).

Definition lower_ascii (c : ascii) : ascii :=
  let n := nat_of_ascii c in
  if ((65 <=? n) && (n <=? 90))%nat then ascii_of_nat (n + 32) else c.

Fixpoint lower (s : string) : string :=
  match s with
  | String c s' => String (lower_ascii c) (lower s')
  | EmptyString => EmptyString
  end.

(** [sub in s] *)
Fixpoint contains (s sub : string) : bool :=
  String.prefix sub s ||
  match s with
  | String _ s' => contains s' sub
  | EmptyString => false
  end.

(** [sorted(l, key=...)]: a stable sort; [le x y] compares the keys.
    An element goes in front of the first later element it is not
    greater than, so equal keys keep their original order. *)
Section Sorted.
Context {A : Type} (le : A -> A -> bool).

Fixpoint insert (x : A) (l : list A) : list A :=
  match l with
  | [] => [x]
  | y :: l' => if le x y then x :: y :: l' else y :: insert x l'
  end.

Fixpoint sorted (l : list A) : list A :=
  match l with
  | [] => []
  | x :: l' => insert x (sorted l')
  end.
End Sorted.

(** [f"{n:02d}"] for a non-negative [n]: decimal digits, padded with
    zeros on the left to a width of at least two. *)
Definition decimal (n : nat) : string := NilZero.string_of_uint (Nat.to_uint n).

Definition format_02d (n : nat) : string :=
  let s := decimal n in
  if (String.length s <? 2)%nat then "0" ++ s else s.

End Py.

(** ** Configuration (config.py) *)

Module Config.

(** The settings read from the environment. *)
Record env : Type := {
  GOOGLE_PLACES_API_KEY : string;
  GEMINI_API_KEY : string;
  S3_BUCKET_NAME : string;
  S3_REGION : string
}.

Definition S3_JOB_RESULT_PREFIX : string := "rcmnd_job/".
Definition FOOD_SEARCH_RADIUS : Z := 500.
Definition FOOD_MAX_RESULTS : nat := 5.
Definition ATTRACTION_SEARCH_RADIUS : Z := 5000.
Definition ATTRACTION_MAX_RESULTS : nat := 5.
Definition MARKET_SEARCH_RADIUS : Z := 5000.
Definition MARKET_MAX_RESULTS : nat := 5.
Definition ATTRACTION_IMAGE_COUNT : nat := 3.

(** [Config.validate()]: [None] when valid, otherwise the message. *)
Definition validate (c : env) : option string :=
  let required :=
    [("GOOGLE_PLACES_API_KEY", GOOGLE_PLACES_API_KEY c);
     ("GEMINI_API_KEY", GEMINI_API_KEY c);
     ("S3_BUCKET_NAME", S3_BUCKET_NAME c)] in
  let missing := map fst (filter (fun kv => negb (Py.truthy (snd kv))) required) in
  match missing with
  | [] => None
  | _ => Some ("缺少必需的配置项: " ++ String.concat ", " missing)
  end.

End Config.

(** The three categories the pipeline knows; any other string is
    accepted and takes the structured-search path without a result cap. *)
Definition FOOD : string := "美食".
Definition ATTRACTIONS : string := "名胜古迹和旅游景点".
Definition EVENTS : string := "跳蚤市场或活动".

(** ** Data model *)

(** One object of the array the generative model answers with. *)
Record GeminiItem : Type := {
  gi_place_name : option string;
  gi_name : option string;
  gi_place_address : option string;
  gi_address : option string;
  gi_latitude : option Q;
  gi_lat : option Q;
  gi_longitude : option Q;
  gi_lng : option Q;
  gi_summary : option string;
  gi_website : option string
}.

(** [place_data] of [fetch_places_via_gemini]. The keys ["lat"] and
    ["lng"] are set together and never to [None]; the key
    ["is_flea_market"] is added later, for the events category. *)
Record GeminiPlace : Type := {
  gp_name : string;
  gp_formatted_address : string;
  gp_summary : string;
  gp_rating : Q;
  gp_website : string;
  gp_lat : option Q;
  gp_lng : option Q;
  gp_is_flea_market : option bool
}.

(** A review of a place as the places provider reports it. *)
Record Review : Type := {
  rv_text : option string;
  rv_likes : option Z;
  rv_thumbs_up : option Z;
  rv_helpful_votes : option Z;
  rv_rating : option Z
}.

(** [geometry.location] of a place record, when it is there and not
    empty: the members [lat] and [lng], either of which may be missing. *)
Record Location : Type := {
  loc_lat : option Q;
  loc_lng : option Q
}.

(** [result] of a place-details reply. [pd_location] is
    [geometry.location]; [None] stands for a record without geometry,
    without location, or with an empty location object, which are the
    cases the test [if location] treats alike. *)
Record PlaceDetails : Type := {
  pd_name : option string;
  pd_rating : option Q;
  pd_formatted_address : option string;
  pd_website : option string;
  pd_url : option string;
  pd_location : option Location;
  pd_photos : list (option string);
  pd_reviews : list Review
}.

Definition empty_details : PlaceDetails :=
  {| pd_name := None; pd_rating := None; pd_formatted_address := None;
     pd_website := None; pd_url := None; pd_location := None;
     pd_photos := []; pd_reviews := [] |}.

(** One entry of a nearby-search page. *)
Record NearbyPlace : Type := {
  np_place_id : option string;
  np_rating : option Q
}.

(** [place_info]: a candidate as it is handed to the Document Assembler.
    Keys read with [.get] downstream are optional here. *)
Record Place : Type := {
  p_place_id : string;
  p_name : string;
  p_formatted_address : string;
  p_summary : option string;
  p_rating : Q;
  p_website : string;
  p_photo_reference : option string;
  p_s3_image_url : option string;
  p_s3_image_urls : list string;
  p_lat : option Q;
  p_lng : option Q;
  p_reviews : list string
}.

(** Replies of the external collaborators. *)
Record NearbyParams : Type := {
  nq_location : Q * Q;
  nq_radius : Z;
  nq_keyword : string;
  nq_minprice : option Z;
  nq_maxprice : option Z;
  nq_pagetoken : option string
}.

Record NearbyReply : Type := {
  nb_status : string;
  nb_error_message : option string;
  nb_results : list NearbyPlace;
  nb_next_page_token : option string
}.

Record DetailsReply : Type := {
  dt_status : string;
  dt_result : option PlaceDetails
}.

Record GeocodeReply : Type := {
  gc_status : string;
  gc_results : list (option (Q * Q))
}.

Record TextSearchReply : Type := {
  ts_status : string;
  ts_results : list (option string)
}.

(** What is sent to the generative model for one food candidate. *)
Record SummaryInput : Type := {
  si_place_id : string;
  si_name : string;
  si_address : string;
  si_rating : Q;
  si_reviews : list string
}.

(** The external collaborators of one execution. An HTTP call that
    fails ([raise_for_status], a network error) is a [Raise]. *)
Record Providers : Type := {
  (** [model.generate_content(user_prompt).text] for the search prompt
      built from the coordinates and the category *)
  gemini_search : Q -> Q -> string -> result (option string);
  (** [json.loads] on the cleaned search response *)
  json_loads_places : string -> result (list GeminiItem);
  (** [model.generate_content(user_prompt).text] for the summary prompt *)
  gemini_summarize : list SummaryInput -> result (option string);
  (** [json.loads] on the cleaned summary response: the
      [(place_id, summary_text)] pairs, in order *)
  json_loads_summaries : string -> result (list (string * string));
  nearby_api : NearbyParams -> result NearbyReply;
  details_api : string -> result DetailsReply;
  geocode_api : string -> result GeocodeReply;
  textsearch_api : string -> Q * Q -> result TextSearchReply;
  (** download of a photo and its upload: the public URL, or a failure *)
  photo_transfer : string -> string -> result string;
  (** [int(time.time())] *)
  time_s : Z;
  (** [int(time.time() * 1000)] *)
  time_ms : Z;
  (** [datetime.now(timezone.utc).strftime("%Y-%m-%dT%H:%M:%SZ")] *)
  now_utc : string;
  (** [uuid.uuid4().hex[:8]] *)
  uuid_hex8 : string
}.

(** ** Generative search (recommendation_generator.py) *)

Definition int_str (z : Z) : string := NilZero.string_of_int (Z.to_int z).

(** A byte that continues a UTF-8 sequence. *)
Definition is_continuation (c : ascii) : bool :=
  let n := nat_of_ascii c in ((128 <=? n) && (n <? 192))%nat.

(** [s[:n]], counted in code points. *)
Fixpoint take_chars (n : nat) (s : string) : string :=
  match s with
  | EmptyString => EmptyString
  | String c s' =>
      if is_continuation c then String c (take_chars n s')
      else match n with
           | O => EmptyString
           | S n' => String c (take_chars n' s')
           end
  end.

(** Removal of the optional markdown code-fence markers. *)
Definition strip_code_fence (response_text : string) : string :=
  let t1 := if Py.startswith response_text "```json"
            then Py.drop_str 7 response_text else response_text in
  let t2 := if Py.startswith t1 "```" then Py.drop_str 3 t1 else t1 in
  let t3 := if Py.endswith t2 "```"
            then Py.take_str (String.length t2 - 3) t2 else t2 in
  Py.strip t3.

(** The loop body of [fetch_places_via_gemini]: [None] is [continue]. *)
Definition parse_gemini_item (main_type : string) (place : GeminiItem)
  : option GeminiPlace :=
  let is_events := String.eqb main_type EVENTS in
  let place_name :=
    if is_events
    then Py.or_str (gi_place_name place) (Py.get_default (gi_name place) "")
    else Py.get_default (gi_name place) "" in
  let place_address :=
    if is_events
    then Py.or_str (gi_place_address place) (Py.get_default (gi_address place) "")
    else Py.get_default (gi_address place) "" in
  let latitude :=
    if is_events then Py.or_num (gi_latitude place) (gi_lat place) else None in
  let longitude :=
    if is_events then Py.or_num (gi_longitude place) (gi_lng place) else None in
  if negb (Py.truthy place_name) then None
  else
    let coords :=
      match is_events, latitude, longitude with
      | true, Some la, Some lo => (Some la, Some lo)
      | _, _, _ => (None, None)
      end in
    Some {| gp_name := place_name;
            gp_formatted_address := place_address;
            gp_summary := Py.get_default (gi_summary place) "";
            gp_rating := 0;
            gp_website := Py.get_default (gi_website place) "";
            gp_lat := fst coords;
            gp_lng := snd coords;
            gp_is_flea_market := None |}.

Definition fetch_places_via_gemini (pv : Providers) (lat lng : Q) (main_type : string)
  : result (list GeminiPlace) :=
  text ← gemini_search pv lat lng main_type;
  let response_text :=
    match text with
    | Some t => if Py.truthy t then Py.strip t else ""
    | None => ""
    end in
  if negb (Py.truthy response_text) then Raise "Gemini 返回空响应"
  else
    let response_text := strip_code_fence response_text in
    if negb (Py.truthy response_text) then Raise "清理后的响应为空"
    else
      places ← json_loads_places pv response_text;
      Ok (omap (M := list) (parse_gemini_item main_type) places).

Definition flea_market_keywords : list string :=
  ["跳蚤市场"; "フリーマーケット"; "フリマ"; "蚤の市"; "古物市場";
   "flea market"; "flea"; "market"; "古着"; "中古"; "リサイクル"].

Definition is_flea_market (place_name place_summary : string) : bool :=
  let text_to_check := Py.lower (place_name ++ " " ++ place_summary) in
  existsb (fun keyword => Py.contains text_to_check (Py.lower keyword))
          flea_market_keywords.

Definition geocode_address (cfg : Config.env) (pv : Providers) (address : string)
  : option (Q * Q) :=
  if negb (Py.truthy (Config.GOOGLE_PLACES_API_KEY cfg)) then None
  else if negb (Py.truthy address) then None
  else
    match geocode_api pv address with
    | Raise _ => None
    | Ok data =>
        if negb (String.eqb (gc_status data) "OK") then None
        else match gc_results data with
             | [] => None
             | first :: _ => first
             end
    end.

Definition find_place_by_name_and_address (cfg : Config.env) (pv : Providers)
    (name address : string) (lat lng : Q) : option string :=
  if negb (Py.truthy (Config.GOOGLE_PLACES_API_KEY cfg)) then None
  else
    let query := if Py.truthy address then name ++ " " ++ address else name in
    match textsearch_api pv query (lat, lng) with
    | Raise _ => None
    | Ok data =>
        if negb (String.eqb (ts_status data) "OK") then None
        else match ts_results data with
             | [] => None
             | first :: _ => first
             end
    end.

(** [upload_image_to_s3]: the public URL, or [None] on any failure. The
    image objects live under their own key prefix and are not part of
    the job-result state tracked in [S3]. *)
Definition upload_image_to_s3 (cfg : Config.env) (pv : Providers)
    (photo_reference place_name : string) : option string :=
  if negb (Py.truthy (Config.GOOGLE_PLACES_API_KEY cfg)) then None
  else if negb (Py.truthy (Config.S3_BUCKET_NAME cfg)) then None
  else match photo_transfer pv photo_reference place_name with
       | Ok url => Some url
       | Raise _ => None
       end.

(** *** Events and attractions: [fetch_places_via_gemini_and_process_images] *)

(** The sort key [(not x.get("is_flea_market", False), x.get("name", ""))]. *)
Definition flea_key (x : GeminiPlace) : bool * string :=
  (negb (Py.get_default (gp_is_flea_market x) false), gp_name x).

(** [k1 <= k2] on such tuples: [False < True], then the names. *)
Definition key_le (k1 k2 : bool * string) : bool :=
  (negb (fst k1) && fst k2)
  || (Bool.eqb (fst k1) (fst k2) && String.leb (snd k1) (snd k2)).

Definition flea_le (x y : GeminiPlace) : bool := key_le (flea_key x) (flea_key y).

Definition tag_flea_market (place : GeminiPlace) : GeminiPlace :=
  {| gp_name := gp_name place;
     gp_formatted_address := gp_formatted_address place;
     gp_summary := gp_summary place;
     gp_rating := gp_rating place;
     gp_website := gp_website place;
     gp_lat := gp_lat place;
     gp_lng := gp_lng place;
     gp_is_flea_market := Some (is_flea_market (gp_name place) (gp_summary place)) |}.

(** Tagging, sorting and truncation of the events candidates. *)
Definition rank_events (places : list GeminiPlace) : list GeminiPlace :=
  take Config.MARKET_MAX_RESULTS (Py.sorted flea_le (map tag_flea_market places)).

Definition gemini_place_id (pv : Providers) (name : string) : string :=
  "gemini_" ++ int_str (time_s pv) ++ "_" ++ take_chars 20 name.

(** Coordinates of an events candidate. The source has a second test,
    ["lat" in place and "lng" in place], between the first and the last
    branch; both keys are only ever stored with values, so it can never
    succeed where the first test failed. *)
Definition event_coordinates (cfg : Config.env) (pv : Providers) (lat lng : Q)
    (place : GeminiPlace) : option Q * option Q :=
  match gp_lat place, gp_lng place with
  | Some la, Some lo => (Some la, Some lo)
  | _, _ =>
      let address := gp_formatted_address place in
      if Py.truthy address then
        match geocode_address cfg pv address with
        | Some coordinates => (Some (fst coordinates), Some (snd coordinates))
        | None => (Some lat, Some lng)
        end
      else (Some lat, Some lng)
  end.

Definition event_place_info (cfg : Config.env) (pv : Providers) (lat lng : Q)
    (place : GeminiPlace) : Place :=
  let coords := event_coordinates cfg pv lat lng place in
  {| p_place_id := gemini_place_id pv (gp_name place);
     p_name := gp_name place;
     p_formatted_address := gp_formatted_address place;
     p_summary := Some (gp_summary place);
     p_rating := 0;
     p_website := gp_website place;
     p_photo_reference := None;
     p_s3_image_url := None;
     p_s3_image_urls := [];
     p_lat := fst coords;
     p_lng := snd coords;
     p_reviews := [] |}.

(** Upload of the first photos of an attraction; the output keeps the
    order of the photos, whatever the order of completion. *)
Definition upload_photos (cfg : Config.env) (pv : Providers) (name : string)
    (photos : list (option string)) : list string :=
  omap (M := list) id
    (imap (fun idx photo =>
             match photo with
             | Some photo_reference =>
                 if Py.truthy photo_reference then
                   match upload_image_to_s3 cfg pv photo_reference
                           (name ++ "_" ++ Py.decimal idx) with
                   | Some s3_url => if Py.truthy s3_url then Some s3_url else None
                   | None => None
                   end
                 else None
             | None => None
             end)
          (take Config.ATTRACTION_IMAGE_COUNT photos)).

Definition location_or_center (lat lng : Q) (place_details : PlaceDetails)
  : option Q * option Q :=
  match pd_location place_details with
  | Some location => (loc_lat location, loc_lng location)
  | None => (Some lat, Some lng)
  end.

(** An attraction for which the provider has no place record keeps what
    the generative model said and takes the search centre as position. *)
Definition unmatched_attraction (pv : Providers) (lat lng : Q) (place : GeminiPlace)
  : Place :=
  {| p_place_id := gemini_place_id pv (gp_name place);
     p_name := gp_name place;
     p_formatted_address := gp_formatted_address place;
     p_summary := Some (gp_summary place);
     p_rating := 0;
     p_website := gp_website place;
     p_photo_reference := None;
     p_s3_image_url := None;
     p_s3_image_urls := [];
     p_lat := Some lat;
     p_lng := Some lng;
     p_reviews := [] |}.

Definition matched_attraction (cfg : Config.env) (pv : Providers) (lat lng : Q)
    (place : GeminiPlace) (place_id : string) (place_details : PlaceDetails) : Place :=
  let name := Py.get_default (pd_name place_details) (gp_name place) in
  let coords := location_or_center lat lng place_details in
  {| p_place_id := place_id;
     p_name := name;
     p_formatted_address :=
       Py.get_default (pd_formatted_address place_details) (gp_formatted_address place);
     p_summary := Some (gp_summary place);
     p_rating := Py.get_default (pd_rating place_details) 0%Q;
     p_website :=
       Py.or_str (pd_website place_details) (Py.get_default (pd_url place_details) "");
     p_photo_reference := None;
     p_s3_image_url := None;
     p_s3_image_urls := upload_photos cfg pv name (pd_photos place_details);
     p_lat := fst coords;
     p_lng := snd coords;
     p_reviews := [] |}.

(** [if not place_id]: no identifier, or an empty one. *)
Definition truthy_id (place_id : option string) : option string :=
  match place_id with
  | Some i => if Py.truthy i then Some i else None
  | None => None
  end.

Fixpoint attraction_places (cfg : Config.env) (pv : Providers) (lat lng : Q)
    (places : list GeminiPlace) : result (list Place) :=
  match places with
  | [] => Ok []
  | place :: rest =>
      match truthy_id (find_place_by_name_and_address cfg pv (gp_name place)
                         (gp_formatted_address place) lat lng) with
      | None =>
          others ← attraction_places cfg pv lat lng rest;
          Ok (unmatched_attraction pv lat lng place :: others)
      | Some place_id =>
          details_data ← details_api pv place_id;
          if negb (String.eqb (dt_status details_data) "OK")
          then attraction_places cfg pv lat lng rest
          else
            let place_details := Py.get_default (dt_result details_data) empty_details in
            others ← attraction_places cfg pv lat lng rest;
            Ok (matched_attraction cfg pv lat lng place place_id place_details :: others)
      end
  end.

Definition fetch_places_via_gemini_and_process_images (cfg : Config.env)
    (pv : Providers) (lat lng : Q) (main_type : string) : result (list Place) :=
  if negb (Py.truthy (Config.GOOGLE_PLACES_API_KEY cfg))
  then Raise "GOOGLE_PLACES_API_KEY 未设置"
  else
    places ← fetch_places_via_gemini pv lat lng main_type;
    match places with
    | [] => Ok []
    | _ =>
        if String.eqb main_type EVENTS then
          Ok (map (event_place_info cfg pv lat lng) (rank_events places))
        else
          let places :=
            if String.eqb main_type ATTRACTIONS
            then take Config.ATTRACTION_MAX_RESULTS places else places in
          attraction_places cfg pv lat lng places
    end.

(** *** Structured search: [fetch_data_and_process_images] *)

Definition map_budget_to_price_level (budget : string) : option Z * option Z :=
  if String.eqb budget "3000日元以内" then (None, Some 1%Z)
  else if String.eqb budget "8000日元以内" then (None, Some 2%Z)
  else if String.eqb budget "8000日元以上" then (Some 3%Z, Some 4%Z)
  else (None, None).

Definition food_keyword (sub_type : string) : string :=
  if String.eqb sub_type "异国料理" then "international restaurant"
  else if String.eqb sub_type "拉面" then "ramen"
  else if String.eqb sub_type "烤肉" then "yakiniku"
  else if String.eqb sub_type "寿喜烧" then "sukiyaki"
  else if String.eqb sub_type "中华" then "chinese restaurant"
  else if String.eqb sub_type "海鲜" then "seafood"
  else if String.eqb sub_type "居酒屋" then "izakaya"
  else "restaurant".

Definition map_chinese_type_to_keyword (main_type sub_type : string)
    (include_time_keyword : bool) : string :=
  if String.eqb main_type FOOD then food_keyword sub_type
  else if String.eqb main_type ATTRACTIONS then "tourist_attraction"
  else if String.eqb main_type EVENTS then
    if include_time_keyword then "flea market event upcoming this month" else "market"
  else "point_of_interest".

Definition get_search_radius (main_type : string) : Z :=
  if String.eqb main_type FOOD then Config.FOOD_SEARCH_RADIUS
  else if String.eqb main_type ATTRACTIONS then Config.ATTRACTION_SEARCH_RADIUS
  else if String.eqb main_type EVENTS then Config.MARKET_SEARCH_RADIUS
  else Config.ATTRACTION_SEARCH_RADIUS.

Definition get_max_results (main_type : string) : option nat :=
  if String.eqb main_type FOOD then Some Config.FOOD_MAX_RESULTS else None.

Definition with_pagetoken (params : NearbyParams) (token : string) : NearbyParams :=
  {| nq_location := nq_location params; nq_radius := nq_radius params;
     nq_keyword := nq_keyword params; nq_minprice := nq_minprice params;
     nq_maxprice := nq_maxprice params; nq_pagetoken := Some token |}.

Definition request_denied_message (error_status error_message : string) : string :=
  "Google Places API 请求被拒绝。" ++ "状态: " ++ error_status ++ ", 详情: "
  ++ error_message ++ "。"
  ++ "请检查：1) API Key 是否正确 2) Places API 是否已启用 3) API Key 限制设置".

(** [if max_results and len(all_places) >= max_results * 3] *)
Definition enough_collected (max_results : option nat) (all_places : list NearbyPlace)
  : bool :=
  match max_results with
  | Some m => negb (m =? 0)%nat && (m * 3 <=? length all_places)%nat
  | None => false
  end.

(** The paging loop [while True]. [fuel] bounds the number of page
    requests; [None] means the bound was reached before the loop ended. *)
Fixpoint collect_pages (pv : Providers) (max_results : option nat) (fuel : nat)
    (params : NearbyParams) (next_page_token : option string)
    (all_places : list NearbyPlace) : option (result (list NearbyPlace)) :=
  match fuel with
  | O => None
  | S fuel' =>
      let params :=
        match truthy_id next_page_token with
        | Some token => with_pagetoken params token
        | None => params
        end in
      match nearby_api pv params with
      | Raise msg => Some (Raise msg)
      | Ok data =>
          if negb (String.eqb (nb_status data) "OK") then
            if String.eqb (nb_status data) "REQUEST_DENIED"
            then Some (Raise (request_denied_message (nb_status data)
                                (Py.get_default (nb_error_message data) "无详细信息")))
            else Some (Ok all_places)
          else
            let all_places := (all_places ++ nb_results data)%list in
            if enough_collected max_results all_places then Some (Ok all_places)
            else
              match truthy_id (nb_next_page_token data) with
              | Some token =>
                  collect_pages pv max_results fuel' params (Some token) all_places
              | None => Some (Ok all_places)
              end
      end
  end.

(** [sorted(all_places, key=lambda x: x.get("rating", 0), reverse=True)]:
    a higher rating first, equal ratings in their original order. *)
Definition nearby_rating (x : NearbyPlace) : Q := Py.get_default (np_rating x) 0%Q.

Definition rating_ge (x y : NearbyPlace) : bool :=
  Qle_bool (nearby_rating y) (nearby_rating x).

(** The ranking phase that follows the collection. *)
Definition rank_collected (main_type : string) (all_places : list NearbyPlace)
  : list NearbyPlace :=
  match all_places with
  | [] => all_places
  | _ =>
      if String.eqb main_type FOOD
      then take Config.FOOD_MAX_RESULTS (Py.sorted rating_ge all_places)
      else all_places
  end.

(** [a or b] on optional integers. *)
Definition or_int (a : option Z) (b : Z) : Z :=
  match a with
  | Some x => if (x =? 0)%Z then b else x
  | None => b
  end.

(** [get_review_score]: likes first, the rating second. *)
Definition get_review_score (review : Review) : Z * Z :=
  (or_int (rv_likes review)
     (or_int (rv_thumbs_up review) (or_int (rv_helpful_votes review) 0%Z)),
   Py.get_default (rv_rating review) 0%Z).

(** [s1 >= s2] on the score tuples. *)
Definition score_ge (s1 s2 : Z * Z) : bool :=
  (fst s2 <? fst s1)%Z || ((fst s2 =? fst s1)%Z && (snd s2 <=? snd s1)%Z).

Definition review_ge (x y : Review) : bool :=
  score_ge (get_review_score x) (get_review_score y).

Definition has_text (review : Review) : bool :=
  match rv_text review with
  | Some t => Py.truthy t
  | None => false
  end.

(** Review selection for a food candidate. *)
Definition select_reviews (reviews : list Review) : list string :=
  let valid_reviews := filter (fun review => has_text review = true) reviews in
  let sorted_reviews := Py.sorted review_ge valid_reviews in
  let top_reviews := take 5 sorted_reviews in
  map (fun review => Py.get_default (rv_text review) "") top_reviews.

(** [place_info] of a structured-search candidate whose details lookup
    succeeded. The branches of the source that test for the events
    category are unreachable here: that category has already returned
    through the generative search. *)
Definition structured_place_info (lat lng : Q) (main_type : string)
    (place_id : string) (place_details : PlaceDetails) : Place :=
  let coords := location_or_center lat lng place_details in
  {| p_place_id := place_id;
     p_name := Py.get_default (pd_name place_details) "";
     p_formatted_address := Py.get_default (pd_formatted_address place_details) "";
     p_summary := None;
     p_rating := Py.get_default (pd_rating place_details) 0%Q;
     p_website :=
       Py.or_str (pd_website place_details) (Py.get_default (pd_url place_details) "");
     p_photo_reference :=
       match pd_photos place_details with
       | first :: _ => first
       | [] => None
       end;
     p_s3_image_url := None;
     p_s3_image_urls := [];
     p_lat := fst coords;
     p_lng := snd coords;
     p_reviews :=
       if String.eqb main_type FOOD then select_reviews (pd_reviews place_details)
       else [] |}.

Fixpoint details_loop (pv : Providers) (lat lng : Q) (main_type : string)
    (all_places : list NearbyPlace) : result (list Place) :=
  match all_places with
  | [] => Ok []
  | place :: rest =>
      match truthy_id (np_place_id place) with
      | None => details_loop pv lat lng main_type rest
      | Some place_id =>
          details_data ← details_api pv place_id;
          if negb (String.eqb (dt_status details_data) "OK")
          then details_loop pv lat lng main_type rest
          else
            let place_details := Py.get_default (dt_result details_data) empty_details in
            others ← details_loop pv lat lng main_type rest;
            Ok (structured_place_info lat lng main_type place_id place_details :: others)
      end
  end.

(** The concurrent upload of the first photo of every candidate: each
    result is stored in the candidate it was started for. *)
Definition with_uploaded_photo (cfg : Config.env) (pv : Providers) (place : Place)
  : Place :=
  match truthy_id (p_photo_reference place) with
  | None => place
  | Some photo_reference =>
      {| p_place_id := p_place_id place;
         p_name := p_name place;
         p_formatted_address := p_formatted_address place;
         p_summary := p_summary place;
         p_rating := p_rating place;
         p_website := p_website place;
         p_photo_reference := p_photo_reference place;
         p_s3_image_url := upload_image_to_s3 cfg pv photo_reference (p_name place);
         p_s3_image_urls := p_s3_image_urls place;
         p_lat := p_lat place;
         p_lng := p_lng place;
         p_reviews := p_reviews place |}
  end.

Definition nearby_params (lat lng : Q) (main_type sub_type budget : string)
  : NearbyParams :=
  let include_time_keyword := String.eqb main_type EVENTS in
  let price := map_budget_to_price_level budget in
  {| nq_location := (lat, lng);
     nq_radius := get_search_radius main_type;
     nq_keyword := map_chinese_type_to_keyword main_type sub_type include_time_keyword;
     nq_minprice := fst price;
     nq_maxprice := snd price;
     nq_pagetoken := None |}.

(** The structured-search path after the category dispatch. *)
Definition structured_search (cfg : Config.env) (pv : Providers) (fuel : nat)
    (lat lng : Q) (main_type sub_type budget : string)
  : option (result (list Place)) :=
  if negb (Py.truthy (Config.GOOGLE_PLACES_API_KEY cfg))
  then Some (Raise "GOOGLE_PLACES_API_KEY 未设置")
  else
    match collect_pages pv (get_max_results main_type) fuel
            (nearby_params lat lng main_type sub_type budget) None [] with
    | None => None
    | Some collected =>
        Some (all_places ← collected;
              processed_places ←
                details_loop pv lat lng main_type (rank_collected main_type all_places);
              Ok (map (with_uploaded_photo cfg pv) processed_places))
    end.

Definition fetch_data_and_process_images (cfg : Config.env) (pv : Providers)
    (fuel : nat) (lat lng : Q) (main_type sub_type budget : string)
  : option (result (list Place)) :=
  if String.eqb main_type ATTRACTIONS || String.eqb main_type EVENTS
  then Some (fetch_places_via_gemini_and_process_images cfg pv lat lng main_type)
  else structured_search cfg pv fuel lat lng main_type sub_type budget.

(** ** Document Assembler: [format_places_to_markers] *)

Inductive Block : Type :=
| HeaderBlock (text : string) (level : Z)
| ImageBlock (url caption : string) (withBorder : bool)
| ParagraphBlock (text : string).

Record EditorData : Type := {
  ed_time : Z;
  ed_blocks : list Block;
  ed_version : string
}.

Record Content : Type := {
  c_id : string;
  c_title : string;
  c_headerImage : string;
  c_iconType : string;
  c_editorData : EditorData;
  c_createdAt : string;
  c_updatedAt : string
}.

Record Marker : Type := {
  m_id : string;
  m_latitude : Q;
  m_longitude : Q;
  m_content : Content;
  m_relevanceScore : Q;
  m_tags : list string;
  m_deeplink : string
}.

Record ResultDocument : Type := {
  requestId : string;
  generatedAt : string;
  ttlSeconds : Z;
  markers : list Marker
}.

Definition get_icon_type (main_type : string) : string :=
  if String.eqb main_type FOOD then "food"
  else if String.eqb main_type ATTRACTIONS then "attraction"
  else if String.eqb main_type EVENTS then "activity"
  else "poi".

Definition sub_type_tags (sub_type : string) : list string :=
  if String.eqb sub_type "异国料理" then ["international"; "restaurant"]
  else if String.eqb sub_type "拉面" then ["ramen"; "noodles"]
  else if String.eqb sub_type "烤肉" then ["yakiniku"; "bbq"]
  else if String.eqb sub_type "寿喜烧" then ["sukiyaki"; "hotpot"]
  else if String.eqb sub_type "中华" then ["chinese"; "restaurant"]
  else if String.eqb sub_type "海鲜" then ["seafood"; "restaurant"]
  else if String.eqb sub_type "居酒屋" then ["izakaya"; "bar"]
  else [].

Definition get_tags_for_type (main_type sub_type : string) : list string :=
  if String.eqb main_type FOOD then
    "food" :: (if Py.truthy sub_type then sub_type_tags sub_type else [])
  else if String.eqb main_type ATTRACTIONS then ["attraction"; "sightseeing"; "tourism"]
  else if String.eqb main_type EVENTS then ["activity"; "event"; "market"]
  else [].

Definition generate_marker_id (index : nat) : string := "mk_" ++ Py.format_02d (index + 1).

Definition generate_content_id (index : nat) : string := "post_" ++ Py.format_02d (index + 1).

(** The integer nearest to [x], a tie going to the even neighbour. *)
Definition round_half_even (x : Q) : Z :=
  let f := Qfloor x in
  match ((x - inject_Z f) ?= (1 # 2))%Q with
  | Lt => f
  | Gt => (f + 1)%Z
  | Eq => if Z.even f then f else (f + 1)%Z
  end.

(** [round(x, 2)] *)
Definition round2 (x : Q) : Q := (round_half_even (x * 100)%Q # 100)%Q.

(** [max(a, b)]: the second argument only when it is greater. *)
Definition py_max (a b : Q) : Q := if Qle_bool b a then a else b.

(** [0.5 + (rating / 10) if rating else 0.5] *)
Definition base_score (rating : Q) : Q :=
  if Py.truthy_num rating then ((1 # 2) + rating / 10)%Q else (1 # 2)%Q.

(** The two assignments to [relevance_score], on the decimals as they
    are written: the score as the document shows it. *)
Definition relevance_score (rating : Q) (idx : nat) : Q :=
  let relevance_score := round2 (base_score rating) in
  round2 (py_max (1 # 10) (relevance_score - inject_Z (Z.of_nat idx) * (5 # 100)))%Q.

(** *** The score in binary64

    [relevance_score] above computes with the decimals as they are
    written. Python computes the same two assignments on binary64
    doubles; [F64] has them in that arithmetic, bit for bit, over the
    Standard Library's specification of IEEE 754. The two agree for the
    ratings the provider hands out, and differ next to the ties of the
    rounding. *)

Module F64.

Definition prec : Z := 53.
Definition emax : Z := 1024.

Definition float : Type := SpecFloat.spec_float.

Definition add : float -> float -> float := SpecFloat.SFadd prec emax.
Definition sub : float -> float -> float := SpecFloat.SFsub prec emax.
Definition mul : float -> float -> float := SpecFloat.SFmul prec emax.
Definition div : float -> float -> float := SpecFloat.SFdiv prec emax.
Definition ltb : float -> float -> bool := SpecFloat.SFltb.

(** [float(n)] for an integer (below the range where Python refuses the
    conversion). *)
Definition of_Z (n : Z) : float := SpecFloat.binary_normalize prec emax n 0 false.

(** The double nearest to the decimal [a / b]: how a literal such as
    [0.05] and a number of a JSON text are read. *)
Definition of_decimal (a : Z) (b : positive) : float :=
  match a with
  | Z0 => SpecFloat.S754_zero false
  | Zpos m => div (SpecFloat.S754_finite false m 0) (SpecFloat.S754_finite false b 0)
  | Zneg m => div (SpecFloat.S754_finite true m 0) (SpecFloat.S754_finite false b 0)
  end.

(** The number a finite double stands for. *)
Definition value (s : bool) (m : positive) (e : Z) : Q :=
  let magnitude :=
    match e with
    | Z0 => inject_Z (Zpos m)
    | Zpos p => inject_Z (Zpos m * 2 ^ Zpos p)
    | Zneg p => Qmake (Zpos m) (2 ^ p)
    end in
  if s then Qopp magnitude else magnitude.

Definition to_Q (x : float) : option Q :=
  match x with
  | SpecFloat.S754_zero _ => Some 0%Q
  | SpecFloat.S754_finite s m e => Some (value s m e)
  | _ => None
  end.

(** [bool(x)] *)
Definition truthy (x : float) : bool :=
  match x with
  | SpecFloat.S754_zero _ => false
  | _ => true
  end.

(** [round(x, 2)]: the number the double stands for is rounded to the
    nearest hundredth, a tie going to the even one, and the result is
    the double nearest to that hundredth; a zero keeps the sign. *)
Definition round2 (x : float) : float :=
  match x with
  | SpecFloat.S754_finite s m e =>
      match round_half_even (value s m e * 100) with
      | Z0 => SpecFloat.S754_zero s
      | k => of_decimal k 100
      end
  | _ => x
  end.

(** [max(a, b)]: the second argument only when it is greater. *)
Definition py_max (a b : float) : float := if ltb a b then b else a.

(** The two assignments to [relevance_score]. *)
Definition relevance_score (rating : float) (idx : nat) : float :=
  let relevance_score :=
    round2 (if truthy rating then add (of_decimal 5 10) (div rating (of_Z 10))
            else of_decimal 5 10) in
  round2 (py_max (of_decimal 1 10)
            (sub relevance_score (mul (of_Z (Z.of_nat idx)) (of_decimal 5 100)))).

(** Two doubles are the same double. *)
Definition eqb (x y : float) : bool :=
  match x, y with
  | SpecFloat.S754_zero s, SpecFloat.S754_zero t => Bool.eqb s t
  | SpecFloat.S754_infinity s, SpecFloat.S754_infinity t => Bool.eqb s t
  | SpecFloat.S754_nan, SpecFloat.S754_nan => true
  | SpecFloat.S754_finite s m e, SpecFloat.S754_finite t n f =>
      Bool.eqb s t && Pos.eqb m n && Z.eqb e f
  | _, _ => false
  end.

End F64.

Definition image_urls_of (main_type : string) (place : Place) : list string :=
  if String.eqb main_type ATTRACTIONS then p_s3_image_urls place
  else if String.eqb main_type FOOD then
    match p_s3_image_url place with
    | Some s3_url => if Py.truthy s3_url then [s3_url] else []
    | None => []
    end
  else [].

Definition image_blocks (name address : string) (image_urls : list string) : list Block :=
  omap (M := list) id
    (imap (fun img_idx image_url =>
             if Py.truthy image_url then
               Some (ImageBlock image_url
                       (name ++ " - " ++ address
                        ++ (if (1 <? length image_urls)%nat
                            then " (图" ++ Py.decimal (img_idx + 1) ++ ")" else ""))
                       true)
             else None)
          image_urls).

Definition place_blocks (main_type : string) (place : Place) : list Block :=
  let name := p_name place in
  let summary := Py.get_default (p_summary place) "暂无概要" in
  let website := p_website place in
  ([HeaderBlock name 2]
   ++ image_blocks name (p_formatted_address place) (image_urls_of main_type place)
   ++ [ParagraphBlock ("【概要】" ++ summary)]
   ++ (if Py.truthy website
       then [ParagraphBlock ("信息来源：[点击跳转原链接](" ++ website ++ ")")]
       else []))%list.

(** The marker built for the candidate at position [idx]. *)
Definition make_marker (pv : Providers) (main_type sub_type : string)
    (idx : nat) (place : Place) : Marker :=
  let image_urls := image_urls_of main_type place in
  let marker_id := generate_marker_id idx in
  {| m_id := marker_id;
     m_latitude := Py.get_default (p_lat place) 0%Q;
     m_longitude := Py.get_default (p_lng place) 0%Q;
     m_content :=
       {| c_id := generate_content_id idx;
          c_title := p_name place;
          c_headerImage := match image_urls with first :: _ => first | [] => "" end;
          c_iconType := get_icon_type main_type;
          c_editorData :=
            {| ed_time := time_ms pv;
               ed_blocks := place_blocks main_type place;
               ed_version := "2.29.0" |};
          c_createdAt := now_utc pv;
          c_updatedAt := now_utc pv |};
     m_relevanceScore := relevance_score (p_rating place) idx;
     m_tags := get_tags_for_type main_type sub_type;
     m_deeplink := "mapannai://marker/" ++ marker_id |}.

Definition format_places_to_markers (pv : Providers) (processed_places : list Place)
    (main_type sub_type : string) : ResultDocument :=
  {| requestId := "req_" ++ uuid_hex8 pv;
     generatedAt := now_utc pv;
     ttlSeconds := 300;
     markers := imap (make_marker pv main_type sub_type) processed_places |}.

(** ** Narrative generation: [generate_content_and_format] *)

Definition summary_input (is_food_type : bool) (place : Place) : SummaryInput :=
  {| si_place_id := p_place_id place;
     si_name := p_name place;
     si_address := p_formatted_address place;
     si_rating := p_rating place;
     si_reviews := if is_food_type then p_reviews place else [] |}.

(** [{item["place_id"]: item["summary_text"] for item in summaries}]:
    a later item replaces an earlier one with the same identifier. *)
Definition summaries_dict (summaries : list (string * string)) : gmap string string :=
  foldl (fun d item => <[fst item := snd item]> d) ∅ summaries.

Definition with_summary (d : gmap string string) (place : Place) : Place :=
  {| p_place_id := p_place_id place;
     p_name := p_name place;
     p_formatted_address := p_formatted_address place;
     p_summary := Some (Py.get_default (d !! p_place_id place) "暂无概要");
     p_rating := p_rating place;
     p_website := p_website place;
     p_photo_reference := p_photo_reference place;
     p_s3_image_url := p_s3_image_url place;
     p_s3_image_urls := p_s3_image_urls place;
     p_lat := p_lat place;
     p_lng := p_lng place;
     p_reviews := p_reviews place |}.

Definition generate_content_and_format (pv : Providers) (processed_places : list Place)
    (main_type sub_type : string) : result ResultDocument :=
  if String.eqb main_type ATTRACTIONS || String.eqb main_type EVENTS
  then Ok (format_places_to_markers pv processed_places main_type sub_type)
  else
    let is_food_type := String.eqb main_type FOOD in
    let places_data := map (summary_input is_food_type) processed_places in
    text ← gemini_summarize pv places_data;
    match text with
    | None => Raise "'NoneType' object has no attribute 'strip'"
    | Some t =>
        let response_text := strip_code_fence (Py.strip t) in
        summaries ← json_loads_summaries pv response_text;
        let d := summaries_dict summaries in
        Ok (format_places_to_markers pv (map (with_summary d) processed_places)
              main_type sub_type)
    end.

(** ** Durable storage of job results *)

(** The object stored for a job: the JSON object written by
    [save_result_to_s3] or [save_error_to_s3]. *)
Record JobRecord : Type := {
  jr_jobId : string;
  jr_status : string;
  jr_completedAt : string;
  jr_result : option ResultDocument;
  jr_error : option string
}.

(** The job-result objects by key, and the error code with which the
    service currently rejects every request, if it does. *)
Record S3 : Type := {
  s3_objects : gmap string JobRecord;
  s3_fault : option string
}.

Inductive GetObject : Type :=
| Body (content : JobRecord)
| ClientError (code : string).

Definition get_object (s3 : S3) (key : string) : GetObject :=
  match s3_fault s3 with
  | Some code => ClientError code
  | None =>
      match s3_objects s3 !! key with
      | Some content => Body content
      | None => ClientError "NoSuchKey"
      end
  end.

Definition put_object (s3 : S3) (bucket key : string) (body : JobRecord) : result S3 :=
  if negb (Py.truthy bucket) then Raise "Invalid bucket name"
  else
    match s3_fault s3 with
    | Some code => Raise code
    | None => Ok {| s3_objects := <[key := body]> (s3_objects s3); s3_fault := None |}
    end.

Definition job_key (job_id : string) : string :=
  Config.S3_JOB_RESULT_PREFIX ++ job_id ++ ".json".

(** ** Execution stage (lambda_b_executor.py) *)

Definition save_result_to_s3 (cfg : Config.env) (pv : Providers) (s3 : S3)
    (job_id : string) (result_doc : ResultDocument) (status : string) : result S3 :=
  put_object s3 (Config.S3_BUCKET_NAME cfg) (job_key job_id)
    {| jr_jobId := job_id; jr_status := status; jr_completedAt := now_utc pv;
       jr_result := Some result_doc; jr_error := None |}.

Definition save_error_to_s3 (cfg : Config.env) (pv : Providers) (s3 : S3)
    (job_id error_message : string) : result S3 :=
  put_object s3 (Config.S3_BUCKET_NAME cfg) (job_key job_id)
    {| jr_jobId := job_id; jr_status := "failed"; jr_completedAt := now_utc pv;
       jr_result := None; jr_error := Some error_message |}.

Record ExecEvent : Type := {
  ev_job_id : option string;
  ev_lat : option Q;
  ev_lng : option Q;
  ev_main_type : option string;
  ev_sub_type : option string;
  ev_budget : option string
}.

(** The dispatch payload of a job. *)
Definition request (job_id : option string) (lat lng : Q) (main_type : string)
    (sub_type budget : option string) : ExecEvent :=
  {| ev_job_id := job_id; ev_lat := Some lat; ev_lng := Some lng;
     ev_main_type := Some main_type; ev_sub_type := sub_type; ev_budget := budget |}.

Inductive ExecBody : Type :=
| ExecCompleted (jobId : string)
| ExecFailed (jobId error : string).

Record ExecResponse : Type := {
  ex_statusCode : Z;
  ex_body : ExecBody
}.

Definition empty_document (pv : Providers) : ResultDocument :=
  {| requestId := "req_" ++ uuid_hex8 pv;
     generatedAt := now_utc pv;
     ttlSeconds := 300;
     markers := [] |}.

(** The [try] block of the handler up to the result document. *)
Definition execute (cfg : Config.env) (pv : Providers) (fuel : nat) (event : ExecEvent)
  : option (result ResultDocument) :=
  match Config.validate cfg with
  | Some error_message => Some (Raise error_message)
  | None =>
      let lat := Py.get_default (ev_lat event) 0%Q in
      let lng := Py.get_default (ev_lng event) 0%Q in
      let main_type := Py.get_default (ev_main_type event) "" in
      let sub_type := Py.get_default (ev_sub_type event) "" in
      let budget := Py.get_default (ev_budget event) "" in
      if negb (Py.truthy_num lat && Py.truthy_num lng && Py.truthy main_type)
      then Some (Raise "缺少必需参数: lat, lng, main_type")
      else
        match fetch_data_and_process_images cfg pv fuel lat lng main_type sub_type budget with
        | None => None
        | Some fetched =>
            Some (processed_places ← fetched;
                  match processed_places with
                  | [] => Ok (empty_document pv)
                  | _ => generate_content_and_format pv processed_places main_type sub_type
                  end)
        end
  end.

(** [lambda_handler] of the executor: the storage after the run and the
    response. [None] only when the paging bound [fuel] was too small. *)
Definition executor_handler (cfg : Config.env) (pv : Providers) (fuel : nat)
    (event : ExecEvent) (s3 : S3) : option (S3 * ExecResponse) :=
  let job_id := Py.get_default (ev_job_id event) "unknown" in
  match execute cfg pv fuel event with
  | None => None
  | Some computed =>
      match (doc ← computed; save_result_to_s3 cfg pv s3 job_id doc "completed") with
      | Ok s3' =>
          Some (s3', {| ex_statusCode := 200; ex_body := ExecCompleted job_id |})
      | Raise e =>
          let s3' :=
            match save_error_to_s3 cfg pv s3 job_id e with
            | Ok s3' => s3'
            | Raise _ => s3
            end in
          Some (s3', {| ex_statusCode := 500; ex_body := ExecFailed job_id e |})
      end
  end.

(** ** Polling stage (lambda_c_checker.py) *)

(** The two spellings under which a request may carry the identifier. *)
Record JobIdFields : Type := {
  f_job_id : option string;
  f_jobId : option string
}.

Inductive RequestBody : Type :=
| BodyAbsent
| BodyNull
| BodyText (text : string)
| BodyObject (fields : JobIdFields).

Record CheckEvent : Type := {
  pathParameters : option JobIdFields;
  queryStringParameters : option JobIdFields;
  body : RequestBody
}.

(** [json.loads] on a request body. *)
Inductive BodyDecoding : Type :=
| DecodeError
| DecodedObject (fields : JobIdFields)
| DecodedOther.

Inductive CheckBody : Type :=
| CheckError (error : string)
| CheckCompleted (jobId : string) (completedAt : string)
    (result_doc : option ResultDocument)
| CheckFailed (jobId : string) (completedAt : string) (error : string)
| CheckOther (jobId status : string) (data : JobRecord)
| CheckProcessing (jobId message : string) (retryAfter : Z).

Record CheckResponse : Type := {
  ck_statusCode : Z;
  ck_body : CheckBody
}.

(** [d.get("job_id") or d.get("jobId")] *)
Definition pick_job_id (d : JobIdFields) : option string :=
  match truthy_id (f_job_id d) with
  | Some i => Some i
  | None => f_jobId d
  end.

Definition internal_error (message : string) : CheckResponse :=
  {| ck_statusCode := 500; ck_body := CheckError ("服务器内部错误: " ++ message) |}.

(** The answer once the identifier is known and the bucket configured. *)
Definition check_stored (s3 : S3) (job_id : string) : CheckResponse :=
  match get_object s3 (job_key job_id) with
  | Body result_data =>
      let status := jr_status result_data in
      if String.eqb status "completed" then
        {| ck_statusCode := 200;
           ck_body := CheckCompleted job_id (jr_completedAt result_data)
                        (jr_result result_data) |}
      else if String.eqb status "failed" then
        {| ck_statusCode := 200;
           ck_body := CheckFailed job_id (jr_completedAt result_data)
                        (Py.get_default (jr_error result_data) "未知错误") |}
      else
        {| ck_statusCode := 200; ck_body := CheckOther job_id status result_data |}
  | ClientError error_code =>
      if String.eqb error_code "NoSuchKey" || String.eqb error_code "404" then
        {| ck_statusCode := 200;
           ck_body := CheckProcessing job_id "任务正在处理中，请稍后再试" 5 |}
      else internal_error error_code
  end.

(** The identifier of the request: from the path, else from the query
    string, else from the body. *)
Definition request_job_id (json_loads_body : string -> BodyDecoding)
    (event : CheckEvent) : result (option string) :=
  let job_id :=
    match pathParameters event with
    | Some d => pick_job_id d
    | None => None
    end in
  let job_id :=
    match truthy_id job_id, queryStringParameters event with
    | None, Some d => pick_job_id d
    | _, _ => job_id
    end in
  match truthy_id job_id with
  | Some i => Ok (Some i)
  | None =>
      match body event with
      | BodyAbsent => Ok None
      | BodyNull => Raise "'NoneType' object has no attribute 'get'"
      | BodyObject d => Ok (pick_job_id d)
      | BodyText text =>
          match json_loads_body text with
          | DecodeError => Ok None
          | DecodedObject d => Ok (pick_job_id d)
          | DecodedOther => Raise "object has no attribute 'get'"
          end
      end
  end.

Definition checker_handler (cfg : Config.env) (json_loads_body : string -> BodyDecoding)
    (event : CheckEvent) (s3 : S3) : CheckResponse :=
  match request_job_id json_loads_body event with
  | Raise message => internal_error message
  | Ok job_id =>
      match truthy_id job_id with
      | None => {| ck_statusCode := 400; ck_body := CheckError "缺少必需参数: job_id" |}
      | Some job_id =>
          if negb (Py.truthy (Config.S3_BUCKET_NAME cfg))
          then {| ck_statusCode := 500; ck_body := CheckError "S3_BUCKET_NAME 未配置" |}
          else check_stored s3 job_id
      end
  end.

(** ** The specification's formulas, for comparison with the code *)

(** The relevance value before rounding, in the words of the
    specification: base 0.5, plus a tenth of the rating when a non-zero
    rating is present, minus 0.05 per position, not below 0.1. *)
Definition spec_relevance (rating : Q) (i : nat) : Q :=
  Qmax (1 # 10)
       ((1 # 2) + (if Qeq_bool rating 0 then 0 else rating / 10)
        - (5 # 100) * inject_Z (Z.of_nat i)).

(** The score of the specification for a rating of [tenths] tenths at
    position [i], in hundredths: 50 and the tenths, less five per
    position, not below 10. *)
Definition scale_score (tenths : Z) (i : nat) : Z :=
  Z.max 10 (50 + tenths - 5 * Z.of_nat i).

(** In binary64 the rating [tenths]/10 scores at position [i] the double
    nearest to [scale_score tenths i] hundredths. *)
Definition f64_on_scale (tenths : Z) (i : nat) : bool :=
  F64.eqb (F64.relevance_score (F64.of_decimal tenths 10) i)
          (F64.of_decimal (scale_score tenths i) 100).

(** [r] is [x] rounded to two decimals: a whole number of hundredths
    that is as near to [x] as a hundredth can be. *)
Definition rounded_to_2_decimals (x r : Q) : Prop :=
  (exists n : Z, r = (n # 100)%Q) /\ (Qabs (r - x) <= 1 # 200)%Q.

(** A count of votes that is there and says something: present and
    not zero. *)
Definition present (votes : option Z) : option Z :=
  match votes with
  | Some n => if (n =? 0)%Z then None else Some n
  | None => None
  end.

(** The helpfulness signal of a review in the words of the
    specification: the likes when present, else the thumbs up, else the
    helpful votes; 0 when the review carries none of them. *)
Definition helpfulness_signal (review : Review) : Z :=
  match present (rv_likes review), present (rv_thumbs_up review),
        present (rv_helpful_votes review) with
  | Some n, _, _ => n
  | None, Some n, _ => n
  | None, None, Some n => n
  | None, None, None => 0
  end.

(** The rating a review gives, 0 when it gives none. *)
Definition review_rating (review : Review) : Z := Py.get_default (rv_rating review) 0%Z.

(** Reviews with texts, votes and ratings of several kinds. *)
Definition sample_reviews : list Review :=
  [ {| rv_text := Some "a"; rv_likes := Some 3%Z; rv_thumbs_up := None;
       rv_helpful_votes := None; rv_rating := Some 2%Z |};
    {| rv_text := Some "b"; rv_likes := None; rv_thumbs_up := None;
       rv_helpful_votes := None; rv_rating := Some 5%Z |};
    {| rv_text := None; rv_likes := Some 100%Z; rv_thumbs_up := None;
       rv_helpful_votes := None; rv_rating := Some 5%Z |};
    {| rv_text := Some "d"; rv_likes := None; rv_thumbs_up := Some 7%Z;
       rv_helpful_votes := None; rv_rating := Some 1%Z |};
    {| rv_text := Some "e"; rv_likes := Some 0%Z; rv_thumbs_up := None;
       rv_helpful_votes := Some 3%Z; rv_rating := Some 4%Z |};
    {| rv_text := Some "f"; rv_likes := None; rv_thumbs_up := None;
       rv_helpful_votes := None; rv_rating := Some 3%Z |};
    {| rv_text := Some ""; rv_likes := Some 50%Z; rv_thumbs_up := None;
       rv_helpful_votes := None; rv_rating := Some 5%Z |};
    {| rv_text := Some "g"; rv_likes := Some 0%Z; rv_thumbs_up := Some 0%Z;
       rv_helpful_votes := None; rv_rating := Some 5%Z |} ].

(** The coordinate fallback chain in the words of the specification:
    the coordinates of the generative response, else the geocoded
    address, else the search centre. *)
Definition spec_coordinate_chain (cfg : Config.env) (pv : Providers) (lat lng : Q)
    (place : GeminiPlace) : Q * Q :=
  match gp_lat place, gp_lng place with
  | Some la, Some lo => (la, lo)
  | _, _ =>
      match geocode_address cfg pv (gp_formatted_address place) with
      | Some coordinates => coordinates
      | None => (lat, lng)
      end
  end.

(** A result document without the fields that record when and under
    which request identifier it was produced. *)
Definition timeless_marker (m : Marker) : Marker :=
  {| m_id := m_id m;
     m_latitude := m_latitude m;
     m_longitude := m_longitude m;
     m_content :=
       {| c_id := c_id (m_content m);
          c_title := c_title (m_content m);
          c_headerImage := c_headerImage (m_content m);
          c_iconType := c_iconType (m_content m);
          c_editorData :=
            {| ed_time := 0;
               ed_blocks := ed_blocks (c_editorData (m_content m));
               ed_version := ed_version (c_editorData (m_content m)) |};
          c_createdAt := "";
          c_updatedAt := "" |};
     m_relevanceScore := m_relevanceScore m;
     m_tags := m_tags m;
     m_deeplink := m_deeplink m |}.

Definition timeless (doc : ResultDocument) : ResultDocument :=
  {| requestId := "";
     generatedAt := "";
     ttlSeconds := ttlSeconds doc;
     markers := map timeless_marker (markers doc) |}.

(** Whether a candidate handed to the assembler is a flea market, by
    the keyword match on its name and summary. *)
Definition flagged (p : Place) : bool :=
  is_flea_market (p_name p) (Py.get_default (p_summary p) "").

(** The relation decided by a boolean comparison. *)
Definition holds {A : Type} (le : A -> A -> bool) : relation A :=
  fun x y => le x y = true.

(** The storage after a successful write of [record] for [job_id]. *)
Definition stored (s3 : S3) (job_id : string) (record : JobRecord) : S3 :=
  {| s3_objects := <[job_key job_id := record]> (s3_objects s3); s3_fault := None |}.

(** A candidate with both coordinates. *)
Definition has_coordinates (place : Place) : Prop :=
  is_Some (p_lat place) /\ is_Some (p_lng place).

(** Every location the provider's place records carry has both
    members. *)
Definition complete_locations (pv : Providers) : Prop :=
  forall place_id reply location,
    details_api pv place_id = Ok reply ->
    pd_location (Py.get_default (dt_result reply) empty_details) = Some location ->
    is_Some (loc_lat location) /\ is_Some (loc_lng location).

(** The coordinates of [place] are those of the place record [reply]:
    the members of its location as they are, and the search centre
    when, and only when, the record has no location. *)
Definition coordinates_of_record (lat lng : Q) (reply : DetailsReply) (place : Place)
  : Prop :=
  match pd_location (Py.get_default (dt_result reply) empty_details) with
  | Some location => p_lat place = loc_lat location /\ p_lng place = loc_lng location
  | None => p_lat place = Some lat /\ p_lng place = Some lng
  end.

(** [place] is a structured-search candidate: the provider has a place
    record under its identifier, and its coordinates are the record's. *)
Definition from_place_record (pv : Providers) (lat lng : Q) (place : Place) : Prop :=
  exists reply,
    details_api pv (p_place_id place) = Ok reply
    /\ dt_status reply = "OK"
    /\ coordinates_of_record lat lng reply place.

(** [place] is the attraction built for the generative candidate
    [candidate]: at the search centre when the text search finds no
    place record for it, and otherwise at the coordinates of the record
    that was found. *)
Definition attraction_of (cfg : Config.env) (pv : Providers) (lat lng : Q)
    (candidate : GeminiPlace) (place : Place) : Prop :=
  match truthy_id (find_place_by_name_and_address cfg pv (gp_name candidate)
                     (gp_formatted_address candidate) lat lng) with
  | None =>
      p_name place = gp_name candidate
      /\ p_lat place = Some lat /\ p_lng place = Some lng
  | Some place_id =>
      p_place_id place = place_id
      /\ exists reply,
           details_api pv place_id = Ok reply
           /\ dt_status reply = "OK"
           /\ coordinates_of_record lat lng reply place
  end.

(** The details lookup of a nearby-search candidate succeeds. *)
Definition detailed (pv : Providers) (candidate : NearbyPlace) : Prop :=
  exists place_id reply,
    truthy_id (np_place_id candidate) = Some place_id
    /\ details_api pv place_id = Ok reply
    /\ dt_status reply = "OK".

(** [place] is the candidate built from the details of [candidate]. *)
Definition detail_of (pv : Providers) (lat lng : Q) (main_type : string)
    (place : Place) (candidate : NearbyPlace) : Prop :=
  exists place_id reply,
    np_place_id candidate = Some place_id
    /\ details_api pv place_id = Ok reply
    /\ place = structured_place_info lat lng main_type place_id
                (Py.get_default (dt_result reply) empty_details).

(** The decimal digit [d]. *)
Definition digit (d : nat) : string := String (ascii_of_nat (48 + d)) EmptyString.

(** ** Test doubles for the external collaborators *)

Module Stub.

Definition cfg : Config.env :=
  {| Config.GOOGLE_PLACES_API_KEY := "places-key";
     Config.GEMINI_API_KEY := "gemini-key";
     Config.S3_BUCKET_NAME := "mapannai";
     Config.S3_REGION := "ap-northeast-1" |}.

Definition lat : Q := 3568 # 100.
Definition lng : Q := 13976 # 100.

Definition unavailable {A : Type} : result A := Raise "connection refused".

(** Collaborators with fixed answers, a fixed clock and a given
    request-identifier draw. *)
Definition make (uuid : string)
    (search : result (option string))
    (places : string -> result (list GeminiItem))
    (nearby : NearbyParams -> result NearbyReply)
    (details : string -> result DetailsReply)
    (geocode : string -> result GeocodeReply)
    (textsearch : string -> result TextSearchReply)
    (summary : result (option string))
    (summaries : string -> result (list (string * string))) : Providers :=
  {| gemini_search := fun _ _ _ => search;
     json_loads_places := places;
     gemini_summarize := fun _ => summary;
     json_loads_summaries := summaries;
     nearby_api := nearby;
     details_api := details;
     geocode_api := geocode;
     textsearch_api := fun query _ => textsearch query;
     photo_transfer := fun _ _ => unavailable;
     time_s := 1705312800;
     time_ms := 1705312800000;
     now_utc := "2024-01-15T10:00:00Z";
     uuid_hex8 := uuid |}.

Definition offline (uuid : string) : Providers :=
  make uuid unavailable (fun _ => unavailable) (fun _ => unavailable)
    (fun _ => unavailable) (fun _ => unavailable) (fun _ => unavailable)
    unavailable (fun _ => unavailable).

(** A decoder that knows one text. *)
Definition decode {A : Type} (known : string) (value : A) (text : string) : result A :=
  if String.eqb text known then Ok value
  else Raise "Expecting value: line 1 column 1 (char 0)".

(** The generative model answers with an empty array. *)
Definition empty_array : Providers :=
  make "0a1b2c3d" (Ok (Some "[]")) (decode "[]" []) (fun _ => unavailable)
    (fun _ => unavailable) (fun _ => unavailable) (fun _ => unavailable)
    unavailable (fun _ => unavailable).

Definition item (name address summary : string) (coords : option (Q * Q)) : GeminiItem :=
  {| gi_place_name := Some name; gi_name := None;
     gi_place_address := Some address; gi_address := None;
     gi_latitude := fst <$> coords; gi_lat := None;
     gi_longitude := snd <$> coords; gi_lng := None;
     gi_summary := Some summary; gi_website := Some "" |}.

(** Seven events, flea markets and others mixed, some without
    coordinates. *)
Definition seven_events : list GeminiItem :=
  [ item "Summer Festival" "Chiyoda 1-1" "Fireworks on 2024-02-01" (Some (3569 # 100, 13975 # 100));
    item "Yoyogi Flea Market" "Shibuya 2-1" "Second-hand goods, 2024-01-20" (Some (3567 # 100, 13969 # 100));
    item "Jazz Night" "Minato 3-2" "Live music on 2024-01-25" None;
    item "Antique Fair" "" "古着 and furniture, 2024-01-28" None;
    item "Book Fair" "Kanda 1-5" "Old books, 2024-02-03" (Some (3570 # 100, 13976 # 100));
    item "Oi Racecourse フリマ" "Shinagawa 2-1-2" "Every weekend" None;
    item "Craft Show" "Koto 3-11" "Handmade crafts, 2024-02-10" (Some (3563 # 100, 13979 # 100)) ].

(** The geocoder knows one address. *)
Definition geocode_one (known : string) (coords : Q * Q) (address : string)
  : result GeocodeReply :=
  if String.eqb address known
  then Ok {| gc_status := "OK"; gc_results := [Some coords] |}
  else Ok {| gc_status := "ZERO_RESULTS"; gc_results := [] |}.

Definition events_mix : Providers :=
  make "0a1b2c3d" (Ok (Some "<seven events>")) (decode "<seven events>" seven_events)
    (fun _ => unavailable) (fun _ => unavailable)
    (geocode_one "Shinagawa 2-1-2" (3559 # 100, 13974 # 100))
    (fun _ => unavailable) unavailable (fun _ => unavailable).

(** One attraction with a geocodable address that the provider's text
    search does not find. *)
Definition one_attraction : list GeminiItem :=
  [ {| gi_place_name := None; gi_name := Some "Senso-ji";
       gi_place_address := None; gi_address := Some "Asakusa 2-3-1";
       gi_latitude := None; gi_lat := None; gi_longitude := None; gi_lng := None;
       gi_summary := Some "The oldest temple of the city"; gi_website := None |} ].

Definition attraction_unmatched : Providers :=
  make "0a1b2c3d" (Ok (Some "<one attraction>")) (decode "<one attraction>" one_attraction)
    (fun _ => unavailable) (fun _ => unavailable)
    (geocode_one "Asakusa 2-3-1" (357148 # 10000, 1397967 # 10000))
    (fun _ => Ok {| ts_status := "ZERO_RESULTS"; ts_results := [] |})
    unavailable (fun _ => unavailable).

(** Twelve restaurants on one page, ratings in tenths. *)
Definition candidate (id : string) (tenths : Z) : NearbyPlace :=
  {| np_place_id := Some id; np_rating := Some (tenths # 10) |}.

Definition twelve_candidates : list NearbyPlace :=
  [ candidate "r01" 38; candidate "r02" 45; candidate "r03" 41; candidate "r04" 47;
    candidate "r05" 33; candidate "r06" 45; candidate "r07" 29; candidate "r08" 49;
    candidate "r09" 40; candidate "r10" 36; candidate "r11" 44; candidate "r12" 42 ].

Definition details_of (place_id : string) : result DetailsReply :=
  Ok {| dt_status := "OK";
        dt_result :=
          Some {| pd_name := Some ("Restaurant " ++ place_id);
                  pd_rating := Some (4 # 1);
                  pd_formatted_address := Some "Chuo 1-1";
                  pd_website := None; pd_url := None;
                  pd_location := Some {| loc_lat := Some lat; loc_lng := Some lng |};
                  pd_photos := [];
                  pd_reviews := [] |} |}.

Definition food_twelve : Providers :=
  make "0a1b2c3d" unavailable (fun _ => unavailable)
    (fun _ => Ok {| nb_status := "OK"; nb_error_message := None;
                    nb_results := twelve_candidates; nb_next_page_token := None |})
    details_of (fun _ => unavailable) (fun _ => unavailable)
    (Ok (Some "[]")) (decode "[]" []).

(** Place records at positions of their own, away from the search
    centre; the record of [r04] has a location without latitude. *)
Definition details_at (place_id : string) : result DetailsReply :=
  Ok {| dt_status := "OK";
        dt_result :=
          Some {| pd_name := Some ("Place " ++ place_id);
                  pd_rating := Some (4 # 1);
                  pd_formatted_address := Some "Chuo 1-1";
                  pd_website := None; pd_url := None;
                  pd_location :=
                    Some {| loc_lat := if String.eqb place_id "r04" then None
                                       else Some (3570 # 100);
                            loc_lng := Some (13980 # 100) |};
                  pd_photos := [];
                  pd_reviews := [] |} |}.

Definition food_located : Providers :=
  make "0a1b2c3d" unavailable (fun _ => unavailable)
    (fun _ => Ok {| nb_status := "OK"; nb_error_message := None;
                    nb_results := [candidate "r01" 38; candidate "r02" 45];
                    nb_next_page_token := None |})
    details_at (fun _ => unavailable) (fun _ => unavailable)
    (Ok (Some "[]")) (decode "[]" []).

Definition food_partial_location : Providers :=
  make "0a1b2c3d" unavailable (fun _ => unavailable)
    (fun _ => Ok {| nb_status := "OK"; nb_error_message := None;
                    nb_results := [candidate "r04" 47];
                    nb_next_page_token := None |})
    details_at (fun _ => unavailable) (fun _ => unavailable)
    (Ok (Some "[]")) (decode "[]" []).

(** Two attractions: the text search finds a place record for the
    first and none for the second. *)
Definition two_attractions : list GeminiItem :=
  [ {| gi_place_name := None; gi_name := Some "Meiji Jingu";
       gi_place_address := None; gi_address := Some "Yoyogi 1-1";
       gi_latitude := None; gi_lat := None; gi_longitude := None; gi_lng := None;
       gi_summary := Some "A shrine in a forest"; gi_website := None |};
    {| gi_place_name := None; gi_name := Some "Senso-ji";
       gi_place_address := None; gi_address := Some "Asakusa 2-3-1";
       gi_latitude := None; gi_lat := None; gi_longitude := None; gi_lng := None;
       gi_summary := Some "The oldest temple of the city"; gi_website := None |} ].

Definition attractions_mixed : Providers :=
  make "0a1b2c3d" (Ok (Some "<two attractions>"))
    (decode "<two attractions>" two_attractions)
    (fun _ => unavailable) details_at
    (geocode_one "Asakusa 2-3-1" (357148 # 10000, 1397967 # 10000))
    (fun query =>
       if String.eqb query "Meiji Jingu Yoyogi 1-1"
       then Ok {| ts_status := "OK"; ts_results := [Some "a01"] |}
       else Ok {| ts_status := "ZERO_RESULTS"; ts_results := [] |})
    unavailable (fun _ => unavailable).

(** The twelve restaurants again; the place record of [r04], one of the
    five best rated, is gone. *)
Definition details_but (gone place_id : string) : result DetailsReply :=
  if String.eqb place_id gone
  then Ok {| dt_status := "NOT_FOUND"; dt_result := None |}
  else details_of place_id.

Definition food_one_gone : Providers :=
  make "0a1b2c3d" unavailable (fun _ => unavailable)
    (fun _ => Ok {| nb_status := "OK"; nb_error_message := None;
                    nb_results := twelve_candidates; nb_next_page_token := None |})
    (details_but "r04") (fun _ => unavailable) (fun _ => unavailable)
    (Ok (Some "[]")) (decode "[]" []).

(** [float] on the strings of the examples. *)
Definition float_of (s : string) : result Q :=
  if String.eqb s "0" then Ok 0%Q
  else if String.eqb s "35.68" then Ok (3568 # 100)%Q
  else if String.eqb s "139.76" then Ok (13976 # 100)%Q
  else Raise ("could not convert string to float: '" ++ s ++ "'").

Definition s3_empty : S3 := {| s3_objects := ∅; s3_fault := None |}.

Definition event_for (job_id main_type : string) : ExecEvent :=
  request (Some job_id) lat lng main_type None None.

Definition plain_place (name : string) (rating : Q) : Place :=
  {| p_place_id := "id-" ++ name; p_name := name; p_formatted_address := "Chuo 1-1";
     p_summary := Some "A place"; p_rating := rating; p_website := "";
     p_photo_reference := None; p_s3_image_url := None; p_s3_image_urls := [];
     p_lat := Some lat; p_lng := Some lng; p_reviews := [] |}.

End Stub.

(** ** Submission stage (lambda_a_starter.py) *)

(** A JSON value as the starter finds it under [lat] or [lng]. An array
    and an object count only by being empty or not. *)
Inductive JsonValue : Type :=
| JNull
| JBool (b : bool)
| JNumber (x : Q)
| JString (s : string)
| JArray (empty : bool)
| JObject (empty : bool).

(** [bool(v)] *)
Definition json_truthy (v : JsonValue) : bool :=
  match v with
  | JNull => false
  | JBool b => b
  | JNumber x => Py.truthy_num x
  | JString s => Py.truthy s
  | JArray empty | JObject empty => negb empty
  end.

(** [float(v)]. [float_of_str] is [float] on a string: the number the
    string denotes, or the [ValueError]. *)
Definition json_float (float_of_str : string -> result Q) (v : JsonValue) : result Q :=
  match v with
  | JNumber x => Ok x
  | JBool b => Ok (if b then 1%Q else 0%Q)
  | JString s => float_of_str s
  | JNull => Raise "float() argument must be a string or a real number, not 'NoneType'"
  | JArray _ => Raise "float() argument must be a string or a real number, not 'list'"
  | JObject _ => Raise "float() argument must be a string or a real number, not 'dict'"
  end.

(** The fields the starter reads from the request body. [lat] and
    [lng] are tested for truth as they come and converted afterwards, so
    they are kept as JSON values; the other three are handed on as they
    are and are taken to be strings. *)
Record StartFields : Type := {
  sf_lat : option JsonValue;
  sf_lng : option JsonValue;
  sf_main_type : option string;
  sf_sub_type : option string;
  sf_budget : option string
}.

Inductive StartRequest : Type :=
| StartAbsent
| StartNull
| StartText (text : string)
| StartObject (fields : StartFields).

(** [json.loads] on the body of a submission; the error carries the
    message of the [JSONDecodeError]. *)
Inductive StartDecoding : Type :=
| StartDecodeError (message : string)
| StartDecoded (fields : StartFields)
| StartDecodedOther.

(** [lambda_b_payload]: what the executor reads, and the creation time. *)
Record Payload : Type := {
  pl_event : ExecEvent;
  pl_created_at : string
}.

(** The collaborators of the starter: the identifier draw
    [uuid.uuid4().hex], the clock, and the asynchronous invocation with
    the [StatusCode] it reports. *)
Record Dispatcher : Type := {
  uuid_hex : string;
  created_now : string;
  invoke : Payload -> result Z
}.

Inductive StartBody : Type :=
| StartAccepted (jobId status createdAt pollUrl : string)
| StartError (error : string).

Record StartResponse : Type := {
  st_statusCode : Z;
  st_body : StartBody
}.

Definition start_empty : StartFields :=
  {| sf_lat := None; sf_lng := None; sf_main_type := None;
     sf_sub_type := None; sf_budget := None |}.

(** The body as a dictionary: [Raise] is the [AttributeError] of a
    [.get] on something that is none, [inl] the decoder's error. *)
Definition start_fields (json_loads_start : string -> StartDecoding)
    (body : StartRequest) : result (string + StartFields) :=
  match body with
  | StartAbsent => Ok (inr start_empty)
  | StartNull => Raise "'NoneType' object has no attribute 'get'"
  | StartObject fields => Ok (inr fields)
  | StartText text =>
      match json_loads_start text with
      | StartDecodeError message => Ok (inl message)
      | StartDecoded fields => Ok (inr fields)
      | StartDecodedOther => Raise "object has no attribute 'get'"
      end
  end.

Definition start_server_error (message : string) : StartResponse :=
  {| st_statusCode := 500; st_body := StartError ("服务器内部错误: " ++ message) |}.

Definition start_missing : StartResponse :=
  {| st_statusCode := 400; st_body := StartError "缺少必需参数: lat, lng, main_type" |}.

(** The payload built from the converted coordinates. *)
Definition start_payload (dp : Dispatcher) (fields : StartFields) (lat lng : Q) : Payload :=
  {| pl_event :=
       {| ev_job_id := Some ("job_" ++ uuid_hex dp);
          ev_lat := Some lat; ev_lng := Some lng;
          ev_main_type := Some (Py.get_default (sf_main_type fields) "");
          ev_sub_type := Some (Py.get_default (sf_sub_type fields) "");
          ev_budget := Some (Py.get_default (sf_budget fields) "") |};
     pl_created_at := created_now dp |}.

(** [lambda_handler] of the starter: the payload handed to the
    invocation, if the handler got that far, and the response. The
    parameters are tested with [all] on the values as they were sent;
    [float] is applied when the payload is built. *)
Definition starter_handler (dp : Dispatcher) (json_loads_start : string -> StartDecoding)
    (float_of_str : string -> result Q) (body : StartRequest)
  : option Payload * StartResponse :=
  match start_fields json_loads_start body with
  | Raise message => (None, start_server_error message)
  | Ok (inl message) =>
      (None, {| st_statusCode := 400; st_body := StartError ("JSON 解析错误: " ++ message) |})
  | Ok (inr fields) =>
      let lat := Py.get_default (sf_lat fields) JNull in
      let lng := Py.get_default (sf_lng fields) JNull in
      let main_type := Py.get_default (sf_main_type fields) "" in
      if negb (json_truthy lat && json_truthy lng && Py.truthy main_type)
      then (None, start_missing)
      else
        let job_id := "job_" ++ uuid_hex dp in
        match json_float float_of_str lat with
        | Raise message => (None, start_server_error message)
        | Ok lat_value =>
            match json_float float_of_str lng with
            | Raise message => (None, start_server_error message)
            | Ok lng_value =>
                let payload := start_payload dp fields lat_value lng_value in
                match invoke dp payload with
                | Raise message => (Some payload, start_server_error message)
                | Ok status_code =>
                    if negb (status_code =? 202)%Z
                    then (Some payload,
                          start_server_error
                            ("Lambda B 调用失败，状态码: " ++ int_str status_code))
                    else (Some payload,
                          {| st_statusCode := 202;
                             st_body := StartAccepted job_id "processing" (created_now dp)
                                          ("/recommendation/status/" ++ job_id) |})
                end
            end
        end
  end.

(** ** Notions used in the statements about the stages *)

(** The status a poll reports. *)
Definition reported_status (body : CheckBody) : option string :=
  match body with
  | CheckError _ => None
  | CheckCompleted _ _ _ => Some "completed"
  | CheckFailed _ _ _ => Some "failed"
  | CheckOther _ status _ => Some status
  | CheckProcessing _ _ _ => Some "processing"
  end.

(** The identifier of a nearby-search candidate whose details lookup
    is answered with status OK; [None] for a candidate without an
    identifier or with any other answer. *)
Definition looked_up (pv : Providers) (candidate : NearbyPlace) : option string :=
  match truthy_id (np_place_id candidate) with
  | Some place_id =>
      match details_api pv place_id with
      | Ok reply => if String.eqb (dt_status reply) "OK" then Some place_id else None
      | Raise _ => None
      end
  | None => None
  end.

(** A poll that carries the identifier in the path. *)
Definition poll_request (job_id : string) : CheckEvent :=
  {| pathParameters := Some {| f_job_id := Some job_id; f_jobId := None |};
     queryStringParameters := None;
     body := BodyNull |}.

Definition is_image_block (block : Block) : bool :=
  match block with
  | ImageBlock _ _ _ => true
  | _ => false
  end.

(** The three categories with a result cap. *)
Definition known_category (main_type : string) : Prop :=
  main_type = FOOD \/ main_type = ATTRACTIONS \/ main_type = EVENTS.

(** Two sets of collaborators that answer the generative search, the
    decoding of its response and the geocoding alike, and read the same
    clock. *)
Definition same_generative_side (pv1 pv2 : Providers) : Prop :=
  (forall lat lng main_type,
      gemini_search pv1 lat lng main_type = gemini_search pv2 lat lng main_type)
  /\ (forall text, json_loads_places pv1 text = json_loads_places pv2 text)
  /\ (forall address, geocode_api pv1 address = geocode_api pv2 address)
  /\ time_s pv1 = time_s pv2.

(** A text without a backtick. *)
Fixpoint no_backtick (s : string) : bool :=
  match s with
  | EmptyString => true
  | String c s' => negb (Ascii.eqb c "`"%char) && no_backtick s'
  end.

(** ** Sanity checks of the embedding *)

Example strip_fenced : Py.strip "  []
" = "[]".
Proof. reflexivity. Qed.

Example endswith_fence : Py.endswith "[]```" "```" = true.
Proof. reflexivity. Qed.

Example contains_kw : Py.contains (Py.lower "Yoyogi Flea Market") "flea market" = true.
Proof. reflexivity. Qed.

Example format_02d_7 : Py.format_02d 7 = "07".
Proof. reflexivity. Qed.

Example format_02d_123 : Py.format_02d 123 = "123".
Proof. reflexivity. Qed.

Example is_flea_market_jp : is_flea_market "代々木公園フリーマーケット" "" = true.
Proof. reflexivity. Qed.

Example is_flea_market_no : is_flea_market "夏祭り" "花火大会" = false.
Proof. reflexivity. Qed.

Example take_chars_utf8 : take_chars 2 "蚤の市" = "蚤の".
Proof. reflexivity. Qed.

Example relevance_score_43_0 : relevance_score (43 # 10) 0 = (93 # 100)%Q.
Proof. reflexivity. Qed.

Example relevance_score_0_2 : relevance_score 0 2 = (40 # 100)%Q.
Proof. reflexivity. Qed.

Example relevance_score_at_floor : relevance_score 0 9 = (10 # 100)%Q.
Proof. reflexivity. Qed.

(** ** General facts: the stable sort *)

Section SortedFacts.
Context {A : Type} (le : A -> A -> bool).

Lemma insert_perm x l : Py.insert le x l ≡ₚ x :: l.
Proof.
  induction l as [|y l IH]; simpl; [done|].
  destruct (le x y); [done|].
  rewrite IH. apply Permutation_swap.
Qed.

Lemma sorted_perm l : Py.sorted le l ≡ₚ l.
Proof.
  induction l as [|x l IH]; simpl; [done|].
  by rewrite insert_perm, IH.
Qed.

Lemma sorted_length l : length (Py.sorted le l) = length l.
Proof. apply Permutation_length, sorted_perm. Qed.

Hypothesis le_total : forall x y, le x y = true \/ le y x = true.
Hypothesis le_trans : forall x y z, le x y = true -> le y z = true -> le x z = true.

Lemma insert_sorted x l :
  StronglySorted (holds le) l -> StronglySorted (holds le) (Py.insert le x l).
Proof.
  induction 1 as [|y l Hl IH Hy]; simpl.
  - repeat constructor.
  - destruct (le x y) eqn:Hxy.
    + constructor; [by constructor|].
      constructor; [done|].
      eapply Forall_impl; [exact Hy|]. intros z Hz. by eapply le_trans.
    + constructor; [done|].
      rewrite insert_perm. constructor; [|done].
      destruct (le_total x y) as [H|H]; [congruence|done].
Qed.

Lemma sorted_StronglySorted l : StronglySorted (holds le) (Py.sorted le l).
Proof. induction l; simpl; [constructor|by apply insert_sorted]. Qed.
End SortedFacts.

Lemma StronglySorted_take {A} (R : relation A) n l :
  StronglySorted R l -> StronglySorted R (take n l).
Proof.
  intros H. rewrite <- (take_drop n l) in H.
  by apply StronglySorted_app_1_l in H.
Qed.

Lemma StronglySorted_lookup {A} (R : relation A) l i j x y :
  StronglySorted R l -> (i < j)%nat -> l !! i = Some x -> l !! j = Some y -> R x y.
Proof.
  intros H. revert i j. induction H as [|z l Hl IH Hz]; intros i j Hij Hi Hj; [done|].
  destruct i as [|i], j as [|j]; try lia; simpl in *.
  - inversion Hi; subst. rewrite Forall_forall in Hz. apply Hz.
    by eapply list_elem_of_lookup_2.
  - apply (IH i j); [lia|done..].
Qed.

(** ** The order of strings *)

Lemma ascii_compare_trans_lt a b c :
  Ascii.compare a b = Lt -> Ascii.compare b c = Lt -> Ascii.compare a c = Lt.
Proof. unfold Ascii.compare. rewrite !N.compare_lt_iff. lia. Qed.

Lemma string_compare_trans_lt s1 : forall s2 s3,
  String.compare s1 s2 = Lt -> String.compare s2 s3 = Lt -> String.compare s1 s3 = Lt.
Proof.
  induction s1 as [|a s1 IH]; intros [|b s2] [|c s3]; simpl; try done.
  destruct (Ascii.compare a b) eqn:Hab; try done.
  - apply Ascii.compare_eq_iff in Hab as ->.
    destruct (Ascii.compare b c) eqn:Hbc; try done. apply IH.
  - destruct (Ascii.compare b c) eqn:Hbc; try done.
    + apply Ascii.compare_eq_iff in Hbc as <-. by rewrite Hab.
    + by rewrite (ascii_compare_trans_lt a b c).
Qed.

Lemma string_leb_trans s1 s2 s3 :
  String.leb s1 s2 = true -> String.leb s2 s3 = true -> String.leb s1 s3 = true.
Proof.
  unfold String.leb.
  destruct (String.compare s1 s2) eqn:H12; try done;
    destruct (String.compare s2 s3) eqn:H23; try done; intros _ _.
  - apply String.compare_eq_iff in H12 as ->. by rewrite H23.
  - apply String.compare_eq_iff in H12 as ->. by rewrite H23.
  - apply String.compare_eq_iff in H23 as <-. by rewrite H12.
  - by rewrite (string_compare_trans_lt s1 s2 s3).
Qed.

(** ** Events: flea markets first *)

Lemma flea_le_total x y : flea_le x y = true \/ flea_le y x = true.
Proof.
  unfold flea_le, key_le. destruct (flea_key x) as [b1 n1], (flea_key y) as [b2 n2].
  simpl. destruct (String.leb_total n1 n2) as [H|H]; rewrite H;
    destruct b1, b2; simpl; auto.
Qed.

Lemma flea_le_trans x y z :
  flea_le x y = true -> flea_le y z = true -> flea_le x z = true.
Proof.
  unfold flea_le, key_le.
  destruct (flea_key x) as [b1 n1], (flea_key y) as [b2 n2], (flea_key z) as [b3 n3].
  simpl. destruct b1, b2, b3; simpl; try done;
    rewrite ?orb_false_r; apply string_leb_trans.
Qed.

Lemma tag_flea_market_key g :
  flea_key (tag_flea_market g)
  = (negb (is_flea_market (gp_name g) (gp_summary g)), gp_name g).
Proof. done. Qed.

Lemma flea_le_order x y :
  gp_is_flea_market x = Some (is_flea_market (gp_name x) (gp_summary x)) ->
  gp_is_flea_market y = Some (is_flea_market (gp_name y) (gp_summary y)) ->
  flea_le x y = true ->
  (is_flea_market (gp_name y) (gp_summary y) = true ->
   is_flea_market (gp_name x) (gp_summary x) = true)
  /\ (is_flea_market (gp_name x) (gp_summary x) = is_flea_market (gp_name y) (gp_summary y) ->
      String.leb (gp_name x) (gp_name y) = true).
Proof.
  unfold flea_le, key_le, flea_key. intros -> ->. simpl.
  destruct (is_flea_market (gp_name x) _), (is_flea_market (gp_name y) _);
    simpl; rewrite ?orb_false_r; intros H; split; try done.
Qed.

Lemma ranked_tagged places :
  Forall (fun g => gp_is_flea_market g
                   = Some (is_flea_market (gp_name g) (gp_summary g)))
         (Py.sorted flea_le (map tag_flea_market places)).
Proof.
  rewrite sorted_perm. apply Forall_forall. intros g Hg.
  apply list_elem_of_fmap in Hg as (g0 & -> & _). done.
Qed.

Lemma events_result cfg pv lat lng places :
  Py.truthy (Config.GOOGLE_PLACES_API_KEY cfg) = true ->
  fetch_places_via_gemini pv lat lng EVENTS = Ok places ->
  fetch_places_via_gemini_and_process_images cfg pv lat lng EVENTS
  = Ok (map (event_place_info cfg pv lat lng) (rank_events places)).
Proof.
  intros Hkey Hfetch. unfold fetch_places_via_gemini_and_process_images.
  rewrite Hkey, Hfetch. simpl. by destruct places.
Qed.

(** C4. For the events category the candidates handed on are the first
    MARKET_MAX_RESULTS of a reordering of the parsed candidates in which
    every flea-market candidate (keyword match on name and summary)
    comes before every other candidate and each of the two groups is in
    ascending order of name. *)
Theorem events_flea_markets_first cfg pv lat lng places :
  Py.truthy (Config.GOOGLE_PLACES_API_KEY cfg) = true ->
  fetch_places_via_gemini pv lat lng EVENTS = Ok places ->
  exists ranked out,
    ranked ≡ₚ map tag_flea_market places
    /\ (forall i j x y, (i < j)%nat -> ranked !! i = Some x -> ranked !! j = Some y ->
          (is_flea_market (gp_name y) (gp_summary y) = true ->
           is_flea_market (gp_name x) (gp_summary x) = true)
          /\ (is_flea_market (gp_name x) (gp_summary x)
               = is_flea_market (gp_name y) (gp_summary y) ->
              String.leb (gp_name x) (gp_name y) = true))
    /\ fetch_places_via_gemini_and_process_images cfg pv lat lng EVENTS = Ok out
    /\ out = map (event_place_info cfg pv lat lng) (take Config.MARKET_MAX_RESULTS ranked)
    /\ (forall i j p q, (i < j)%nat -> out !! i = Some p -> out !! j = Some q ->
          (flagged q = true -> flagged p = true)
          /\ (flagged p = flagged q -> String.leb (p_name p) (p_name q) = true)).
Proof.
  intros Hkey Hfetch.
  set (ranked := Py.sorted flea_le (map tag_flea_market places)).
  assert (Hord : forall i j x y, (i < j)%nat ->
            ranked !! i = Some x -> ranked !! j = Some y ->
            (is_flea_market (gp_name y) (gp_summary y) = true ->
             is_flea_market (gp_name x) (gp_summary x) = true)
            /\ (is_flea_market (gp_name x) (gp_summary x)
                 = is_flea_market (gp_name y) (gp_summary y) ->
                String.leb (gp_name x) (gp_name y) = true)).
  { intros i j x y Hij Hx Hy.
    pose proof (ranked_tagged places) as Htag. rewrite Forall_forall in Htag.
    apply flea_le_order.
    - apply Htag. by eapply list_elem_of_lookup_2.
    - apply Htag. by eapply list_elem_of_lookup_2.
    - eapply (StronglySorted_lookup (holds flea_le) ranked i j); [|done..].
      apply sorted_StronglySorted; [apply flea_le_total|apply flea_le_trans]. }
  exists ranked, (map (event_place_info cfg pv lat lng) (take Config.MARKET_MAX_RESULTS ranked)).
  split; [apply sorted_perm|]. split; [exact Hord|].
  split; [by apply events_result|]. split; [done|].
  intros i j p q Hij Hp Hq.
  rewrite list_lookup_fmap in Hp, Hq.
  apply fmap_Some in Hp as (x & Hx & ->). apply fmap_Some in Hq as (y & Hy & ->).
  apply lookup_take_Some in Hx as [Hx _]. apply lookup_take_Some in Hy as [Hy _].
  exact (Hord i j x y Hij Hx Hy).
Qed.

Lemma events_flea_markets_first_witness :
  exists ranked out,
    ranked ≡ₚ map tag_flea_market
               (omap (M := list) (parse_gemini_item EVENTS) Stub.seven_events)
    /\ fetch_places_via_gemini_and_process_images Stub.cfg Stub.events_mix
         Stub.lat Stub.lng EVENTS = Ok out
    /\ map p_name out
       = ["Antique Fair"; "Oi Racecourse フリマ"; "Yoyogi Flea Market";
          "Book Fair"; "Craft Show"]
    /\ map flagged out = [true; true; true; false; false].
Proof.
  destruct (events_flea_markets_first Stub.cfg Stub.events_mix Stub.lat Stub.lng
              (omap (M := list) (parse_gemini_item EVENTS) Stub.seven_events))
    as (ranked & out & Hperm & _ & Hout & _ & _).
  - reflexivity.
  - reflexivity.
  - exists ranked, out. split; [exact Hperm|]. split; [exact Hout|].
    assert (Ok out = fetch_places_via_gemini_and_process_images Stub.cfg Stub.events_mix
                       Stub.lat Stub.lng EVENTS) as Heq by (by rewrite Hout).
    vm_compute in Heq. injection Heq as ->. split; reflexivity.
Defined.

(** ** Rounding *)

Lemma round_half_even_near x :
  (inject_Z (round_half_even x) - (1 # 2) <= x
   /\ x <= inject_Z (round_half_even x) + (1 # 2))%Q.
Proof.
  unfold round_half_even.
  pose proof (Qfloor_le x) as Hlo. pose proof (Qlt_floor x) as Hhi.
  rewrite inject_Z_plus in Hhi. change (inject_Z 1) with 1%Q in Hhi.
  destruct ((x - inject_Z (Qfloor x) ?= 1 # 2)%Q) eqn:Hc.
  - apply (proj2 (Qeq_alt _ _)) in Hc. destruct (Z.even (Qfloor x));
      rewrite ?inject_Z_plus; change (inject_Z 1) with 1%Q; split; lra.
  - apply (proj2 (Qlt_alt _ _)) in Hc. split; lra.
  - apply (proj2 (Qgt_alt _ _)) in Hc. rewrite inject_Z_plus. change (inject_Z 1) with 1%Q.
    split; lra.
Qed.

Lemma round_half_even_Z n : round_half_even (inject_Z n) = n.
Proof.
  unfold round_half_even. rewrite Qfloor_Z.
  assert ((inject_Z n - inject_Z n ?= 1 # 2)%Q = Lt) as ->; [|done].
  apply (proj1 (Qlt_alt _ _)). lra.
Qed.

Lemma round_half_even_comp x y : (x == y)%Q -> round_half_even x = round_half_even y.
Proof.
  intros H. unfold round_half_even. rewrite (Qfloor_comp x y H).
  assert ((x - inject_Z (Qfloor y) ?= 1 # 2) = (y - inject_Z (Qfloor y) ?= 1 # 2))%Q as ->;
    [|done].
  apply Qcompare_comp; [|done]. by rewrite H.
Qed.

(** An integer within a half of [x] from above and below. *)
Lemma Z_le_of_Q (n m : Z) : (inject_Z n <= inject_Z m)%Q -> (n <= m)%Z.
Proof. by rewrite <- Zle_Qle. Qed.

Lemma Z_lt_of_Q (n m : Z) : (inject_Z n < inject_Z m)%Q -> (n < m)%Z.
Proof. by rewrite <- Zlt_Qlt. Qed.

Lemma hundredths_value (n : Z) : (n # 100 == inject_Z n * (1 # 100))%Q.
Proof. unfold Qeq. simpl. lia. Qed.

Lemma hundredths_le (n m : Z) : (n # 100 <= m # 100)%Q <-> (n <= m)%Z.
Proof. unfold Qle. simpl. lia. Qed.

Lemma hundredths_lt (n m : Z) : (n # 100 < m # 100)%Q <-> (n < m)%Z.
Proof. unfold Qlt. simpl. lia. Qed.

Lemma inject_Z_penalty (a i : Z) :
  inject_Z (a - 5 * i) = (inject_Z a - 5 * inject_Z i)%Q.
Proof.
  unfold Z.sub. by rewrite inject_Z_plus, inject_Z_opp, inject_Z_mult.
Qed.

(** The score in hundredths. *)
Lemma relevance_score_hundredths rating idx :
  relevance_score rating idx
  = (Z.max 10 (round_half_even (base_score rating * 100) - 5 * Z.of_nat idx) # 100)%Q.
Proof.
  unfold relevance_score.
  set (a := round_half_even (base_score rating * 100)).
  unfold round2 at 2. fold a. unfold round2. f_equal.
  unfold py_max.
  destruct (Qle_bool _ (1 # 10)) eqn:Hle.
  - apply Qle_bool_iff in Hle.
    rewrite (round_half_even_comp _ (inject_Z 10)) by reflexivity.
    rewrite round_half_even_Z.
    rewrite hundredths_value in Hle.
    assert (inject_Z (a - 5 * Z.of_nat idx) <= inject_Z 10)%Q as H.
    { rewrite inject_Z_penalty. change (inject_Z 10) with 10%Q. lra. }
    apply Z_le_of_Q in H. lia.
  - assert (~ (a # 100) - inject_Z (Z.of_nat idx) * (5 # 100) <= 1 # 10)%Q as Hgt.
    { intros H. apply Qle_bool_iff in H. congruence. }
    rewrite (round_half_even_comp _ (inject_Z (a - 5 * Z.of_nat idx))).
    2:{ rewrite hundredths_value, inject_Z_penalty. ring. }
    rewrite round_half_even_Z.
    rewrite hundredths_value in Hgt.
    assert (inject_Z 10 < inject_Z (a - 5 * Z.of_nat idx))%Q as H.
    { rewrite inject_Z_penalty. change (inject_Z 10) with 10%Q. lra. }
    apply Z_lt_of_Q in H. lia.
Qed.

Lemma base_score_spec rating :
  (base_score rating == (1 # 2) + (if Qeq_bool rating 0 then 0 else rating / 10))%Q.
Proof.
  unfold base_score, Py.truthy_num. destruct (Qeq_bool rating 0); simpl; ring.
Qed.

Lemma base_score_comp r1 r2 : (r1 == r2)%Q -> (base_score r1 == base_score r2)%Q.
Proof.
  intros H. unfold base_score, Py.truthy_num.
  assert (Qeq_bool r1 0 = Qeq_bool r2 0) as ->.
  { destruct (Qeq_bool r2 0) eqn:H2.
    - apply Qeq_bool_iff. apply Qeq_bool_iff in H2. by rewrite H.
    - destruct (Qeq_bool r1 0) eqn:H1; [|done].
      apply Qeq_bool_iff in H1. rewrite H in H1. apply Qeq_bool_iff in H1. congruence. }
  destruct (Qeq_bool r2 0); simpl; [done|]. by rewrite H.
Qed.

Lemma relevance_score_comp r1 r2 idx :
  (r1 == r2)%Q -> relevance_score r1 idx = relevance_score r2 idx.
Proof.
  intros H. rewrite !relevance_score_hundredths.
  rewrite (round_half_even_comp (base_score r1 * 100) (base_score r2 * 100)); [done|].
  by rewrite (base_score_comp r1 r2 H).
Qed.

Lemma marker_lookup pv places main_type sub_type i :
  markers (format_places_to_markers pv places main_type sub_type) !! i
  = make_marker pv main_type sub_type i <$> places !! i.
Proof. unfold format_places_to_markers. simpl. apply list_lookup_imap. Qed.

(** On the provider's scale the decimal score is the score of the
    specification, with nothing left to round. *)
Lemma base_score_on_scale rating tenths :
  (rating == tenths # 10)%Q -> (0 <= tenths)%Z ->
  round_half_even (base_score rating * 100) = (50 + tenths)%Z.
Proof.
  intros Hrating Htenths.
  rewrite (round_half_even_comp _ (inject_Z (50 + tenths))); [apply round_half_even_Z|].
  rewrite (base_score_comp _ _ Hrating). unfold base_score, Py.truthy_num.
  destruct (Qeq_bool (tenths # 10) 0) eqn:Hzero; simpl.
  - apply Qeq_bool_iff in Hzero. unfold Qeq in Hzero. simpl in Hzero.
    assert (tenths = 0)%Z as -> by lia. reflexivity.
  - unfold Qeq, Qplus, Qmult, Qdiv, Qinv, inject_Z. simpl. lia.
Qed.

Lemma relevance_score_on_scale rating tenths i :
  (rating == tenths # 10)%Q -> (0 <= tenths)%Z ->
  relevance_score rating i = (scale_score tenths i # 100)%Q.
Proof.
  intros Hrating Htenths. rewrite relevance_score_hundredths.
  by rewrite (base_score_on_scale rating tenths).
Qed.

Lemma spec_relevance_on_scale rating tenths i :
  (rating == tenths # 10)%Q -> (0 <= tenths)%Z ->
  (scale_score tenths i # 100 == spec_relevance rating i)%Q.
Proof.
  intros Hrating Htenths. unfold spec_relevance, scale_score.
  set (x := ((1 # 2) + (if Qeq_bool rating 0 then 0 else rating / 10)
             - (5 # 100) * inject_Z (Z.of_nat i))%Q).
  assert (x == (50 + tenths - 5 * Z.of_nat i) # 100)%Q as Hx.
  { unfold x. destruct (Qeq_bool rating 0) eqn:Hzero.
    - apply Qeq_bool_iff in Hzero. rewrite Hrating in Hzero.
      unfold Qeq in Hzero. simpl in Hzero. assert (tenths = 0)%Z as -> by lia.
      unfold Qeq, Qplus, Qminus, Qmult, Qopp, inject_Z. simpl. lia.
    - rewrite Hrating. unfold Qeq, Qplus, Qminus, Qmult, Qdiv, Qinv, Qopp, inject_Z.
      simpl. lia. }
  destruct (Q.max_spec (1 # 10) x) as [[Hlt ->]|[Hle ->]].
  - rewrite Hx in *. unfold Qlt in Hlt. simpl in Hlt.
    by rewrite Z.max_r by lia.
  - rewrite Hx in Hle. unfold Qle in Hle. simpl in Hle.
    rewrite Z.max_l by lia. reflexivity.
Qed.

(** The same in binary64, position by position. *)
Lemma F64_eqb_eq x y : F64.eqb x y = true -> x = y.
Proof.
  destruct x as [s|s| |s m e], y as [t|t| |t n f]; simpl; try done.
  - intros H. apply Bool.eqb_prop in H. by subst.
  - intros H. apply Bool.eqb_prop in H. by subst.
  - intros H. apply andb_true_iff in H as [H He]. apply andb_true_iff in H as [Hs Hm].
    apply Bool.eqb_prop in Hs. apply Pos.eqb_eq in Hm. apply Z.eqb_eq in He. by subst.
Qed.

Lemma f64_on_scale_all :
  forallb (fun tenths => forallb (f64_on_scale (Z.of_nat tenths)) (seq 0 60)) (seq 0 51)
  = true.
Proof. vm_compute. reflexivity. Qed.

Lemma f64_relevance_score_on_scale tenths i :
  (0 <= tenths <= 50)%Z -> (i < 60)%nat ->
  F64.relevance_score (F64.of_decimal tenths 10) i
  = F64.of_decimal (scale_score tenths i) 100.
Proof.
  intros Htenths Hi. apply F64_eqb_eq.
  pose proof f64_on_scale_all as Hall.
  rewrite forallb_forall in Hall.
  specialize (Hall (Z.to_nat tenths)).
  rewrite forallb_forall in Hall. rewrite Z2Nat.id in Hall by lia.
  apply Hall; apply in_seq; lia.
Qed.

(** C2, as amended. For a rating on the provider's scale - a whole
    number of tenths from 0 to 5 - the marker of the candidate at
    position [i] carries as relevanceScore the value of the formula:
    base 0.5, plus rating/10 when the rating is not zero, minus 0.05
    times [i], not below 0.1. On this scale the value is a whole number
    of hundredths, so that rounding to two decimals changes nothing, and
    for the first sixty positions the two assignments of the program,
    evaluated in binary64, give the double nearest to it. *)
Theorem relevance_score_formula pv places main_type sub_type i place tenths :
  places !! i = Some place ->
  (p_rating place == tenths # 10)%Q ->
  (0 <= tenths <= 50)%Z ->
  (i < 60)%nat ->
  exists m,
    markers (format_places_to_markers pv places main_type sub_type) !! i = Some m
    /\ m_relevanceScore m = (scale_score tenths i # 100)%Q
    /\ (scale_score tenths i # 100 == spec_relevance (p_rating place) i)%Q
    /\ F64.relevance_score (F64.of_decimal tenths 10) i
       = F64.of_decimal (scale_score tenths i) 100.
Proof.
  intros Hplace Hrating Htenths Hi. rewrite marker_lookup, Hplace. simpl.
  eexists. split; [reflexivity|]. simpl.
  split; [apply relevance_score_on_scale; [done|lia]|].
  split; [apply spec_relevance_on_scale; [done|lia]|].
  by apply f64_relevance_score_on_scale.
Qed.

Lemma relevance_score_formula_witness :
  exists m,
    markers (format_places_to_markers (Stub.offline "0a1b2c3d")
               [Stub.plain_place "Ichiran" (43 # 10); Stub.plain_place "Afuri" (40 # 10)]
               FOOD "") !! 1%nat = Some m
    /\ m_relevanceScore m = (85 # 100)%Q
    /\ (85 # 100 == spec_relevance (40 # 10) 1)%Q
    /\ F64.relevance_score (F64.of_decimal 40 10) 1 = F64.of_decimal 85 100.
Proof.
  apply (relevance_score_formula (Stub.offline "0a1b2c3d")
           [Stub.plain_place "Ichiran" (43 # 10); Stub.plain_place "Afuri" (40 # 10)]
           FOOD "" 1 (Stub.plain_place "Afuri" (40 # 10)) 40);
    [reflexivity|reflexivity|lia|lia].
Defined.

(** C2, as stated, fails off that scale, in two ways. The double
    nearest to 4.05 lies just below 4.05, and so does the value of the
    formula below 0.905: rounded to two decimals it is 0.90. The program
    scores 0.91: the quotient and the sum are rounded to doubles on the
    way, and the sum arrives just above 0.905. And the program rounds
    twice: for the double nearest to 1.05, which lies just above it, the
    formula gives a little more than 0.505 at position 2, that is 0.51;
    the program first rounds 0.605 down to 0.60 and ends at 0.50. *)
Lemma relevance_score_double_rounding :
  (let rating := F64.of_decimal 405 100 in
   exists exact : Q,
     F64.to_Q rating = Some exact
     /\ (exact < 405 # 100)%Q
     /\ F64.relevance_score rating 0 = F64.of_decimal 91 100
     /\ rounded_to_2_decimals (spec_relevance exact 0) (90 # 100)
     /\ ~ rounded_to_2_decimals (spec_relevance exact 0) (91 # 100))
  /\ (let rating := F64.of_decimal 105 100 in
      exists exact : Q,
        F64.to_Q rating = Some exact
        /\ (105 # 100 < exact)%Q
        /\ F64.relevance_score rating 2 = F64.of_decimal 50 100
        /\ rounded_to_2_decimals (spec_relevance exact 2) (51 # 100)
        /\ ~ rounded_to_2_decimals (spec_relevance exact 2) (50 # 100)).
Proof.
  split; intros rating; (eexists; split; [vm_compute; reflexivity|]);
    (split; [by vm_compute|]); (split; [vm_compute; reflexivity|]); split.
  - split; [by exists 90%Z|]. apply Qle_bool_iff. vm_compute. reflexivity.
  - intros [_ H]. apply Qle_bool_iff in H. vm_compute in H. discriminate.
  - split; [by exists 51%Z|]. apply Qle_bool_iff. vm_compute. reflexivity.
  - intros [_ H]. apply Qle_bool_iff in H. vm_compute in H. discriminate.
Qed.

(** ** Range and order of the score *)

Lemma round_half_even_le_int x n : (x <= inject_Z n)%Q -> (round_half_even x <= n)%Z.
Proof.
  intros H. destruct (round_half_even_near x) as [Hlo _].
  assert (inject_Z (round_half_even x) < inject_Z (n + 1))%Q as Hlt.
  { rewrite inject_Z_plus. change (inject_Z 1) with 1%Q. lra. }
  apply Z_lt_of_Q in Hlt. lia.
Qed.

Lemma round_half_even_ge_int x n : (inject_Z n <= x)%Q -> (n <= round_half_even x)%Z.
Proof.
  intros H. destruct (round_half_even_near x) as [_ Hhi].
  assert (inject_Z n < inject_Z (round_half_even x + 1))%Q as Hlt.
  { rewrite inject_Z_plus. change (inject_Z 1) with 1%Q. lra. }
  apply Z_lt_of_Q in Hlt. lia.
Qed.

Lemma base_score_le_1 rating : (rating <= 5)%Q -> (base_score rating * 100 <= inject_Z 100)%Q.
Proof.
  intros H. unfold base_score. change (inject_Z 100) with 100%Q.
  destruct (Py.truthy_num rating); [|lra].
  unfold Qdiv. change (Qinv (Qmake 10 1)) with (Qmake 1 10). lra.
Qed.

Lemma base_score_ge_half rating : (0 <= rating)%Q -> (inject_Z 50 <= base_score rating * 100)%Q.
Proof.
  intros H. unfold base_score. change (inject_Z 50) with 50%Q.
  destruct (Py.truthy_num rating); [|lra].
  unfold Qdiv. change (Qinv (Qmake 10 1)) with (Qmake 1 10). lra.
Qed.

Lemma relevance_score_floor rating idx : (1 # 10 <= relevance_score rating idx)%Q.
Proof.
  rewrite relevance_score_hundredths. unfold Qle. simpl. lia.
Qed.

Lemma relevance_score_le_1 rating idx :
  (rating <= 5)%Q -> (relevance_score rating idx <= 1)%Q.
Proof.
  intros H. rewrite relevance_score_hundredths.
  pose proof (round_half_even_le_int _ _ (base_score_le_1 rating H)) as Ha.
  unfold Qle. simpl. lia.
Qed.

Lemma relevance_score_order rating i j :
  (i < j)%nat ->
  (relevance_score rating j <= relevance_score rating i)%Q
  /\ ((1 # 10 < relevance_score rating i)%Q ->
      (relevance_score rating j < relevance_score rating i)%Q)
  /\ ((0 <= rating)%Q -> (j < 5)%nat ->
      (relevance_score rating j < relevance_score rating i)%Q).
Proof.
  intros Hij. rewrite !relevance_score_hundredths.
  set (a := round_half_even (base_score rating * 100)).
  split; [apply hundredths_le; lia|]. split.
  - unfold Qlt. simpl. lia.
  - intros Hr Hj. pose proof (round_half_even_ge_int _ _ (base_score_ge_half rating Hr)) as Ha.
    fold a in Ha. apply hundredths_lt. lia.
Qed.




(** ** Review selection *)

Lemma review_ge_total x y : review_ge x y = true \/ review_ge y x = true.
Proof.
  unfold review_ge, score_ge.
  destruct (get_review_score x) as [l1 r1], (get_review_score y) as [l2 r2]. simpl.
  destruct (Z.ltb_spec l2 l1), (Z.ltb_spec l1 l2), (Z.eqb_spec l2 l1), (Z.eqb_spec l1 l2),
    (Z.leb_spec r2 r1), (Z.leb_spec r1 r2); simpl; auto; lia.
Qed.

Lemma review_ge_trans x y z :
  review_ge x y = true -> review_ge y z = true -> review_ge x z = true.
Proof.
  unfold review_ge, score_ge.
  destruct (get_review_score x) as [l1 r1], (get_review_score y) as [l2 r2],
    (get_review_score z) as [l3 r3]. simpl.
  destruct (Z.ltb_spec l2 l1), (Z.ltb_spec l3 l2), (Z.ltb_spec l3 l1),
    (Z.eqb_spec l2 l1), (Z.eqb_spec l3 l2), (Z.eqb_spec l3 l1),
    (Z.leb_spec r2 r1), (Z.leb_spec r3 r2), (Z.leb_spec r3 r1); simpl; auto; lia.
Qed.

Lemma review_ge_order x y :
  review_ge x y = true ->
  (fst (get_review_score y) <= fst (get_review_score x))%Z
  /\ (fst (get_review_score x) = fst (get_review_score y) ->
      (snd (get_review_score y) <= snd (get_review_score x))%Z).
Proof.
  unfold review_ge, score_ge.
  destruct (get_review_score x) as [l1 r1], (get_review_score y) as [l2 r2]. simpl.
  destruct (Z.ltb_spec l2 l1), (Z.eqb_spec l2 l1), (Z.leb_spec r2 r1); simpl; try done; lia.
Qed.

Lemma has_text_spec review :
  has_text review = true ->
  exists t, rv_text review = Some t /\ t <> "".
Proof.
  unfold has_text, Py.truthy. destruct (rv_text review) as [t|]; [|done].
  intros H. exists t. split; [done|]. intros ->. done.
Qed.

Lemma get_review_score_spec review :
  get_review_score review = (helpfulness_signal review, review_rating review).
Proof.
  unfold get_review_score, helpfulness_signal, review_rating, present, or_int.
  destruct (rv_likes review) as [l|], (rv_thumbs_up review) as [t|],
    (rv_helpful_votes review) as [h|];
    repeat (destruct (_ =? 0)%Z); reflexivity.
Qed.

(** C6. For a food candidate the review texts sent to narrative
    generation are those of the first five reviews of a ranking of its
    raw reviews that have a text: the ranking holds every review with a
    text and no other; a review comes before every review with a smaller
    helpfulness signal (the likes, else the thumbs up, else the helpful
    votes, 0 when there is none) and, between reviews with the same
    signal - in particular when none is present - before every review
    with a smaller rating. *)
Theorem select_reviews_top_five lat lng place_id place_details :
  let reviews := pd_reviews place_details in
  let place := structured_place_info lat lng FOOD place_id place_details in
  si_reviews (summary_input (String.eqb FOOD FOOD) place) = select_reviews reviews
  /\ exists ranked : list Review,
    ranked ≡ₚ filter (fun review => has_text review = true) reviews
    /\ (forall i j x y, (i < j)%nat -> ranked !! i = Some x -> ranked !! j = Some y ->
          (helpfulness_signal y <= helpfulness_signal x)%Z
          /\ (helpfulness_signal x = helpfulness_signal y ->
              (review_rating y <= review_rating x)%Z))
    /\ select_reviews reviews
       = map (fun review => Py.get_default (rv_text review) "") (take 5 ranked)
    /\ length (select_reviews reviews)
       = Nat.min 5 (length (filter (fun review => has_text review = true) reviews))
    /\ Forall (fun t => t <> "" /\ exists review, review ∈ reviews /\ rv_text review = Some t)
              (select_reviews reviews).
Proof.
  intros reviews place. split; [done|].
  set (valid := filter (fun review => has_text review = true) reviews).
  exists (Py.sorted review_ge valid).
  split; [apply sorted_perm|]. split.
  { intros i j x y Hij Hx Hy.
    assert (review_ge x y = true) as Hge.
    { eapply (StronglySorted_lookup (holds review_ge) _ i j); [|done..].
      apply sorted_StronglySorted; [apply review_ge_total|apply review_ge_trans]. }
    apply review_ge_order in Hge. by rewrite !get_review_score_spec in Hge. }
  split; [done|]. split.
  { unfold select_reviews. fold valid.
    rewrite length_map, length_take, sorted_length. done. }
  unfold select_reviews. fold valid. apply Forall_forall. intros t Ht.
  apply list_elem_of_fmap in Ht as (review & -> & Hin).
  apply elem_of_take in Hin as (i & Hin & _).
  apply list_elem_of_lookup_2 in Hin. rewrite sorted_perm in Hin.
  apply list_elem_of_filter in Hin as [Htext Hin].
  apply has_text_spec in Htext as (t & Ht & Hne).
  rewrite Ht. simpl. split; [done|]. by exists review.
Qed.

(** Eight reviews: the two without a text are left out, the thumbs up
    and the helpful votes count where the likes are absent or zero, the
    rating decides between equal signals, and the sixth is cut. *)
Lemma select_reviews_top_five_witness :
  let place_details :=
    {| pd_name := Some "Ichiran"; pd_rating := Some (43 # 10);
       pd_formatted_address := None; pd_website := None; pd_url := None;
       pd_location := None; pd_photos := []; pd_reviews := sample_reviews |} in
  si_reviews (summary_input (String.eqb FOOD FOOD)
                (structured_place_info Stub.lat Stub.lng FOOD "r01" place_details))
  = ["d"; "e"; "a"; "b"; "g"].
Proof.
  intros place_details.
  destruct (select_reviews_top_five Stub.lat Stub.lng "r01" place_details) as [-> _].
  vm_compute. reflexivity.
Defined.

(** ** Polling *)

Lemma check_stored_not_found s3 job_id code :
  get_object s3 (job_key job_id) = ClientError code ->
  code = "NoSuchKey" \/ code = "404" ->
  check_stored s3 job_id
  = {| ck_statusCode := 200;
       ck_body := CheckProcessing job_id "任务正在处理中，请稍后再试" 5 |}.
Proof.
  intros Hget Hcode. unfold check_stored. rewrite Hget.
  by destruct Hcode as [-> | ->].
Qed.

(** C8. A poll for a job identifier whose record is absent from the
    storage answers with status code 200, the status processing and a
    retry delay of five seconds, and not with an error. *)
Theorem poll_absent_is_processing cfg json_loads_body event s3 job_id :
  request_job_id json_loads_body event = Ok (Some job_id) ->
  Py.truthy job_id = true ->
  Py.truthy (Config.S3_BUCKET_NAME cfg) = true ->
  s3_fault s3 = None ->
  s3_objects s3 !! job_key job_id = None ->
  checker_handler cfg json_loads_body event s3
  = {| ck_statusCode := 200;
       ck_body := CheckProcessing job_id "任务正在处理中，请稍后再试" 5 |}.
Proof.
  intros Hid Hjob Hbucket Hfault Habsent. unfold checker_handler.
  rewrite Hid. unfold truthy_id. rewrite Hjob, Hbucket. simpl.
  apply check_stored_not_found with (code := "NoSuchKey"); [|by left].
  unfold get_object. by rewrite Hfault, Habsent.
Qed.

Lemma poll_absent_is_processing_witness :
  checker_handler Stub.cfg (fun _ => DecodeError)
    {| pathParameters := Some {| f_job_id := Some "3f2a9c1e"; f_jobId := None |};
       queryStringParameters := None; body := BodyNull |}
    Stub.s3_empty
  = {| ck_statusCode := 200;
       ck_body := CheckProcessing "3f2a9c1e" "任务正在处理中，请稍后再试" 5 |}.
Proof.
  apply poll_absent_is_processing; reflexivity.
Defined.

(** ** The assembler and its clock *)

Lemma make_marker_timeless pv1 pv2 main_type sub_type i place :
  timeless_marker (make_marker pv1 main_type sub_type i place)
  = timeless_marker (make_marker pv2 main_type sub_type i place).
Proof. done. Qed.

Lemma make_marker_same_clock pv1 pv2 main_type sub_type i place :
  now_utc pv1 = now_utc pv2 -> time_ms pv1 = time_ms pv2 ->
  make_marker pv1 main_type sub_type i place = make_marker pv2 main_type sub_type i place.
Proof. intros Hnow Hms. unfold make_marker. by rewrite Hnow, Hms. Qed.

(** C9, as amended. The assembler consults no collaborator other than
    the clock and the request-identifier draw: two invocations on the
    same candidates, category and subcategory give documents that agree
    in everything except requestId, generatedAt and the markers' time,
    createdAt and updatedAt, and give identical documents when the clock
    readings and the draw are the same. *)
Theorem assembler_deterministic_up_to_clock pv1 pv2 places main_type sub_type :
  timeless (format_places_to_markers pv1 places main_type sub_type)
  = timeless (format_places_to_markers pv2 places main_type sub_type)
  /\ (uuid_hex8 pv1 = uuid_hex8 pv2 -> now_utc pv1 = now_utc pv2 ->
      time_ms pv1 = time_ms pv2 ->
      format_places_to_markers pv1 places main_type sub_type
      = format_places_to_markers pv2 places main_type sub_type).
Proof.
  split.
  - unfold timeless, format_places_to_markers. simpl. f_equal.
    change (map timeless_marker ?l) with (timeless_marker <$> l).
    rewrite !fmap_imap. apply imap_ext. intros i place _. simpl.
    apply make_marker_timeless.
  - intros Huuid Hnow Hms. unfold format_places_to_markers.
    rewrite Huuid, Hnow. f_equal.
    apply imap_ext. intros i place _. by apply make_marker_same_clock.
Qed.

Lemma assembler_deterministic_up_to_clock_witness :
  format_places_to_markers Stub.events_mix [Stub.plain_place "Cafe" (43 # 10)] FOOD ""
  = format_places_to_markers Stub.food_twelve [Stub.plain_place "Cafe" (43 # 10)] FOOD "".
Proof.
  apply assembler_deterministic_up_to_clock; reflexivity.
Defined.

(** C9, as stated, fails: two invocations on the same candidates,
    category and subcategory that differ only in the request-identifier
    draw give different documents. *)
Lemma assembler_not_deterministic :
  format_places_to_markers (Stub.offline "0a1b2c3d")
    [Stub.plain_place "Cafe" (43 # 10)] FOOD ""
  <> format_places_to_markers (Stub.offline "9f8e7d6c")
       [Stub.plain_place "Cafe" (43 # 10)] FOOD "".
Proof. intros H. apply (f_equal requestId) in H. vm_compute in H. discriminate. Qed.

(** ** Marker identifiers *)

Lemma format_02d_two_digits n :
  (n < 100)%nat ->
  Py.format_02d n = digit (n `div` 10) ++ digit (n `mod` 10).
Proof.
  intros Hn.
  assert (forallb (fun k => String.eqb (Py.format_02d k)
                              (digit (k `div` 10) ++ digit (k `mod` 10)))
                  (seq 0 100) = true) as Hall by (vm_compute; reflexivity).
  rewrite forallb_forall in Hall.
  apply String.eqb_eq, Hall, in_seq. lia.
Qed.

(** C10. The marker at position [i] has the identifier "mk_" followed by
    [i + 1] in decimal, padded with a zero to two digits; its content
    identifier is "post_" followed by the same number; its deep link is
    "mapannai://marker/" followed by its own identifier. The identifier
    is that of position [i] whatever the candidates are. *)
Theorem marker_ids_positional pv places main_type sub_type i m :
  markers (format_places_to_markers pv places main_type sub_type) !! i = Some m ->
  m_id m = "mk_" ++ Py.format_02d (i + 1)
  /\ c_id (m_content m) = "post_" ++ Py.format_02d (i + 1)
  /\ m_deeplink m = "mapannai://marker/" ++ m_id m
  /\ ((i + 1 < 100)%nat ->
      Py.format_02d (i + 1) = digit ((i + 1) `div` 10) ++ digit ((i + 1) `mod` 10))
  /\ (forall pv' places' main_type' sub_type' m',
        markers (format_places_to_markers pv' places' main_type' sub_type') !! i = Some m' ->
        m_id m' = m_id m).
Proof.
  intros Hm. rewrite marker_lookup in Hm. apply fmap_Some in Hm as (place & _ & ->).
  split; [done|]. split; [done|]. split; [done|].
  split; [apply format_02d_two_digits|].
  intros pv' places' mt' st' m' Hm'. rewrite marker_lookup in Hm'.
  apply fmap_Some in Hm' as (place' & _ & ->). done.
Qed.

Lemma marker_ids_positional_witness :
  exists m,
    markers (format_places_to_markers (Stub.offline "0a1b2c3d")
               (replicate 12 (Stub.plain_place "Cafe" (43 # 10))) FOOD "") !! 9%nat = Some m
    /\ m_id m = "mk_10" /\ c_id (m_content m) = "post_10"
    /\ m_deeplink m = "mapannai://marker/mk_10".
Proof.
  eexists. split; [reflexivity|].
  destruct (marker_ids_positional (Stub.offline "0a1b2c3d")
              (replicate 12 (Stub.plain_place "Cafe" (43 # 10))) FOOD "" 9%nat _ eq_refl)
    as (Hid & Hcid & Hlink & _).
  rewrite Hlink, Hid, Hcid. repeat split; reflexivity.
Defined.

(** ** Execution: what is persisted *)

Lemma validate_None cfg :
  Config.validate cfg = None ->
  Py.truthy (Config.GOOGLE_PLACES_API_KEY cfg) = true
  /\ Py.truthy (Config.GEMINI_API_KEY cfg) = true
  /\ Py.truthy (Config.S3_BUCKET_NAME cfg) = true.
Proof.
  unfold Config.validate.
  destruct (Py.truthy (Config.GOOGLE_PLACES_API_KEY cfg)) eqn:H1,
    (Py.truthy (Config.GEMINI_API_KEY cfg)) eqn:H2,
    (Py.truthy (Config.S3_BUCKET_NAME cfg)) eqn:H3; try done;
    cbn; rewrite ?H1, ?H2, ?H3; cbn; done.
Qed.

Lemma fetch_empty_text pv lat lng main_type text :
  gemini_search pv lat lng main_type = Ok text ->
  Py.strip (Py.get_default text "") = "" ->
  fetch_places_via_gemini pv lat lng main_type = Raise "Gemini 返回空响应".
Proof.
  intros Hs Hempty. unfold fetch_places_via_gemini. rewrite Hs. simpl.
  destruct text as [t|]; simpl in *; [|done].
  destruct (Py.truthy t); [by rewrite Hempty|done].
Qed.

Section Events.
Context (cfg : Config.env) (pv : Providers) (fuel : nat) (s3 : S3).
Context (job_id : string) (lat lng : Q) (sub_type budget : option string).

Hypothesis cfg_valid : Config.validate cfg = None.
Hypothesis lat_given : Py.truthy_num lat = true.
Hypothesis lng_given : Py.truthy_num lng = true.
Hypothesis s3_up : s3_fault s3 = None.

Lemma execute_events :
  execute cfg pv fuel (request (Some job_id) lat lng EVENTS sub_type budget)
  = Some (processed_places ←
            fetch_places_via_gemini_and_process_images cfg pv lat lng EVENTS;
          match processed_places with
          | [] => Ok (empty_document pv)
          | _ => generate_content_and_format pv processed_places EVENTS
                   (Py.get_default sub_type "")
          end).
Proof.
  unfold execute. rewrite cfg_valid. simpl. rewrite lat_given, lng_given. done.
Qed.

Lemma events_zero_results :
  fetch_places_via_gemini pv lat lng EVENTS = Ok [] ->
  executor_handler cfg pv fuel (request (Some job_id) lat lng EVENTS sub_type budget) s3
  = Some (stored s3 job_id
            {| jr_jobId := job_id; jr_status := "completed";
               jr_completedAt := now_utc pv;
               jr_result := Some (empty_document pv); jr_error := None |},
          {| ex_statusCode := 200; ex_body := ExecCompleted job_id |}).
Proof.
  intros Hfetch. destruct (validate_None cfg cfg_valid) as (Hkey & _ & Hbucket).
  unfold executor_handler. rewrite execute_events.
  unfold fetch_places_via_gemini_and_process_images. rewrite Hkey, Hfetch. simpl.
  unfold save_result_to_s3, put_object. rewrite Hbucket, s3_up. done.
Qed.

Lemma events_search_raises msg :
  fetch_places_via_gemini pv lat lng EVENTS = Raise msg ->
  executor_handler cfg pv fuel (request (Some job_id) lat lng EVENTS sub_type budget) s3
  = Some (stored s3 job_id
            {| jr_jobId := job_id; jr_status := "failed";
               jr_completedAt := now_utc pv;
               jr_result := None; jr_error := Some msg |},
          {| ex_statusCode := 500; ex_body := ExecFailed job_id msg |}).
Proof.
  intros Hfetch. destruct (validate_None cfg cfg_valid) as (Hkey & _ & Hbucket).
  unfold executor_handler. rewrite execute_events.
  unfold fetch_places_via_gemini_and_process_images. rewrite Hkey, Hfetch. simpl.
  unfold save_error_to_s3, put_object. rewrite Hbucket, s3_up. done.
Qed.
End Events.

(** C1, as amended. For the events category the job is persisted as
    failed, with the error's message, when the generative search raises -
    which it does with the non-empty message [Gemini 返回空响应] on an
    empty response and with the decoder's message on a response that does
    not parse; when the response parses to zero results the job is
    persisted as completed, with a result document that has no markers. *)
Theorem events_zero_results_completed cfg pv fuel s3 job_id lat lng sub_type budget :
  Config.validate cfg = None ->
  Py.truthy_num lat = true ->
  Py.truthy_num lng = true ->
  s3_fault s3 = None ->
  let event := request (Some job_id) lat lng EVENTS sub_type budget in
  let failed msg :=
    Some (stored s3 job_id
            {| jr_jobId := job_id; jr_status := "failed"; jr_completedAt := now_utc pv;
               jr_result := None; jr_error := Some msg |},
          {| ex_statusCode := 500; ex_body := ExecFailed job_id msg |}) in
  (fetch_places_via_gemini pv lat lng EVENTS = Ok [] ->
   executor_handler cfg pv fuel event s3
   = Some (stored s3 job_id
             {| jr_jobId := job_id; jr_status := "completed";
                jr_completedAt := now_utc pv;
                jr_result := Some {| requestId := "req_" ++ uuid_hex8 pv;
                                     generatedAt := now_utc pv;
                                     ttlSeconds := 300;
                                     markers := [] |};
                jr_error := None |},
           {| ex_statusCode := 200; ex_body := ExecCompleted job_id |}))
  /\ (forall msg,
        fetch_places_via_gemini pv lat lng EVENTS = Raise msg ->
        executor_handler cfg pv fuel event s3 = failed msg)
  /\ (forall text,
        gemini_search pv lat lng EVENTS = Ok text ->
        Py.strip (Py.get_default text "") = "" ->
        executor_handler cfg pv fuel event s3 = failed "Gemini 返回空响应")
  /\ (forall text msg,
        gemini_search pv lat lng EVENTS = Ok (Some text) ->
        Py.truthy (strip_code_fence (Py.strip text)) = true ->
        json_loads_places pv (strip_code_fence (Py.strip text)) = Raise msg ->
        executor_handler cfg pv fuel event s3 = failed msg).
Proof.
  intros Hcfg Hlat Hlng Hs3 event failed. subst event failed.
  split; [by apply events_zero_results|].
  split; [intros msg; by apply events_search_raises|].
  split.
  - intros text Hs Hempty. apply events_search_raises; try done.
    by eapply fetch_empty_text.
  - intros text msg Hs Hclean Hjson. apply events_search_raises; try done.
    unfold fetch_places_via_gemini. rewrite Hs. simpl.
    destruct (Py.truthy text) eqn:Ht.
    + destruct (Py.truthy (Py.strip text)) eqn:Hstrip.
      * simpl. rewrite Hclean. simpl. by rewrite Hjson.
      * unfold Py.truthy in Hstrip. apply negb_false_iff, String.eqb_eq in Hstrip.
        rewrite Hstrip in Hclean. done.
    + unfold Py.truthy in Ht. apply negb_false_iff, String.eqb_eq in Ht. subst text.
      done.
Qed.

Lemma events_zero_results_completed_witness :
  executor_handler Stub.cfg Stub.empty_array 0 (Stub.event_for "job-1" EVENTS) Stub.s3_empty
  = Some (stored Stub.s3_empty "job-1"
            {| jr_jobId := "job-1"; jr_status := "completed";
               jr_completedAt := "2024-01-15T10:00:00Z";
               jr_result := Some {| requestId := "req_0a1b2c3d";
                                    generatedAt := "2024-01-15T10:00:00Z";
                                    ttlSeconds := 300;
                                    markers := [] |};
               jr_error := None |},
          {| ex_statusCode := 200; ex_body := ExecCompleted "job-1" |}).
Proof.
  apply (events_zero_results_completed Stub.cfg Stub.empty_array 0 Stub.s3_empty
           "job-1" Stub.lat Stub.lng None None); reflexivity.
Defined.

(** C1, as stated, fails: when the generative model answers the events
    search with an empty array, the response parses to zero results and
    the job is persisted as completed, without an error message. *)
Lemma events_empty_array_not_failed :
  fetch_places_via_gemini Stub.empty_array Stub.lat Stub.lng EVENTS = Ok []
  /\ exists s3' response record,
      executor_handler Stub.cfg Stub.empty_array 0 (Stub.event_for "job-1" EVENTS)
        Stub.s3_empty = Some (s3', response)
      /\ s3_objects s3' !! job_key "job-1" = Some record
      /\ jr_status record = "completed"
      /\ jr_status record <> "failed"
      /\ jr_error record = None
      /\ ex_body response = ExecCompleted "job-1".
Proof.
  split; [reflexivity|].
  eexists _, _, _. split; [reflexivity|].
  split; [vm_compute; reflexivity|]. done.
Qed.

(** ** Coordinates of the candidates *)

Lemma geocode_address_empty cfg pv : geocode_address cfg pv "" = None.
Proof. unfold geocode_address. by destruct (negb _). Qed.

(** For an events candidate the code resolves the coordinates as the
    chain of the specification does. *)
Lemma event_coordinates_chain cfg pv lat lng place :
  event_coordinates cfg pv lat lng place
  = (Some (fst (spec_coordinate_chain cfg pv lat lng place)),
     Some (snd (spec_coordinate_chain cfg pv lat lng place))).
Proof.
  unfold event_coordinates, spec_coordinate_chain.
  destruct (gp_lat place) as [la|], (gp_lng place) as [lo|]; try done;
    (destruct (Py.truthy (gp_formatted_address place)) eqn:Haddr;
     [by destruct (geocode_address _ _ _)|];
     unfold Py.truthy in Haddr; apply negb_false_iff, String.eqb_eq in Haddr;
     by rewrite Haddr, geocode_address_empty).
Qed.

(** A candidate placed by [location_or_center] has the coordinates of
    the record. *)
Lemma location_or_center_record lat lng reply place :
  (p_lat place, p_lng place)
  = location_or_center lat lng (Py.get_default (dt_result reply) empty_details) ->
  coordinates_of_record lat lng reply place.
Proof.
  unfold location_or_center, coordinates_of_record.
  destruct (pd_location _) as [location|]; by intros [= -> ->].
Qed.

(** Coordinates taken from a record with a complete location, or from
    the search centre, are both there. *)
Lemma coordinates_of_record_complete pv lat lng place_id reply place :
  complete_locations pv ->
  details_api pv place_id = Ok reply ->
  coordinates_of_record lat lng reply place ->
  has_coordinates place.
Proof.
  intros Hcomplete Hreply. unfold coordinates_of_record, has_coordinates.
  destruct (pd_location _) as [location|] eqn:Hloc.
  - intros [-> ->]. by eapply Hcomplete.
  - intros [-> ->]. eauto.
Qed.

Lemma attraction_places_coordinates cfg pv lat lng candidates : forall places,
  attraction_places cfg pv lat lng candidates = Ok places ->
  Forall (fun place =>
            exists candidate,
              candidate ∈ candidates /\ attraction_of cfg pv lat lng candidate place)
         places.
Proof.
  induction candidates as [|candidate rest IH]; intros places Hres; simpl in Hres.
  - injection Hres as <-. constructor.
  - assert (forall others,
              attraction_places cfg pv lat lng rest = Ok others ->
              Forall (fun place =>
                        exists candidate',
                          candidate' ∈ candidate :: rest
                          /\ attraction_of cfg pv lat lng candidate' place) others)
      as Hrest.
    { intros others Hothers. eapply Forall_impl; [by apply IH|].
      intros place (candidate' & Hin & Hof). exists candidate'. split; [by right|done]. }
    destruct (truthy_id _) as [place_id|] eqn:Hfind.
    + destruct (details_api pv place_id) as [reply|msg] eqn:Hreply; simpl in Hres; [|done].
      destruct (String.eqb_spec (dt_status reply) "OK") as [Hok|_]; simpl in Hres;
        [|by apply Hrest].
      destruct (attraction_places cfg pv lat lng rest) as [others|]; simpl in Hres; [|done].
      injection Hres as <-. constructor; [|by apply Hrest].
      exists candidate. split; [by left|]. unfold attraction_of. rewrite Hfind.
      split; [done|]. exists reply. split; [done|]. split; [done|].
      apply location_or_center_record. simpl. by destruct (location_or_center _ _ _).
    + destruct (attraction_places cfg pv lat lng rest) as [others|]; simpl in Hres; [|done].
      injection Hres as <-. constructor; [|by apply Hrest].
      exists candidate. split; [by left|]. unfold attraction_of. by rewrite Hfind.
Qed.

Lemma details_loop_coordinates pv lat lng main_type candidates : forall places,
  details_loop pv lat lng main_type candidates = Ok places ->
  Forall (from_place_record pv lat lng) places.
Proof.
  induction candidates as [|candidate rest IH]; intros places Hres; simpl in Hres.
  - injection Hres as <-. constructor.
  - destruct (truthy_id _) as [place_id|]; [|by apply IH].
    destruct (details_api pv place_id) as [reply|msg] eqn:Hreply; simpl in Hres; [|done].
    destruct (String.eqb_spec (dt_status reply) "OK") as [Hok|_]; simpl in Hres;
      [|by apply IH].
    destruct (details_loop pv lat lng main_type rest) as [others|]; simpl in Hres; [|done].
    injection Hres as <-. constructor; [|by apply IH].
    exists reply. split; [done|]. split; [done|].
    apply location_or_center_record. simpl. by destruct (location_or_center _ _ _).
Qed.

Lemma with_uploaded_photo_coordinates cfg pv lat lng place :
  from_place_record pv lat lng place ->
  from_place_record pv lat lng (with_uploaded_photo cfg pv place).
Proof. unfold with_uploaded_photo. by destruct (truthy_id _). Qed.

(** Narrative generation leaves the coordinates as they are. *)
Lemma with_summary_coordinates d place :
  has_coordinates place -> has_coordinates (with_summary d place).
Proof. done. Qed.

(** Coordinates that the generative response gives under its primary
    keys, both different from zero, are the coordinates of the parsed
    candidate. *)
Lemma parse_gemini_item_supplied item la lo :
  Py.truthy (Py.or_str (gi_place_name item) (Py.get_default (gi_name item) "")) = true ->
  gi_latitude item = Some la -> Py.truthy_num la = true ->
  gi_longitude item = Some lo -> Py.truthy_num lo = true ->
  exists candidate,
    parse_gemini_item EVENTS item = Some candidate
    /\ gp_lat candidate = Some la /\ gp_lng candidate = Some lo.
Proof.
  intros Hname Hla Hla0 Hlo Hlo0. unfold parse_gemini_item.
  change (String.eqb EVENTS EVENTS) with true. cbv iota.
  rewrite Hname, Hla, Hlo. unfold Py.or_num. rewrite Hla0, Hlo0. simpl.
  eexists. split; [done|]. done.
Qed.

Lemma events_chain_Forall2 cfg pv lat lng ranked :
  Forall2 (fun place candidate =>
             p_lat place = Some (fst (spec_coordinate_chain cfg pv lat lng candidate))
             /\ p_lng place = Some (snd (spec_coordinate_chain cfg pv lat lng candidate)))
          (map (event_place_info cfg pv lat lng) ranked) ranked.
Proof.
  induction ranked as [|candidate rest IH]; simpl; constructor; [|done].
  unfold event_place_info. simpl. by rewrite event_coordinates_chain.
Qed.

Lemma attraction_of_complete cfg pv lat lng candidate place :
  complete_locations pv ->
  attraction_of cfg pv lat lng candidate place ->
  has_coordinates place.
Proof.
  intros Hcomplete. unfold attraction_of. destruct (truthy_id _) as [place_id|].
  - intros (_ & reply & Hreply & _ & Hcoords).
    by eapply coordinates_of_record_complete.
  - intros (_ & Hla & Hlo). unfold has_coordinates. rewrite Hla, Hlo. eauto.
Qed.

(** C7, as amended. For the events category every candidate has both
    coordinates, resolved by the chain: the coordinates read from the
    generative response, else the geocoded address, else the search
    centre. For the attractions of the generative search a candidate for
    which the text search finds no place record is at the search centre,
    and one with a record has the record's coordinates; for the
    structured search every candidate has the coordinates of its place
    record. The coordinates of a record are the members of its location,
    copied as they are, and the search centre exactly when the record
    has no location; no address is geocoded. Hence, outside the events
    category, the candidates have both coordinates as far as the
    provider's locations carry both members. *)
Theorem candidates_have_coordinates cfg pv fuel lat lng main_type sub_type budget places :
  fetch_data_and_process_images cfg pv fuel lat lng main_type sub_type budget
  = Some (Ok places) ->
  (main_type = EVENTS \/ complete_locations pv -> Forall has_coordinates places)
  /\ (main_type = EVENTS ->
      exists candidates,
        fetch_places_via_gemini pv lat lng EVENTS = Ok candidates
        /\ Forall2 (fun place candidate =>
                      p_lat place
                      = Some (fst (spec_coordinate_chain cfg pv lat lng candidate))
                      /\ p_lng place
                         = Some (snd (spec_coordinate_chain cfg pv lat lng candidate)))
                   places (rank_events candidates))
  /\ (main_type = ATTRACTIONS ->
      exists candidates,
        fetch_places_via_gemini pv lat lng ATTRACTIONS = Ok candidates
        /\ Forall (fun place =>
                     exists candidate,
                       candidate ∈ take Config.ATTRACTION_MAX_RESULTS candidates
                       /\ attraction_of cfg pv lat lng candidate place)
                  places)
  /\ (main_type <> EVENTS -> main_type <> ATTRACTIONS ->
      Forall (from_place_record pv lat lng) places).
Proof.
  intros Hres. unfold fetch_data_and_process_images in Hres.
  destruct (String.eqb main_type ATTRACTIONS || String.eqb main_type EVENTS) eqn:Hgen.
  - injection Hres as Hres. unfold fetch_places_via_gemini_and_process_images in Hres.
    destruct (negb _); [done|].
    destruct (fetch_places_via_gemini pv lat lng main_type) as [candidates|] eqn:Hfetch;
      simpl in Hres; [|done].
    destruct (String.eqb_spec main_type EVENTS) as [->|Hne].
    + assert (places = map (event_place_info cfg pv lat lng) (rank_events candidates))
        as -> by (destruct candidates; by injection Hres as <-).
      split; [|split; [|split]].
      * intros _. apply Forall_forall. intros place Hin.
        apply list_elem_of_fmap in Hin as (candidate & -> & _).
        unfold has_coordinates, event_place_info. simpl.
        rewrite event_coordinates_chain. simpl. eauto.
      * intros _. exists candidates. split; [done|]. apply events_chain_Forall2.
      * done.
      * done.
    + rewrite orb_false_r in Hgen. apply String.eqb_eq in Hgen as ->.
      assert (Forall (fun place =>
                        exists candidate,
                          candidate ∈ take Config.ATTRACTION_MAX_RESULTS candidates
                          /\ attraction_of cfg pv lat lng candidate place) places) as Hall.
      { destruct candidates as [|c candidates]; [injection Hres as <-; constructor|].
        change (String.eqb ATTRACTIONS ATTRACTIONS) with true in Hres. cbv iota in Hres.
        by apply attraction_places_coordinates. }
      split; [|split; [|split]].
      * intros [Hev|Hcomplete]; [done|].
        eapply Forall_impl; [exact Hall|]. intros place (candidate & _ & Hof).
        by eapply attraction_of_complete.
      * done.
      * intros _. by exists candidates.
      * done.
  - apply orb_false_iff in Hgen as [Hna Hne].
    apply String.eqb_neq in Hna, Hne.
    unfold structured_search in Hres. destruct (negb _); [done|].
    destruct (collect_pages _ _ _ _ _ _) as [[all_places|]|]; simpl in Hres; try done.
    destruct (details_loop pv lat lng main_type _) as [processed|] eqn:Hloop;
      simpl in Hres; [|done].
    injection Hres as <-.
    assert (Forall (from_place_record pv lat lng)
                   (map (with_uploaded_photo cfg pv) processed)) as Hall.
    { apply Forall_fmap. eapply Forall_impl; [by eapply details_loop_coordinates|].
      intros place H. by apply with_uploaded_photo_coordinates. }
    split; [|split; [|split]].
    + intros [Hev|Hcomplete]; [done|].
      eapply Forall_impl; [exact Hall|]. intros place (reply & Hreply & _ & Hcoords).
      by eapply coordinates_of_record_complete.
    + done.
    + done.
    + done.
Qed.

Lemma candidates_have_coordinates_witness :
  (exists places,
      fetch_data_and_process_images Stub.cfg Stub.events_mix 0 Stub.lat Stub.lng EVENTS "" ""
      = Some (Ok places)
      /\ Forall has_coordinates places
      /\ map (fun place => (p_name place, p_lat place, p_lng place)) places
         = [ ("Antique Fair", Some Stub.lat, Some Stub.lng);
             ("Oi Racecourse フリマ", Some (3559 # 100)%Q, Some (13974 # 100)%Q);
             ("Yoyogi Flea Market", Some (3567 # 100)%Q, Some (13969 # 100)%Q);
             ("Book Fair", Some (3570 # 100)%Q, Some (13976 # 100)%Q);
             ("Craft Show", Some (3563 # 100)%Q, Some (13979 # 100)%Q) ])
  /\ (exists places,
        fetch_data_and_process_images Stub.cfg Stub.attractions_mixed 0
          Stub.lat Stub.lng ATTRACTIONS "" "" = Some (Ok places)
        /\ Forall (fun place =>
                     exists candidate,
                       attraction_of Stub.cfg Stub.attractions_mixed Stub.lat Stub.lng
                         candidate place) places
        /\ map (fun place => (p_name place, p_lat place, p_lng place)) places
           = [ ("Place a01", Some (3570 # 100)%Q, Some (13980 # 100)%Q);
               ("Senso-ji", Some Stub.lat, Some Stub.lng) ])
  /\ (exists places,
        fetch_data_and_process_images Stub.cfg Stub.food_located 1
          Stub.lat Stub.lng FOOD "" "" = Some (Ok places)
        /\ Forall (from_place_record Stub.food_located Stub.lat Stub.lng) places
        /\ map (fun place => (p_place_id place, p_lat place, p_lng place)) places
           = [ ("r02", Some (3570 # 100)%Q, Some (13980 # 100)%Q);
               ("r01", Some (3570 # 100)%Q, Some (13980 # 100)%Q) ]).
Proof.
  split; [|split].
  - eexists. split; [vm_compute; reflexivity|]. split; [|reflexivity].
    eapply (candidates_have_coordinates Stub.cfg Stub.events_mix 0 Stub.lat Stub.lng
              EVENTS "" ""); [vm_compute; reflexivity|by left].
  - eexists. split; [vm_compute; reflexivity|]. split; [|reflexivity].
    destruct (candidates_have_coordinates Stub.cfg Stub.attractions_mixed 0
                Stub.lat Stub.lng ATTRACTIONS "" "" _ eq_refl)
      as (_ & _ & (candidates & _ & Hall) & _); [reflexivity|].
    eapply Forall_impl; [exact Hall|]. intros place (candidate & _ & Hof).
    by exists candidate.
  - eexists. split; [vm_compute; reflexivity|]. split; [|reflexivity].
    eapply (candidates_have_coordinates Stub.cfg Stub.food_located 1 Stub.lat Stub.lng
              FOOD "" ""); [vm_compute; reflexivity|done|done].
Defined.

(** C7, as stated, fails for the attractions of the generative search:
    a candidate without coordinates whose address the geocoder resolves,
    but for which the provider has no place record, is placed at the
    search centre; the chain would place it at the geocoded address. *)
Lemma attraction_address_not_geocoded :
  exists candidate place,
    fetch_places_via_gemini Stub.attraction_unmatched Stub.lat Stub.lng ATTRACTIONS
    = Ok [candidate]
    /\ fetch_data_and_process_images Stub.cfg Stub.attraction_unmatched 0
         Stub.lat Stub.lng ATTRACTIONS "" "" = Some (Ok [place])
    /\ spec_coordinate_chain Stub.cfg Stub.attraction_unmatched Stub.lat Stub.lng candidate
       = ((357148 # 10000)%Q, (1397967 # 10000)%Q)
    /\ p_lat place = Some Stub.lat
    /\ p_lng place = Some Stub.lng
    /\ ~ (Stub.lat == 357148 # 10000)%Q
    /\ ~ (Stub.lng == 1397967 # 10000)%Q.
Proof.
  eexists _, _. split; [vm_compute; reflexivity|].
  split; [vm_compute; reflexivity|].
  split; [vm_compute; reflexivity|].
  split; [reflexivity|]. split; [reflexivity|].
  split; intros H; by compute in H.
Qed.

(** Nor is a candidate's position always there: a place record whose
    location lacks the latitude gives a candidate without latitude,
    which the assembler puts at latitude 0. *)
Lemma partial_location_gives_null_latitude :
  exists place doc m,
    fetch_data_and_process_images Stub.cfg Stub.food_partial_location 1
      Stub.lat Stub.lng FOOD "" "" = Some (Ok [place])
    /\ p_place_id place = "r04"
    /\ p_lat place = None
    /\ ~ has_coordinates place
    /\ generate_content_and_format Stub.food_partial_location [place] FOOD "" = Ok doc
    /\ markers doc = [m]
    /\ m_latitude m = 0%Q.
Proof.
  eexists _, _, _. split; [vm_compute; reflexivity|].
  split; [reflexivity|]. split; [reflexivity|].
  split; [intros [[la Hla] _]; discriminate|].
  split; [vm_compute; reflexivity|]. split; reflexivity.
Qed.

(** ** Food: the five best rated *)

Lemma rating_ge_total x y : rating_ge x y = true \/ rating_ge y x = true.
Proof.
  unfold rating_ge. rewrite !Qle_bool_iff.
  destruct (Qlt_le_dec (nearby_rating x) (nearby_rating y)) as [H|H]; [right|left]; [|done].
  by apply Qlt_le_weak.
Qed.

Lemma rating_ge_trans x y z :
  rating_ge x y = true -> rating_ge y z = true -> rating_ge x z = true.
Proof.
  unfold rating_ge. rewrite !Qle_bool_iff. intros H1 H2. by eapply Qle_trans.
Qed.

Lemma rank_collected_food all_places :
  rank_collected FOOD all_places
  = take Config.FOOD_MAX_RESULTS (Py.sorted rating_ge all_places).
Proof. by destruct all_places. Qed.

(** A provider that answers the first request with one page and no
    continuation token ends the collection with that page. *)
Lemma collect_single_page pv max_results fuel params reply :
  nearby_api pv params = Ok reply ->
  nb_status reply = "OK" ->
  truthy_id (nb_next_page_token reply) = None ->
  collect_pages pv max_results (S fuel) params None [] = Some (Ok (nb_results reply)).
Proof.
  intros Hreply Hok Htoken. simpl. rewrite Hreply, Hok. simpl.
  rewrite Htoken. by destruct (enough_collected _ _).
Qed.

Lemma truthy_id_Some place_id i : truthy_id place_id = Some i -> place_id = Some i.
Proof.
  unfold truthy_id. destruct place_id as [j|]; [|done].
  destruct (Py.truthy j); [|done]. by intros [= ->].
Qed.

Lemma details_loop_all pv lat lng main_type candidates :
  Forall (detailed pv) candidates ->
  exists places,
    details_loop pv lat lng main_type candidates = Ok places
    /\ Forall2 (detail_of pv lat lng main_type) places candidates.
Proof.
  induction 1 as [|candidate rest (place_id & reply & Hid & Hreply & Hok) _ (places & IH & Hall)].
  - by exists [].
  - simpl. rewrite Hid, Hreply. simpl. rewrite Hok. simpl. rewrite IH. simpl.
    eexists. split; [done|]. constructor; [|done].
    exists place_id, reply. split; [by apply truthy_id_Some|done].
Qed.

Lemma Forall2_imap_l {A B C} (R : A -> C -> Prop) (Q : B -> C -> Prop) l k :
  forall F : nat -> A -> B,
  (forall i a c, R a c -> Q (F i a) c) ->
  Forall2 R l k -> Forall2 Q (imap F l) k.
Proof.
  intros F HF H. revert F HF.
  induction H as [|a c l k Hac _ IH]; intros F HF; simpl; constructor.
  - by apply HF.
  - apply IH. intros i. apply HF.
Qed.

Lemma Forall2_fmap_l' {A B C} (R : A -> C -> Prop) (Q : B -> C -> Prop) (f : A -> B) l k :
  (forall a c, R a c -> Q (f a) c) ->
  Forall2 R l k -> Forall2 Q (map f l) k.
Proof. intros Hf H. induction H; simpl; constructor; auto. Qed.

Lemma generate_food pv places sub_type text summaries :
  gemini_summarize pv (map (summary_input (String.eqb FOOD FOOD)) places) = Ok (Some text) ->
  json_loads_summaries pv (strip_code_fence (Py.strip text)) = Ok summaries ->
  generate_content_and_format pv places FOOD sub_type
  = Ok (format_places_to_markers pv
          (map (with_summary (summaries_dict summaries)) places) FOOD sub_type).
Proof.
  intros Hsum Hjson. unfold generate_content_and_format.
  change (String.eqb FOOD ATTRACTIONS || String.eqb FOOD EVENTS) with false.
  cbv iota. rewrite Hsum. simpl. by rewrite Hjson.
Qed.

Lemma structured_search_food cfg pv fuel lat lng sub_type budget all_places :
  Py.truthy (Config.GOOGLE_PLACES_API_KEY cfg) = true ->
  collect_pages pv (get_max_results FOOD) fuel
    (nearby_params lat lng FOOD sub_type budget) None [] = Some (Ok all_places) ->
  Forall (detailed pv) all_places ->
  exists processed,
    Forall2 (detail_of pv lat lng FOOD) processed
      (take Config.FOOD_MAX_RESULTS (Py.sorted rating_ge all_places))
    /\ fetch_data_and_process_images cfg pv fuel lat lng FOOD sub_type budget
       = Some (Ok (map (with_uploaded_photo cfg pv) processed)).
Proof.
  intros Hkey Hcollect Hall.
  destruct (details_loop_all pv lat lng FOOD
              (take Config.FOOD_MAX_RESULTS (Py.sorted rating_ge all_places)))
    as (processed & Hloop & Hdetail).
  { apply Forall_take. by rewrite sorted_perm. }
  exists processed. split; [done|].
  unfold fetch_data_and_process_images.
  change (String.eqb FOOD ATTRACTIONS || String.eqb FOOD EVENTS) with false. cbv iota.
  unfold structured_search. rewrite Hkey, Hcollect. simpl.
  by rewrite rank_collected_food, Hloop.
Qed.



(** ** The executor and the poller together *)

Lemma put_object_ok s3 bucket key record :
  Py.truthy bucket = true -> s3_fault s3 = None ->
  put_object s3 bucket key record
  = Ok {| s3_objects := <[key := record]> (s3_objects s3); s3_fault := None |}.
Proof. intros Hb Hf. unfold put_object. by rewrite Hb, Hf. Qed.

Lemma put_object_fails s3 bucket key record :
  Py.truthy bucket = false \/ is_Some (s3_fault s3) ->
  exists message, put_object s3 bucket key record = Raise message.
Proof.
  unfold put_object. intros [Hb|[code Hf]].
  - rewrite Hb. by eexists.
  - destruct (negb _); [by eexists|]. rewrite Hf. by eexists.
Qed.

Lemma check_stored_after s3 job_id record :
  check_stored (stored s3 job_id record) job_id
  = if String.eqb (jr_status record) "completed" then
      {| ck_statusCode := 200;
         ck_body := CheckCompleted job_id (jr_completedAt record) (jr_result record) |}
    else if String.eqb (jr_status record) "failed" then
      {| ck_statusCode := 200;
         ck_body := CheckFailed job_id (jr_completedAt record)
                      (Py.get_default (jr_error record) "未知错误") |}
    else {| ck_statusCode := 200; ck_body := CheckOther job_id (jr_status record) record |}.
Proof.
  unfold check_stored, get_object, stored. simpl. by rewrite lookup_insert_eq.
Qed.

Lemma checker_with_path_id cfg json_loads_body job_id s3 :
  Py.truthy job_id = true ->
  Py.truthy (Config.S3_BUCKET_NAME cfg) = true ->
  checker_handler cfg json_loads_body (poll_request job_id) s3 = check_stored s3 job_id.
Proof.
  intros Hid Hb. unfold checker_handler, request_job_id, poll_request, pick_job_id.
  cbn [pathParameters queryStringParameters f_job_id f_jobId].
  assert (truthy_id (Some job_id) = Some job_id) as Ht
    by (unfold truthy_id; by rewrite Hid).
  rewrite !Ht. by rewrite Hb.
Qed.

(** What a run of the executor leaves behind, by cases. *)
Lemma executor_cases cfg pv fuel event s3 s3' response :
  executor_handler cfg pv fuel event s3 = Some (s3', response) ->
  let job_id := Py.get_default (ev_job_id event) "unknown" in
  (exists doc,
      execute cfg pv fuel event = Some (Ok doc)
      /\ save_result_to_s3 cfg pv s3 job_id doc "completed" = Ok s3'
      /\ response = {| ex_statusCode := 200; ex_body := ExecCompleted job_id |})
  \/ (exists e,
        response = {| ex_statusCode := 500; ex_body := ExecFailed job_id e |}
        /\ (execute cfg pv fuel event = Some (Raise e)
            \/ exists doc, execute cfg pv fuel event = Some (Ok doc)
                           /\ save_result_to_s3 cfg pv s3 job_id doc "completed" = Raise e)
        /\ (save_error_to_s3 cfg pv s3 job_id e = Ok s3'
            \/ (s3' = s3 /\ exists m, save_error_to_s3 cfg pv s3 job_id e = Raise m))).
Proof.
  intros Hrun job_id. unfold executor_handler in Hrun. fold job_id in Hrun.
  destruct (execute cfg pv fuel event) as [[doc|e]|]; [| |done]; simpl in Hrun.
  - destruct (save_result_to_s3 cfg pv s3 job_id doc "completed") as [s|e] eqn:Hsave.
    + injection Hrun as <- <-. left. by exists doc.
    + right. exists e.
      destruct (save_error_to_s3 cfg pv s3 job_id e) as [s|m] eqn:Herr;
        injection Hrun as <- <-; (split; [done|]); (split; [right; by exists doc|]).
      * by left.
      * right. split; [done|]. by exists m.
  - right. exists e.
    destruct (save_error_to_s3 cfg pv s3 job_id e) as [s|m] eqn:Herr;
      injection Hrun as <- <-; (split; [done|]); (split; [by left|]).
    * by left.
    * right. split; [done|]. by exists m.
Qed.

(** X1. With the bucket configured and the storage accepting writes, a
    poll that follows a run of the executor reports what the run
    answered: completed with the very document the run computed, or
    failed with the message of the error that ended it. *)
Theorem executor_then_poll cfg pv fuel event s3 s3' response json_loads_body :
  Py.truthy (Config.S3_BUCKET_NAME cfg) = true ->
  s3_fault s3 = None ->
  Py.truthy (Py.get_default (ev_job_id event) "unknown") = true ->
  executor_handler cfg pv fuel event s3 = Some (s3', response) ->
  let job_id := Py.get_default (ev_job_id event) "unknown" in
  let poll := checker_handler cfg json_loads_body (poll_request job_id) s3' in
  (exists doc,
      execute cfg pv fuel event = Some (Ok doc)
      /\ response = {| ex_statusCode := 200; ex_body := ExecCompleted job_id |}
      /\ poll = {| ck_statusCode := 200;
                   ck_body := CheckCompleted job_id (now_utc pv) (Some doc) |})
  \/ (exists e,
        execute cfg pv fuel event = Some (Raise e)
        /\ response = {| ex_statusCode := 500; ex_body := ExecFailed job_id e |}
        /\ poll = {| ck_statusCode := 200;
                     ck_body := CheckFailed job_id (now_utc pv) e |}).
Proof.
  intros Hb Hf Hid Hrun job_id poll. subst poll job_id.
  rewrite checker_with_path_id by done.
  pose proof (executor_cases _ _ _ _ _ _ _ Hrun) as Hcases. cbv zeta in Hcases.
  set (job_id := Py.get_default (ev_job_id event) "unknown") in *.
  destruct Hcases as [(doc & Hexec & Hsave & ->)|(e & -> & Hexec & Herr)].
  - left. exists doc. split; [done|]. split; [done|].
    unfold save_result_to_s3 in Hsave. rewrite put_object_ok in Hsave by done.
    injection Hsave as <-. apply (check_stored_after s3 job_id).
  - right. exists e.
    unfold save_error_to_s3 in Herr. rewrite put_object_ok in Herr by done.
    destruct Herr as [Herr|[_ [m Herr]]]; [|done]. injection Herr as <-.
    destruct Hexec as [Hexec|(doc & _ & Hsave)].
    + split; [done|]. split; [done|]. apply (check_stored_after s3 job_id).
    + unfold save_result_to_s3 in Hsave. by rewrite put_object_ok in Hsave.
Qed.

Lemma executor_then_poll_witness :
  exists s3' response,
    executor_handler Stub.cfg Stub.empty_array 0 (Stub.event_for "job-1" EVENTS)
      Stub.s3_empty = Some (s3', response)
    /\ checker_handler Stub.cfg (fun _ => DecodeError) (poll_request "job-1") s3'
       = {| ck_statusCode := 200;
            ck_body := CheckCompleted "job-1" "2024-01-15T10:00:00Z"
                         (Some {| requestId := "req_0a1b2c3d";
                                  generatedAt := "2024-01-15T10:00:00Z";
                                  ttlSeconds := 300; markers := [] |}) |}.
Proof.
  eexists _, _. split; [reflexivity|].
  destruct (executor_then_poll Stub.cfg Stub.empty_array 0 (Stub.event_for "job-1" EVENTS)
              Stub.s3_empty _ _ (fun _ => DecodeError) eq_refl eq_refl eq_refl eq_refl)
    as [(doc & Hexec & _ & Hpoll)|(e & Hexec & _)].
  - vm_compute in Hexec. injection Hexec as <-. exact Hpoll.
  - vm_compute in Hexec. discriminate.
Defined.

(** ** The object key of a job *)

Lemma string_app_inv_head (p a b : string) : p ++ a = p ++ b -> a = b.
Proof. induction p as [|c p IH]; simpl; [done|]. intros [= H]. by apply IH. Qed.

Lemma string_app_length (a b : string) :
  String.length (a ++ b) = (String.length a + String.length b)%nat.
Proof. induction a as [|c a IH]; simpl; [done|]. by rewrite IH. Qed.

Lemma string_app_inv_tail (a b t : string) : a ++ t = b ++ t -> a = b.
Proof.
  revert b. induction a as [|c a IH]; intros [|d b] H; [done| | |].
  - apply (f_equal String.length) in H. rewrite !string_app_length in H.
    simpl in H. lia.
  - apply (f_equal String.length) in H. rewrite !string_app_length in H.
    simpl in H. lia.
  - injection H as -> H. f_equal. by apply IH.
Qed.

Lemma job_key_inj a b : job_key a = job_key b -> a = b.
Proof.
  unfold job_key. intros H. apply string_app_inv_head in H.
  by apply string_app_inv_tail in H.
Qed.

Lemma put_object_other s3 bucket key record s3' other :
  put_object s3 bucket key record = Ok s3' -> other <> key ->
  s3_objects s3' !! other = s3_objects s3 !! other.
Proof.
  unfold put_object. destruct (negb _); [done|]. destruct (s3_fault s3); [done|].
  intros [= <-] Hne. simpl. by rewrite lookup_insert_ne.
Qed.

(** X2. Distinct job identifiers have distinct object keys, and a run
    of the executor changes no object other than the one of its own job:
    the record of every other job is after the run what it was before. *)
Theorem executor_writes_own_key_only cfg pv fuel event s3 s3' response other :
  executor_handler cfg pv fuel event s3 = Some (s3', response) ->
  other <> Py.get_default (ev_job_id event) "unknown" ->
  job_key other <> job_key (Py.get_default (ev_job_id event) "unknown")
  /\ s3_objects s3' !! job_key other = s3_objects s3 !! job_key other.
Proof.
  intros Hrun Hne.
  assert (job_key other <> job_key (Py.get_default (ev_job_id event) "unknown")) as Hkey.
  { intros H. by apply job_key_inj in H. }
  split; [done|].
  pose proof (executor_cases _ _ _ _ _ _ _ Hrun) as Hcases. cbv zeta in Hcases.
  destruct Hcases as [(doc & _ & Hsave & _)|(e & _ & _ & [Herr|[-> _]])]; [| |done].
  - by eapply put_object_other.
  - by eapply put_object_other.
Qed.

Lemma executor_writes_own_key_only_witness :
  exists s3' response,
    executor_handler Stub.cfg Stub.empty_array 0 (Stub.event_for "job-2" EVENTS)
      (stored Stub.s3_empty "job-1"
         {| jr_jobId := "job-1"; jr_status := "failed"; jr_completedAt := "";
            jr_result := None; jr_error := Some "boom" |})
    = Some (s3', response)
    /\ s3_objects s3' !! job_key "job-1"
       = Some {| jr_jobId := "job-1"; jr_status := "failed"; jr_completedAt := "";
                 jr_result := None; jr_error := Some "boom" |}.
Proof.
  destruct (executor_handler _ _ _ _ _) as [[s3' response]|] eqn:Hrun;
    [|vm_compute in Hrun; discriminate].
  exists s3', response. split; [reflexivity|].
  destruct (executor_writes_own_key_only _ _ _ _ _ _ _ "job-1" Hrun) as [_ ->];
    [done|].
  vm_compute. reflexivity.
Defined.

(** ** Requests the executor turns down, and writes that fail *)

Lemma failed_run cfg pv fuel event s3 e :
  execute cfg pv fuel event = Some (Raise e) ->
  executor_handler cfg pv fuel event s3
  = Some (match save_error_to_s3 cfg pv s3
                  (Py.get_default (ev_job_id event) "unknown") e with
          | Ok s3' => s3'
          | Raise _ => s3
          end,
          {| ex_statusCode := 500;
             ex_body := ExecFailed (Py.get_default (ev_job_id event) "unknown") e |}).
Proof. intros H. unfold executor_handler. by rewrite H. Qed.

(** X3. The executor turns down a payload whose latitude or longitude
    is absent or zero, or whose category is absent or empty: without
    consulting any search or generation it persists the job as failed
    with the message about the required parameters and answers 500. *)
Theorem executor_rejects_missing_parameters cfg pv fuel event s3 :
  Config.validate cfg = None ->
  s3_fault s3 = None ->
  Py.truthy_num (Py.get_default (ev_lat event) 0%Q)
  && Py.truthy_num (Py.get_default (ev_lng event) 0%Q)
  && Py.truthy (Py.get_default (ev_main_type event) "") = false ->
  let job_id := Py.get_default (ev_job_id event) "unknown" in
  executor_handler cfg pv fuel event s3
  = Some (stored s3 job_id
            {| jr_jobId := job_id; jr_status := "failed"; jr_completedAt := now_utc pv;
               jr_result := None;
               jr_error := Some "缺少必需参数: lat, lng, main_type" |},
          {| ex_statusCode := 500;
             ex_body := ExecFailed job_id "缺少必需参数: lat, lng, main_type" |}).
Proof.
  intros Hcfg Hf Hmissing job_id. subst job_id.
  destruct (validate_None cfg Hcfg) as (_ & _ & Hb).
  rewrite (failed_run _ _ _ _ _ "缺少必需参数: lat, lng, main_type").
  - unfold save_error_to_s3. by rewrite put_object_ok.
  - unfold execute. rewrite Hcfg. cbv zeta. by rewrite Hmissing.
Qed.

Lemma executor_rejects_missing_parameters_witness :
  executor_handler Stub.cfg (Stub.offline "0a1b2c3d") 0
    (request (Some "job-1") 0 Stub.lng FOOD None None) Stub.s3_empty
  = Some (stored Stub.s3_empty "job-1"
            {| jr_jobId := "job-1"; jr_status := "failed";
               jr_completedAt := "2024-01-15T10:00:00Z"; jr_result := None;
               jr_error := Some "缺少必需参数: lat, lng, main_type" |},
          {| ex_statusCode := 500;
             ex_body := ExecFailed "job-1" "缺少必需参数: lat, lng, main_type" |}).
Proof.
  apply (executor_rejects_missing_parameters Stub.cfg (Stub.offline "0a1b2c3d") 0
           (request (Some "job-1") 0 Stub.lng FOOD None None) Stub.s3_empty);
    reflexivity.
Defined.

Lemma validate_without_bucket cfg :
  Py.truthy (Config.S3_BUCKET_NAME cfg) = false ->
  exists e, Config.validate cfg = Some e.
Proof.
  intros Hb. destruct (Config.validate cfg) as [e|] eqn:Hv; [by exists e|].
  destruct (validate_None cfg Hv) as (_ & _ & Hb'). congruence.
Qed.

(** X4. When the bucket name is not configured the executor answers
    every payload with status 500 and the message of the configuration
    check, whatever the collaborators answer, and leaves the storage as
    it was: no record of the failure is written. *)
Theorem executor_unconfigured_bucket cfg pv fuel event s3 :
  Py.truthy (Config.S3_BUCKET_NAME cfg) = false ->
  exists e,
    Config.validate cfg = Some e
    /\ executor_handler cfg pv fuel event s3
       = Some (s3, {| ex_statusCode := 500;
                      ex_body := ExecFailed (Py.get_default (ev_job_id event) "unknown") e |}).
Proof.
  intros Hb. destruct (validate_without_bucket cfg Hb) as [e He].
  exists e. split; [done|].
  rewrite (failed_run _ _ _ _ _ e) by (unfold execute; by rewrite He).
  destruct (put_object_fails s3 (Config.S3_BUCKET_NAME cfg)
              (job_key (Py.get_default (ev_job_id event) "unknown"))
              {| jr_jobId := Py.get_default (ev_job_id event) "unknown";
                 jr_status := "failed"; jr_completedAt := now_utc pv;
                 jr_result := None; jr_error := Some e |}) as [m Hm]; [by left|].
  unfold save_error_to_s3. by rewrite Hm.
Qed.

Lemma executor_unconfigured_bucket_witness :
  exists e,
    executor_handler
      {| Config.GOOGLE_PLACES_API_KEY := "k"; Config.GEMINI_API_KEY := "g";
         Config.S3_BUCKET_NAME := ""; Config.S3_REGION := "r" |}
      Stub.food_twelve 1 (Stub.event_for "job-1" FOOD) Stub.s3_empty
    = Some (Stub.s3_empty,
            {| ex_statusCode := 500; ex_body := ExecFailed "job-1" e |}).
Proof.
  destruct (executor_unconfigured_bucket
              {| Config.GOOGLE_PLACES_API_KEY := "k"; Config.GEMINI_API_KEY := "g";
                 Config.S3_BUCKET_NAME := ""; Config.S3_REGION := "r" |}
              Stub.food_twelve 1 (Stub.event_for "job-1" FOOD) Stub.s3_empty eq_refl)
    as (e & _ & H).
  exists e. exact H.
Defined.

(** X5. While the storage service rejects requests, a run of the
    executor changes nothing in the storage and answers 500, whether the
    pipeline itself succeeded or not. *)
Theorem executor_storage_fault cfg pv fuel event s3 s3' response :
  is_Some (s3_fault s3) ->
  executor_handler cfg pv fuel event s3 = Some (s3', response) ->
  s3' = s3 /\ ex_statusCode response = 500%Z.
Proof.
  intros Hfault Hrun.
  assert (forall key record, exists m,
             put_object s3 (Config.S3_BUCKET_NAME cfg) key record = Raise m) as Hput.
  { intros key record. apply put_object_fails. by right. }
  pose proof (executor_cases _ _ _ _ _ _ _ Hrun) as Hcases. cbv zeta in Hcases.
  destruct Hcases as [(doc & _ & Hsave & _)|(e & -> & _ & [Herr|[-> _]])].
  - unfold save_result_to_s3 in Hsave.
    destruct (Hput (job_key (Py.get_default (ev_job_id event) "unknown"))
                {| jr_jobId := Py.get_default (ev_job_id event) "unknown";
                   jr_status := "completed"; jr_completedAt := now_utc pv;
                   jr_result := Some doc; jr_error := None |}) as [m Hm].
    congruence.
  - unfold save_error_to_s3 in Herr.
    destruct (Hput (job_key (Py.get_default (ev_job_id event) "unknown"))
                {| jr_jobId := Py.get_default (ev_job_id event) "unknown";
                   jr_status := "failed"; jr_completedAt := now_utc pv;
                   jr_result := None; jr_error := Some e |}) as [m Hm].
    congruence.
  - done.
Qed.

Lemma executor_storage_fault_witness :
  exists s3' response,
    executor_handler Stub.cfg Stub.empty_array 0 (Stub.event_for "job-1" EVENTS)
      {| s3_objects := ∅; s3_fault := Some "AccessDenied" |} = Some (s3', response)
    /\ s3' = {| s3_objects := ∅; s3_fault := Some "AccessDenied" |}
    /\ ex_statusCode response = 500%Z.
Proof.
  destruct (executor_handler _ _ _ _ _) as [[s3' response]|] eqn:Hrun;
    [|vm_compute in Hrun; discriminate].
  exists s3', response. split; [reflexivity|].
  refine (executor_storage_fault _ _ _ _ _ _ _ _ Hrun). by exists "AccessDenied".
Defined.

(** ** Submission *)

(** The outcomes of a submission: turned down before anything is
    dispatched, or dispatched under a fresh identifier. *)
Lemma starter_cases dp json_loads_start float_of_str body :
  (fst (starter_handler dp json_loads_start float_of_str body) = None
   /\ (st_statusCode (snd (starter_handler dp json_loads_start float_of_str body)) = 400%Z
       \/ st_statusCode (snd (starter_handler dp json_loads_start float_of_str body))
          = 500%Z)
   /\ forall a b c d,
        st_body (snd (starter_handler dp json_loads_start float_of_str body))
        <> StartAccepted a b c d)
  \/ exists fields lat lng,
       start_fields json_loads_start body = Ok (inr fields)
       /\ json_truthy (Py.get_default (sf_lat fields) JNull)
          && json_truthy (Py.get_default (sf_lng fields) JNull)
          && Py.truthy (Py.get_default (sf_main_type fields) "") = true
       /\ json_float float_of_str (Py.get_default (sf_lat fields) JNull) = Ok lat
       /\ json_float float_of_str (Py.get_default (sf_lng fields) JNull) = Ok lng
       /\ let job_id := "job_" ++ uuid_hex dp in
          let payload := start_payload dp fields lat lng in
          fst (starter_handler dp json_loads_start float_of_str body) = Some payload
          /\ ((invoke dp payload = Ok 202%Z
               /\ snd (starter_handler dp json_loads_start float_of_str body)
                  = {| st_statusCode := 202;
                       st_body := StartAccepted job_id "processing" (created_now dp)
                                    ("/recommendation/status/" ++ job_id) |})
              \/ (invoke dp payload <> Ok 202%Z
                  /\ exists message,
                       snd (starter_handler dp json_loads_start float_of_str body)
                       = start_server_error message)).
Proof.
  unfold starter_handler.
  destruct (start_fields json_loads_start body) as [[message|fields]|message] eqn:Hf;
    [left; simpl; split; [done|]; split; [by left|done]| |
     left; simpl; split; [done|]; split; [by right|done]].
  cbv zeta.
  destruct (json_truthy (Py.get_default (sf_lat fields) JNull)
            && json_truthy (Py.get_default (sf_lng fields) JNull)
            && Py.truthy (Py.get_default (sf_main_type fields) "")) eqn:Hall;
    [|left; simpl; split; [done|]; split; [by left|done]].
  cbn [negb].
  destruct (json_float float_of_str (Py.get_default (sf_lat fields) JNull))
    as [lat|message] eqn:Hlat;
    [|left; simpl; split; [done|]; split; [by right|done]].
  destruct (json_float float_of_str (Py.get_default (sf_lng fields) JNull))
    as [lng|message] eqn:Hlng;
    [|left; simpl; split; [done|]; split; [by right|done]].
  right. exists fields, lat, lng. do 4 (split; [done|]).
  destruct (invoke dp _) as [status_code|message] eqn:Hinv.
  - destruct (Z.eqb_spec status_code 202) as [->|Hne]; simpl.
    + split; [done|]. by left.
    + split; [done|]. right. split; [congruence|]. by eexists.
  - simpl. split; [done|]. right. split; [done|]. by eexists.
Qed.

(** Coordinates sent as numbers pass the executor's check once they
    have passed the starter's. *)
Lemma numbers_pass_both_checks float_of_str fields x y lat lng :
  sf_lat fields = Some (JNumber x) ->
  sf_lng fields = Some (JNumber y) ->
  json_truthy (Py.get_default (sf_lat fields) JNull)
  && json_truthy (Py.get_default (sf_lng fields) JNull)
  && Py.truthy (Py.get_default (sf_main_type fields) "") = true ->
  json_float float_of_str (Py.get_default (sf_lat fields) JNull) = Ok lat ->
  json_float float_of_str (Py.get_default (sf_lng fields) JNull) = Ok lng ->
  Py.truthy_num lat && Py.truthy_num lng
  && Py.truthy (Py.get_default (sf_main_type fields) "") = true.
Proof.
  intros -> ->. simpl. by intros Hall [= <-] [= <-].
Qed.

(** X6. From submission to poll: when the starter accepts a request
    (status 202) it has dispatched a payload under the identifier it
    returns; when the request gave its coordinates as numbers, that
    payload passes the executor's parameter check; and once the executor
    has run on the payload, with a valid configuration and a storage
    that accepts writes, a poll at the returned identifier answers 200
    with what the run produced: completed with the computed document, or
    failed with the message of the error. *)
Theorem submit_execute_poll dp json_loads_start float_of_str body payload accepted
    cfg pv fuel s3 s3' response json_loads_body :
  starter_handler dp json_loads_start float_of_str body
  = (Some payload, {| st_statusCode := 202; st_body := accepted |}) ->
  Config.validate cfg = None ->
  s3_fault s3 = None ->
  executor_handler cfg pv fuel (pl_event payload) s3 = Some (s3', response) ->
  exists job_id,
    accepted = StartAccepted job_id "processing" (pl_created_at payload)
                 ("/recommendation/status/" ++ job_id)
    /\ ev_job_id (pl_event payload) = Some job_id
    /\ (forall fields x y,
          start_fields json_loads_start body = Ok (inr fields) ->
          sf_lat fields = Some (JNumber x) ->
          sf_lng fields = Some (JNumber y) ->
          Py.truthy_num (Py.get_default (ev_lat (pl_event payload)) 0%Q)
          && Py.truthy_num (Py.get_default (ev_lng (pl_event payload)) 0%Q)
          && Py.truthy (Py.get_default (ev_main_type (pl_event payload)) "") = true)
    /\ let poll := checker_handler cfg json_loads_body (poll_request job_id) s3' in
       (exists doc,
           execute cfg pv fuel (pl_event payload) = Some (Ok doc)
           /\ ex_statusCode response = 200%Z
           /\ poll = {| ck_statusCode := 200;
                        ck_body := CheckCompleted job_id (now_utc pv) (Some doc) |})
       \/ (exists e,
             execute cfg pv fuel (pl_event payload) = Some (Raise e)
             /\ ex_statusCode response = 500%Z
             /\ poll = {| ck_statusCode := 200;
                          ck_body := CheckFailed job_id (now_utc pv) e |}).
Proof.
  intros Hstart Hcfg Hfault Hrun.
  destruct (validate_None cfg Hcfg) as (_ & _ & Hb).
  destruct (starter_cases dp json_loads_start float_of_str body)
    as [(Hnone & _)|(fields & lat & lng & Hfields & Hall & Hlat & Hlng & Hsent)].
  { rewrite Hstart in Hnone. simpl in Hnone. discriminate. }
  cbv zeta in Hsent. destruct Hsent as [Hpayload Hresp].
  rewrite Hstart in Hpayload. simpl in Hpayload. injection Hpayload as Hpayload.
  rewrite Hstart in Hresp. simpl in Hresp.
  assert (accepted = StartAccepted ("job_" ++ uuid_hex dp) "processing" (created_now dp)
                       ("/recommendation/status/" ++ ("job_" ++ uuid_hex dp))) as Hacc.
  { destruct Hresp as [[_ Heq]|[_ [message Heq]]]; [by injection Heq|].
    unfold start_server_error in Heq. by injection Heq. }
  exists ("job_" ++ uuid_hex dp). subst payload.
  cbn [start_payload pl_event pl_created_at ev_job_id ev_lat ev_lng ev_main_type
       Py.get_default] in *.
  split; [done|]. split; [done|]. split.
  { intros fields' x y Hfields' Hx Hy. rewrite Hfields in Hfields'.
    injection Hfields' as <-. by eapply numbers_pass_both_checks. }
  cbv zeta. rewrite checker_with_path_id by done.
  pose proof (executor_cases _ _ _ _ _ _ _ Hrun) as Hcases. cbv zeta in Hcases.
  cbn [ev_job_id Py.get_default] in Hcases.
  destruct Hcases as [(doc & Hexec & Hsave & ->)
                     |(e & -> & [Hexec|(doc & Hexec & Hsave)] & Herr)].
  - left. exists doc. split; [done|]. split; [done|].
    unfold save_result_to_s3 in Hsave. rewrite put_object_ok in Hsave by done.
    injection Hsave as <-. apply (check_stored_after s3).
  - right. exists e. split; [done|]. split; [done|].
    destruct Herr as [Herr|[_ [m Hm]]].
    + unfold save_error_to_s3 in Herr. rewrite put_object_ok in Herr by done.
      injection Herr as <-. apply (check_stored_after s3).
    + unfold save_error_to_s3 in Hm. by rewrite put_object_ok in Hm.
  - unfold save_result_to_s3 in Hsave. by rewrite put_object_ok in Hsave.
Qed.

Lemma submit_execute_poll_witness :
  let dp := {| uuid_hex := "0123456789abcdef0123456789abcdef";
               created_now := "2024-01-15T09:59:58Z";
               invoke := fun _ => Ok 202%Z |} in
  let body := StartObject {| sf_lat := Some (JNumber Stub.lat);
                             sf_lng := Some (JNumber Stub.lng);
                             sf_main_type := Some EVENTS; sf_sub_type := None;
                             sf_budget := None |} in
  exists payload s3' response,
    fst (starter_handler dp (fun _ => StartDecodedOther) Stub.float_of body) = Some payload
    /\ executor_handler Stub.cfg Stub.empty_array 0 (pl_event payload) Stub.s3_empty
       = Some (s3', response)
    /\ exists doc,
         checker_handler Stub.cfg (fun _ => DecodeError)
           (poll_request "job_0123456789abcdef0123456789abcdef") s3'
         = {| ck_statusCode := 200;
              ck_body := CheckCompleted "job_0123456789abcdef0123456789abcdef"
                           "2024-01-15T10:00:00Z" (Some doc) |}.
Proof.
  intros dp body.
  destruct (starter_handler dp (fun _ => StartDecodedOther) Stub.float_of body)
    as [[payload|] [code accepted]] eqn:Hstart; [|vm_compute in Hstart; discriminate].
  assert (code = 202%Z) as -> by (vm_compute in Hstart; congruence).
  destruct (executor_handler Stub.cfg Stub.empty_array 0 (pl_event payload) Stub.s3_empty)
    as [[s3' response]|] eqn:Hrun.
  2: { vm_compute in Hstart. injection Hstart as <- _. vm_compute in Hrun. discriminate. }
  exists payload, s3', response. split; [done|]. split; [done|].
  destruct (submit_execute_poll dp _ _ body payload accepted Stub.cfg Stub.empty_array 0
              Stub.s3_empty s3' response (fun _ => DecodeError) Hstart eq_refl eq_refl Hrun)
    as (job_id & _ & Hid & _ & Hpoll).
  assert (job_id = "job_0123456789abcdef0123456789abcdef") as ->.
  { vm_compute in Hstart. injection Hstart as <- _. simpl in Hid. congruence. }
  cbv zeta in Hpoll. destruct Hpoll as [(doc & _ & _ & Hpoll)|(e & Hexec & _)].
  - by exists doc.
  - vm_compute in Hstart. injection Hstart as <- _. vm_compute in Hexec. discriminate.
Defined.

(** X7. The starter answers 202 exactly when it dispatched a payload
    and the invocation reported status 202; a request it answers with 400
    was not dispatched at all; and whatever it dispatches carries the
    fresh identifier, a category that is not empty, and the coordinates
    of the request converted to numbers. The starter tests the
    coordinates as they were sent and the executor tests the converted
    numbers: the payload passes the executor's check exactly when
    neither converted coordinate is zero, as is the case whenever the
    request gave both as numbers. *)
Theorem starter_dispatch dp json_loads_start float_of_str body :
  let sent := fst (starter_handler dp json_loads_start float_of_str body) in
  let response := snd (starter_handler dp json_loads_start float_of_str body) in
  (st_statusCode response = 202%Z
   <-> exists payload, sent = Some payload /\ invoke dp payload = Ok 202%Z)
  /\ (st_statusCode response = 400%Z -> sent = None)
  /\ (forall payload, sent = Some payload ->
        exists fields lat lng,
          start_fields json_loads_start body = Ok (inr fields)
          /\ json_float float_of_str (Py.get_default (sf_lat fields) JNull) = Ok lat
          /\ json_float float_of_str (Py.get_default (sf_lng fields) JNull) = Ok lng
          /\ payload = start_payload dp fields lat lng
          /\ ev_job_id (pl_event payload) = Some ("job_" ++ uuid_hex dp)
          /\ Py.truthy (Py.get_default (ev_main_type (pl_event payload)) "") = true
          /\ (Py.truthy_num (Py.get_default (ev_lat (pl_event payload)) 0%Q)
              && Py.truthy_num (Py.get_default (ev_lng (pl_event payload)) 0%Q)
              && Py.truthy (Py.get_default (ev_main_type (pl_event payload)) "")
              = Py.truthy_num lat && Py.truthy_num lng)
          /\ (forall x y,
                sf_lat fields = Some (JNumber x) -> sf_lng fields = Some (JNumber y) ->
                Py.truthy_num lat && Py.truthy_num lng = true)).
Proof.
  cbv zeta.
  destruct (starter_cases dp json_loads_start float_of_str body)
    as [(Hnone & Hcode & _)|(fields & lat & lng & Hfields & Hall & Hlat & Hlng & Hsent)].
  - rewrite Hnone. split; [|split].
    + split; [destruct Hcode as [Hc|Hc]; rewrite Hc; done|].
      by intros (payload & ? & _).
    + done.
    + done.
  - cbv zeta in Hsent. destruct Hsent as [-> Hresp].
    assert (Py.truthy (Py.get_default (sf_main_type fields) "") = true) as Hmain.
    { apply andb_true_iff in Hall as [_ Hmain]. exact Hmain. }
    split; [|split].
    + destruct Hresp as [[Hinv ->]|[Hinv [message ->]]]; simpl.
      * split; [|done]. intros _. eexists. by split.
      * split; [done|]. intros (payload & [= <-] & ?). done.
    + destruct Hresp as [[_ ->]|[_ [message ->]]]; simpl; done.
    + intros payload [= <-]. exists fields, lat, lng.
      do 4 (split; [done|]). split; [done|].
      cbn [start_payload pl_event ev_lat ev_lng ev_main_type Py.get_default].
      split; [done|]. split; [by rewrite Hmain, andb_true_r|].
      intros x y Hx Hy.
      pose proof (numbers_pass_both_checks float_of_str fields x y lat lng
                    Hx Hy Hall Hlat Hlng) as Hboth.
      by rewrite Hmain, andb_true_r in Hboth.
Qed.

(** The two checks do differ: a latitude sent as the string "0" is
    true for the starter, which accepts the request with status 202 and
    dispatches latitude 0.0; the executor then turns the payload down
    and the poll reports the job as failed. *)
Lemma starter_accepts_what_executor_rejects :
  let dp := {| uuid_hex := "0123456789abcdef0123456789abcdef";
               created_now := "2024-01-15T09:59:58Z";
               invoke := fun _ => Ok 202%Z |} in
  let body := StartObject {| sf_lat := Some (JString "0");
                             sf_lng := Some (JString "139.76");
                             sf_main_type := Some FOOD; sf_sub_type := None;
                             sf_budget := None |} in
  exists payload s3',
    starter_handler dp (fun _ => StartDecodedOther) Stub.float_of body
    = (Some payload,
       {| st_statusCode := 202;
          st_body := StartAccepted "job_0123456789abcdef0123456789abcdef" "processing"
                       "2024-01-15T09:59:58Z"
                       "/recommendation/status/job_0123456789abcdef0123456789abcdef" |})
    /\ ev_lat (pl_event payload) = Some 0%Q
    /\ executor_handler Stub.cfg Stub.food_twelve 1 (pl_event payload) Stub.s3_empty
       = Some (s3',
               {| ex_statusCode := 500;
                  ex_body := ExecFailed "job_0123456789abcdef0123456789abcdef"
                               "缺少必需参数: lat, lng, main_type" |})
    /\ reported_status
         (ck_body (checker_handler Stub.cfg (fun _ => DecodeError)
                     (poll_request "job_0123456789abcdef0123456789abcdef") s3'))
       = Some "failed".
Proof.
  intros dp body. eexists _, _. split; [reflexivity|]. split; [reflexivity|].
  split; [reflexivity|]. vm_compute. reflexivity.
Qed.

(** ** Polling *)

Lemma truthy_id_idem (i : option string) : truthy_id (truthy_id i) = truthy_id i.
Proof. destruct i as [i|]; [|done]. unfold truthy_id. by destruct (Py.truthy i) eqn:H; [rewrite H|]. Qed.

Lemma truthy_id_truthy i j : truthy_id i = Some j -> truthy_id (Some j) = Some j.
Proof. intros H. rewrite <- H. apply truthy_id_idem. Qed.

Lemma truthy_pick d : truthy_id (pick_job_id d)
  = match truthy_id (f_job_id d) with Some i => Some i | None => truthy_id (f_jobId d) end.
Proof.
  unfold pick_job_id. destruct (truthy_id (f_job_id d)) as [i|] eqn:H; [|done].
  by apply truthy_id_truthy in H.
Qed.


(** X9. With the bucket configured and the storage answering, a poll
    that carries a non-empty identifier always answers 200, echoes the
    identifier, and reports [processing] exactly when nothing is stored
    for the job; otherwise it reports the status of the stored record,
    whatever that status is. *)
Theorem poll_reports_stored_status cfg json_loads_body job_id s3 :
  Py.truthy job_id = true ->
  Py.truthy (Config.S3_BUCKET_NAME cfg) = true ->
  s3_fault s3 = None ->
  let poll := checker_handler cfg json_loads_body (poll_request job_id) s3 in
  ck_statusCode poll = 200%Z
  /\ reported_status (ck_body poll)
     = Some (match s3_objects s3 !! job_key job_id with
             | Some record => jr_status record
             | None => "processing"
             end)
  /\ match ck_body poll with
     | CheckCompleted i _ _ | CheckFailed i _ _ | CheckOther i _ _
     | CheckProcessing i _ _ => i = job_id
     | CheckError _ => False
     end.
Proof.
  intros Hid Hb Hf. cbv zeta. rewrite checker_with_path_id by done.
  unfold check_stored, get_object. rewrite Hf.
  destruct (s3_objects s3 !! job_key job_id) as [record|]; [|done].
  destruct (String.eqb_spec (jr_status record) "completed") as [->|_]; [done|].
  destruct (String.eqb_spec (jr_status record) "failed") as [->|_]; done.
Qed.

Lemma poll_reports_stored_status_witness :
  reported_status
    (ck_body (checker_handler Stub.cfg (fun _ => DecodeError) (poll_request "job-1")
                (stored Stub.s3_empty "job-1"
                   {| jr_jobId := "job-1"; jr_status := "queued"; jr_completedAt := "";
                      jr_result := None; jr_error := None |})))
  = Some "queued".
Proof.
  destruct (poll_reports_stored_status Stub.cfg (fun _ => DecodeError) "job-1"
              (stored Stub.s3_empty "job-1"
                 {| jr_jobId := "job-1"; jr_status := "queued"; jr_completedAt := "";
                    jr_result := None; jr_error := None |})
              eq_refl eq_refl eq_refl) as (_ & H & _).
  cbv zeta in H. rewrite H. vm_compute. reflexivity.
Defined.

(** ** What a run of the pipeline produces *)

Lemma execute_document cfg pv fuel event doc :
  execute cfg pv fuel event = Some (Ok doc) ->
  let main_type := Py.get_default (ev_main_type event) "" in
  let sub_type := Py.get_default (ev_sub_type event) "" in
  exists places,
    fetch_data_and_process_images cfg pv fuel
      (Py.get_default (ev_lat event) 0%Q) (Py.get_default (ev_lng event) 0%Q)
      main_type sub_type (Py.get_default (ev_budget event) "") = Some (Ok places)
    /\ ((places = [] /\ doc = empty_document pv)
        \/ (places <> []
            /\ generate_content_and_format pv places main_type sub_type = Ok doc)).
Proof.
  unfold execute. destruct (Config.validate cfg); [done|]. cbv zeta.
  destruct (negb _); [done|].
  destruct (fetch_data_and_process_images _ _ _ _ _ _ _ _) as [[places|e]|]; [|done|done].
  simpl. intros [= H]. exists places. split; [done|].
  destruct places as [|place places]; [left; split; congruence|right; by split].
Qed.

Lemma generate_length pv places main_type sub_type doc :
  generate_content_and_format pv places main_type sub_type = Ok doc ->
  length (markers doc) = length places.
Proof.
  unfold generate_content_and_format.
  destruct (_ || _).
  - intros [= <-]. simpl. by rewrite length_imap.
  - destruct (gemini_summarize pv _) as [[t|]|e]; simpl; [|done|done].
    destruct (json_loads_summaries pv _) as [summaries|e]; simpl; [|done].
    intros [= <-]. simpl. by rewrite length_imap, length_map.
Qed.

Lemma details_loop_length pv lat lng main_type all_places : forall places,
  details_loop pv lat lng main_type all_places = Ok places ->
  (length places <= length all_places)%nat.
Proof.
  induction all_places as [|place rest IH]; intros places; simpl.
  - intros [= <-]. done.
  - destruct (truthy_id (np_place_id place)) as [place_id|].
    + destruct (details_api pv place_id) as [details_data|e]; simpl; [|done].
      destruct (negb _).
      * intros H. apply IH in H. lia.
      * destruct (details_loop pv lat lng main_type rest) as [others|e]; simpl; [|done].
        intros [= <-]. simpl. specialize (IH others eq_refl). lia.
    + intros H. apply IH in H. lia.
Qed.

Lemma attraction_places_length cfg pv lat lng candidates : forall places,
  attraction_places cfg pv lat lng candidates = Ok places ->
  (length places <= length candidates)%nat.
Proof.
  induction candidates as [|place rest IH]; intros places; simpl.
  - intros [= <-]. done.
  - destruct (truthy_id _) as [place_id|].
    + destruct (details_api pv place_id) as [details_data|e]; simpl; [|done].
      destruct (negb _).
      * intros H. apply IH in H. lia.
      * destruct (attraction_places cfg pv lat lng rest) as [others|e]; simpl; [|done].
        intros [= <-]. simpl. specialize (IH others eq_refl). lia.
    + destruct (attraction_places cfg pv lat lng rest) as [others|e]; simpl; [|done].
      intros [= <-]. simpl. specialize (IH others eq_refl). lia.
Qed.

Lemma rank_collected_length main_type all_places :
  main_type = FOOD -> (length (rank_collected main_type all_places) <= 5)%nat.
Proof.
  intros ->. unfold rank_collected. destruct all_places; [simpl; lia|].
  change (String.eqb FOOD FOOD) with true. cbv iota.
  rewrite length_take. unfold Config.FOOD_MAX_RESULTS. lia.
Qed.

Lemma fetch_capped cfg pv fuel lat lng main_type sub_type budget places :
  known_category main_type ->
  fetch_data_and_process_images cfg pv fuel lat lng main_type sub_type budget
  = Some (Ok places) ->
  (length places <= 5)%nat.
Proof.
  intros [-> | [-> | ->]]; unfold fetch_data_and_process_images.
  - change (String.eqb FOOD ATTRACTIONS || String.eqb FOOD EVENTS) with false. cbv iota.
    unfold structured_search. destruct (negb _); [done|].
    destruct (collect_pages _ _ _ _ _ _) as [[all_places|e]|]; [|done|done].
    simpl.
    destruct (details_loop pv lat lng FOOD (rank_collected FOOD all_places))
      as [processed|e] eqn:Hd; simpl; [|done].
    intros [= <-]. rewrite length_map. apply details_loop_length in Hd.
    pose proof (rank_collected_length FOOD all_places eq_refl). lia.
  - change (String.eqb ATTRACTIONS ATTRACTIONS || String.eqb ATTRACTIONS EVENTS) with true.
    cbv iota. intros [= H]. revert H.
    unfold fetch_places_via_gemini_and_process_images. destruct (negb _); [done|].
    destruct (fetch_places_via_gemini _ _ _ _) as [candidates|e]; simpl; [|done].
    destruct candidates as [|c candidates]; [intros [= <-]; simpl; lia|].
    change (String.eqb ATTRACTIONS EVENTS) with false.
    change (String.eqb ATTRACTIONS ATTRACTIONS) with true. cbv iota.
    intros H. apply attraction_places_length in H. rewrite length_take in H.
    unfold Config.ATTRACTION_MAX_RESULTS in H. lia.
  - change (String.eqb EVENTS ATTRACTIONS || String.eqb EVENTS EVENTS) with true.
    cbv iota. intros [= H]. revert H.
    unfold fetch_places_via_gemini_and_process_images. destruct (negb _); [done|].
    destruct (fetch_places_via_gemini _ _ _ _) as [candidates|e]; simpl; [|done].
    destruct candidates as [|c candidates]; [intros [= <-]; simpl; lia|].
    change (String.eqb EVENTS EVENTS) with true. cbv iota.
    intros [= <-]. rewrite length_map. unfold rank_events. rewrite length_take.
    unfold Config.MARKET_MAX_RESULTS. lia.
Qed.

(** X10. For each of the three categories the pipeline knows, a
    result document carries at most five markers, however many
    candidates the searches returned. *)
Theorem result_count_capped cfg pv fuel event main_type doc :
  known_category main_type ->
  ev_main_type event = Some main_type ->
  execute cfg pv fuel event = Some (Ok doc) ->
  (length (markers doc) <= 5)%nat.
Proof.
  intros Hknown Hmt Hexec. apply execute_document in Hexec. cbv zeta in Hexec.
  rewrite Hmt in Hexec. cbn [Py.get_default] in Hexec.
  destruct Hexec as (places & Hfetch & [[_ ->]|[_ Hgen]]); [simpl; lia|].
  apply generate_length in Hgen. rewrite Hgen. by eapply fetch_capped.
Qed.

Lemma result_count_capped_witness :
  exists doc,
    execute Stub.cfg Stub.events_mix 0 (Stub.event_for "job-1" EVENTS) = Some (Ok doc)
    /\ length (markers doc) = 5%nat.
Proof.
  destruct (execute Stub.cfg Stub.events_mix 0 (Stub.event_for "job-1" EVENTS))
    as [[doc|e]|] eqn:Hexec; [|vm_compute in Hexec; discriminate..].
  exists doc. split; [reflexivity|].
  pose proof (result_count_capped Stub.cfg Stub.events_mix 0
                (Stub.event_for "job-1" EVENTS) EVENTS doc
                (or_intror (or_intror eq_refl)) eq_refl Hexec) as Hle.
  assert (5 <= length (markers doc))%nat; [|lia].
  vm_compute in Hexec. injection Hexec as <-. simpl. lia.
Defined.

(** ** The events category *)

Lemma fetch_events cfg pv fuel lat lng sub_type budget :
  fetch_data_and_process_images cfg pv fuel lat lng EVENTS sub_type budget
  = Some (if negb (Py.truthy (Config.GOOGLE_PLACES_API_KEY cfg))
          then Raise "GOOGLE_PLACES_API_KEY 未设置"
          else places ← fetch_places_via_gemini pv lat lng EVENTS;
               Ok (map (event_place_info cfg pv lat lng) (rank_events places))).
Proof.
  unfold fetch_data_and_process_images, fetch_places_via_gemini_and_process_images.
  change (String.eqb EVENTS ATTRACTIONS || String.eqb EVENTS EVENTS) with true. cbv iota.
  f_equal. destruct (negb _); [done|].
  destruct (fetch_places_via_gemini pv lat lng EVENTS) as [places|e]; simpl; [|done].
  destruct places; [done|]. by change (String.eqb EVENTS EVENTS) with true.
Qed.

(** X11. The events category is served by the generative search
    alone: the candidates depend on the answers of the generative model,
    the decoding of its response, the geocoder and the clock, and on
    nothing else. The nearby search, the place details, the text search
    and the photo transfer are never consulted, and the subcategory and
    the budget are ignored. *)
Theorem events_generative_only cfg pv1 pv2 fuel1 fuel2 lat lng
    sub_type1 sub_type2 budget1 budget2 :
  same_generative_side pv1 pv2 ->
  fetch_data_and_process_images cfg pv1 fuel1 lat lng EVENTS sub_type1 budget1
  = fetch_data_and_process_images cfg pv2 fuel2 lat lng EVENTS sub_type2 budget2.
Proof.
  intros (Hsearch & Hloads & Hgeo & Hclock). rewrite !fetch_events. f_equal.
  destruct (negb _); [done|].
  unfold fetch_places_via_gemini. rewrite Hsearch.
  destruct (gemini_search pv2 lat lng EVENTS) as [text|e]; simpl; [|done].
  destruct (negb _); [done|]. destruct (negb _); [done|]. rewrite Hloads.
  destruct (json_loads_places pv2 _) as [items|e]; simpl; [|done].
  f_equal. apply map_ext. intros place.
  unfold event_place_info, event_coordinates, gemini_place_id, geocode_address.
  by rewrite Hclock, Hgeo.
Qed.

Lemma events_generative_only_witness :
  let other :=
    Stub.make "ffffffff" (Ok (Some "<seven events>"))
      (Stub.decode "<seven events>" Stub.seven_events)
      (fun _ => Ok {| nb_status := "OK"; nb_error_message := None;
                      nb_results := Stub.twelve_candidates;
                      nb_next_page_token := None |})
      Stub.details_of
      (Stub.geocode_one "Shinagawa 2-1-2" (3559 # 100, 13974 # 100))
      (fun _ => Ok {| ts_status := "OK"; ts_results := [Some "r01"] |})
      (Ok (Some "[]")) (Stub.decode "[]" []) in
  fetch_data_and_process_images Stub.cfg Stub.events_mix 0 Stub.lat Stub.lng EVENTS
    "" ""
  = fetch_data_and_process_images Stub.cfg other 3 Stub.lat Stub.lng EVENTS
      "拉面" "3000日元以内".
Proof.
  intros other. apply events_generative_only.
  repeat split; intros; reflexivity.
Defined.

Lemma event_place_blocks cfg pv lat lng candidate :
  let place := event_place_info cfg pv lat lng candidate in
  p_rating place = 0%Q
  /\ image_urls_of EVENTS place = []
  /\ forallb (fun block => negb (is_image_block block)) (place_blocks EVENTS place) = true.
Proof.
  cbv zeta. split; [done|]. split; [done|].
  unfold place_blocks.
  change (image_urls_of EVENTS (event_place_info cfg pv lat lng candidate)) with (@nil string).
  simpl. by destruct (Py.truthy _).
Qed.

(** X12. In the events category the markers owe nothing to ratings or
    photos: the relevance of the marker at position [i] is exactly
    0.50 - 0.05 i (0.50, 0.45, 0.40, 0.35, 0.30), the header image is
    empty, the content has no image block, and the icon and tags are
    those of an activity. *)
Theorem events_markers_by_position cfg pv fuel event doc i m :
  ev_main_type event = Some EVENTS ->
  execute cfg pv fuel event = Some (Ok doc) ->
  markers doc !! i = Some m ->
  m_relevanceScore m = ((50 - 5 * Z.of_nat i) # 100)%Q
  /\ c_headerImage (m_content m) = ""
  /\ forallb (fun block => negb (is_image_block block))
       (ed_blocks (c_editorData (m_content m))) = true
  /\ c_iconType (m_content m) = "activity"
  /\ m_tags m = ["activity"; "event"; "market"].
Proof.
  intros Hmt Hexec Hm. apply execute_document in Hexec. cbv zeta in Hexec.
  rewrite Hmt in Hexec. cbn [Py.get_default] in Hexec.
  destruct Hexec as (places & Hfetch & [[_ ->]|[_ Hgen]]); [done|].
  rewrite fetch_events in Hfetch. injection Hfetch as Hfetch.
  destruct (negb _); [done|].
  destruct (fetch_places_via_gemini _ _ _ _) as [candidates|e]; simpl in Hfetch; [|done].
  injection Hfetch as <-.
  unfold generate_content_and_format in Hgen.
  change (String.eqb EVENTS ATTRACTIONS || String.eqb EVENTS EVENTS) with true in Hgen.
  cbv iota in Hgen. injection Hgen as <-.
  unfold format_places_to_markers in Hm. cbn [markers] in Hm.
  rewrite list_lookup_imap in Hm.
  destruct (map _ (rank_events candidates) !! i) as [place|] eqn:Hplace; [|done].
  injection Hm as <-.
  assert (i < 5)%nat as Hi.
  { apply lookup_lt_Some in Hplace. rewrite length_map in Hplace.
    unfold rank_events in Hplace. rewrite length_take in Hplace.
    unfold Config.MARKET_MAX_RESULTS in Hplace. lia. }
  rewrite list_lookup_fmap in Hplace.
  destruct (rank_events candidates !! i) as [candidate|]; [|done].
  injection Hplace as <-.
  destruct (event_place_blocks cfg pv
              (Py.get_default (ev_lat event) 0%Q) (Py.get_default (ev_lng event) 0%Q)
              candidate) as (Hrating & Hurls & Hblocks).
  cbv zeta in Hrating, Hurls, Hblocks.
  unfold make_marker. cbn [m_relevanceScore m_content c_headerImage c_editorData
    ed_blocks c_iconType m_tags]. rewrite Hurls, Hrating.
  split; [|by repeat split].
  do 5 (destruct i as [|i]; [reflexivity|]). lia.
Qed.

Lemma events_markers_by_position_witness :
  exists doc m,
    execute Stub.cfg Stub.events_mix 0 (Stub.event_for "job-1" EVENTS) = Some (Ok doc)
    /\ markers doc !! 4%nat = Some m
    /\ m_relevanceScore m = (30 # 100)%Q.
Proof.
  destruct (execute Stub.cfg Stub.events_mix 0 (Stub.event_for "job-1" EVENTS))
    as [[doc|e]|] eqn:Hexec; [|vm_compute in Hexec; discriminate..].
  destruct (markers doc !! 4%nat) as [m|] eqn:Hm.
  - exists doc, m. split; [reflexivity|]. split; [exact Hm|].
    apply (events_markers_by_position Stub.cfg Stub.events_mix 0
             (Stub.event_for "job-1" EVENTS) doc 4 m eq_refl Hexec Hm).
  - vm_compute in Hexec. injection Hexec as <-. vm_compute in Hm. discriminate.
Defined.

(** ** The structured search *)

Lemma details_loop_looked_up pv lat lng main_type all_places : forall places,
  details_loop pv lat lng main_type all_places = Ok places ->
  map p_place_id places = omap (looked_up pv) all_places.
Proof.
  induction all_places as [|place rest IH]; intros places; simpl.
  - by intros [= <-].
  - unfold looked_up at 1.
    destruct (truthy_id (np_place_id place)) as [place_id|]; [|apply IH].
    destruct (details_api pv place_id) as [details_data|e]; simpl; [|done].
    destruct (String.eqb (dt_status details_data) "OK"); simpl; [|apply IH].
    destruct (details_loop pv lat lng main_type rest) as [others|e]; simpl; [|done].
    intros [= <-]. simpl. f_equal. by apply IH.
Qed.

Lemma with_uploaded_photo_id cfg pv place :
  p_place_id (with_uploaded_photo cfg pv place) = p_place_id place.
Proof. unfold with_uploaded_photo. by destruct (truthy_id _). Qed.

(** X13. The candidates of a structured search are exactly the ranked
    candidates whose details lookup is answered with status OK, in
    ranking order: their identifiers are those of the ranking, without
    the candidates that have no identifier or whose lookup is answered
    with another status. Nothing from further down the ranking takes the
    place of a candidate that is dropped. *)
Theorem structured_candidates_in_rank_order cfg pv fuel lat lng
    main_type sub_type budget places :
  structured_search cfg pv fuel lat lng main_type sub_type budget = Some (Ok places) ->
  exists all_places,
    collect_pages pv (get_max_results main_type) fuel
      (nearby_params lat lng main_type sub_type budget) None [] = Some (Ok all_places)
    /\ map p_place_id places
       = omap (looked_up pv) (rank_collected main_type all_places).
Proof.
  unfold structured_search. destruct (negb _); [done|].
  destruct (collect_pages _ _ _ _ _ _) as [[all_places|e]|]; [|done|done].
  simpl.
  destruct (details_loop pv lat lng main_type (rank_collected main_type all_places))
    as [processed|e] eqn:Hd; simpl; [|done].
  intros [= <-]. exists all_places. split; [done|].
  apply details_loop_looked_up in Hd. rewrite <- Hd.
  rewrite <- list_fmap_compose. apply list_fmap_ext.
  intros i place _. apply with_uploaded_photo_id.
Qed.

Lemma structured_candidates_in_rank_order_witness :
  exists places,
    structured_search Stub.cfg Stub.food_one_gone 1 Stub.lat Stub.lng FOOD "" ""
    = Some (Ok places)
    /\ map p_place_id places = ["r08"; "r02"; "r06"; "r11"].
Proof.
  destruct (structured_search Stub.cfg Stub.food_one_gone 1 Stub.lat Stub.lng FOOD "" "")
    as [[places|e]|] eqn:Hrun; [|vm_compute in Hrun; discriminate..].
  exists places. split; [reflexivity|].
  destruct (structured_candidates_in_rank_order _ _ _ _ _ _ _ _ _ Hrun)
    as (all_places & Hcollect & ->).
  vm_compute in Hcollect. injection Hcollect as <-. vm_compute. reflexivity.
Defined.

Lemma execute_structured cfg pv fuel event :
  Config.validate cfg = None ->
  let lat := Py.get_default (ev_lat event) 0%Q in
  let lng := Py.get_default (ev_lng event) 0%Q in
  let main_type := Py.get_default (ev_main_type event) "" in
  let sub_type := Py.get_default (ev_sub_type event) "" in
  let budget := Py.get_default (ev_budget event) "" in
  Py.truthy_num lat && Py.truthy_num lng && Py.truthy main_type = true ->
  String.eqb main_type ATTRACTIONS || String.eqb main_type EVENTS = false ->
  execute cfg pv fuel event
  = match collect_pages pv (get_max_results main_type) fuel
            (nearby_params lat lng main_type sub_type budget) None [] with
    | None => None
    | Some collected =>
        Some (all_places ← collected;
              processed_places ←
                details_loop pv lat lng main_type (rank_collected main_type all_places);
              match map (with_uploaded_photo cfg pv) processed_places with
              | [] => Ok (empty_document pv)
              | fetched => generate_content_and_format pv fetched main_type sub_type
              end)
    end.
Proof.
  intros Hcfg lat lng main_type sub_type budget Hall Hcat.
  destruct (validate_None cfg Hcfg) as (Hkey & _ & _).
  unfold execute. rewrite Hcfg. cbv zeta.
  fold lat lng main_type sub_type budget. rewrite Hall. cbn [negb].
  unfold fetch_data_and_process_images. rewrite Hcat.
  unfold structured_search. rewrite Hkey. cbn [negb].
  destruct (collect_pages _ _ _ _ _ _) as [[all_places|e]|]; [|done|done].
  simpl. by destruct (details_loop _ _ _ _ _) as [[|place processed]|e].
Qed.



(** No page is requested once three times the cap has been collected. *)
Lemma collect_pages_bound pv m k : forall fuel params token collected all_places,
  (forall query reply, nearby_api pv query = Ok reply ->
                       (length (nb_results reply) <= k)%nat) ->
  (length collected < 3 * m)%nat ->
  collect_pages pv (Some m) fuel params token collected = Some (Ok all_places) ->
  (length all_places < 3 * m + k)%nat.
Proof.
  induction fuel as [|fuel IH]; intros params token collected all_places Hpage Hlt;
    [done|].
  cbn [collect_pages].
  destruct (nearby_api pv _) as [data|e] eqn:Hreply; [|done].
  apply Hpage in Hreply.
  destruct (negb _).
  - destruct (String.eqb _ _); [done|]. intros [= <-]. lia.
  - destruct (enough_collected (Some m) (collected ++ nb_results data)) eqn:Henough.
    + intros [= <-]. rewrite length_app. lia.
    + destruct (truthy_id (nb_next_page_token data)) as [next|].
      * apply IH; [done|].
        unfold enough_collected in Henough.
        destruct (Nat.eqb_spec m 0) as [->|_]; [lia|].
        simpl in Henough. apply Nat.leb_gt in Henough. lia.
      * intros [= <-]. rewrite length_app.
        unfold enough_collected in Henough.
        destruct (Nat.eqb_spec m 0) as [->|_]; [lia|].
        simpl in Henough. apply Nat.leb_gt in Henough. lia.
Qed.

(** X15. The collection phase of a food search stops paging as soon
    as fifteen candidates (three times the result cap) are in hand: if
    the provider never returns more than [k] results on a page, fewer
    than 15 + k candidates are ever collected, however many pages the
    provider offers. *)
Theorem food_collection_bounded pv k fuel lat lng sub_type budget all_places :
  (forall query reply, nearby_api pv query = Ok reply ->
                       (length (nb_results reply) <= k)%nat) ->
  collect_pages pv (get_max_results FOOD) fuel
    (nearby_params lat lng FOOD sub_type budget) None [] = Some (Ok all_places) ->
  (length all_places < 15 + k)%nat.
Proof.
  intros Hpage Hcollect.
  change (get_max_results FOOD) with (Some 5%nat) in Hcollect.
  apply (collect_pages_bound pv 5 k) in Hcollect; [lia|done|simpl; lia].
Qed.

Lemma food_collection_bounded_witness :
  let pv :=
    Stub.make "0a1b2c3d" Stub.unavailable (fun _ => Stub.unavailable)
      (fun _ => Ok {| nb_status := "OK"; nb_error_message := None;
                      nb_results := Stub.twelve_candidates;
                      nb_next_page_token := Some "next-page" |})
      Stub.details_of (fun _ => Stub.unavailable) (fun _ => Stub.unavailable)
      (Ok (Some "[]")) (Stub.decode "[]" []) in
  exists all_places,
    collect_pages pv (get_max_results FOOD) 5
      (nearby_params Stub.lat Stub.lng FOOD "" "") None [] = Some (Ok all_places)
    /\ (length all_places < 15 + 12)%nat.
Proof.
  intros pv.
  destruct (collect_pages pv (get_max_results FOOD) 5
              (nearby_params Stub.lat Stub.lng FOOD "" "") None [])
    as [[all_places|e]|] eqn:Hcollect; [|vm_compute in Hcollect; discriminate..].
  exists all_places. split; [reflexivity|].
  refine (food_collection_bounded pv 12 5 Stub.lat Stub.lng "" "" all_places _ Hcollect).
  intros query reply [= <-]. simpl. lia.
Defined.

(** ** The narrative of a food candidate *)

Lemma foldl_insert_notin (k : string) (l : list (string * string)) :
  forall d : gmap string string,
  k ∉ map fst l ->
  foldl (fun d item => <[fst item := snd item]> d) d l !! k = d !! k.
Proof.
  induction l as [|[k' v] l IH]; intros d Hnotin; simpl; [done|].
  simpl in Hnotin. apply not_elem_of_cons in Hnotin as [Hne Hnotin].
  rewrite IH by done. by rewrite lookup_insert_ne.
Qed.

Lemma summaries_dict_last before k v after :
  k ∉ map fst after ->
  summaries_dict (before ++ (k, v) :: after) !! k = Some v.
Proof.
  intros Hnotin. unfold summaries_dict. rewrite foldl_app. simpl.
  rewrite foldl_insert_notin by done. by rewrite lookup_insert_eq.
Qed.

Lemma summaries_dict_none summaries k :
  k ∉ map fst summaries -> summaries_dict summaries !! k = None.
Proof. intros Hnotin. unfold summaries_dict. by rewrite foldl_insert_notin. Qed.

(** X16. The narrative of a food result: once the generated text
    decodes, the document has one marker per candidate, in order; the
    summary paragraph of a candidate is the text of the last decoded item
    that carries its identifier, and the placeholder when no item does.
    Items for unknown identifiers and missing items never fail the job. *)
Theorem food_summary_by_identifier pv places sub_type text summaries :
  gemini_summarize pv (map (summary_input true) places) = Ok (Some text) ->
  json_loads_summaries pv (strip_code_fence (Py.strip text)) = Ok summaries ->
  exists doc,
    generate_content_and_format pv places FOOD sub_type = Ok doc
    /\ length (markers doc) = length places
    /\ forall i place, places !! i = Some place ->
         exists m,
           markers doc !! i = Some m
           /\ c_title (m_content m) = p_name place
           /\ (forall before v after,
                 summaries = (before ++ (p_place_id place, v) :: after)%list ->
                 p_place_id place ∉ map fst after ->
                 ParagraphBlock ("【概要】" ++ v)
                 ∈ ed_blocks (c_editorData (m_content m)))
           /\ (p_place_id place ∉ map fst summaries ->
               ParagraphBlock ("【概要】" ++ "暂无概要")
               ∈ ed_blocks (c_editorData (m_content m))).
Proof.
  intros Hsum Hjson. eexists. split.
  { unfold generate_content_and_format.
    change (String.eqb FOOD ATTRACTIONS || String.eqb FOOD EVENTS) with false.
    change (String.eqb FOOD FOOD) with true. cbv iota zeta.
    rewrite Hsum. simpl. rewrite Hjson. simpl. reflexivity. }
  split; [simpl; by rewrite length_imap, length_map|].
  intros i place Hplace. eexists. split.
  { cbn [markers format_places_to_markers]. rewrite list_lookup_imap, list_lookup_fmap, Hplace.
    reflexivity. }
  split; [done|].
  assert (forall s, summaries_dict summaries !! p_place_id place = s ->
            ParagraphBlock ("【概要】" ++ Py.get_default s "暂无概要")
            ∈ ed_blocks (c_editorData (m_content
                (make_marker pv FOOD sub_type i
                   (with_summary (summaries_dict summaries) place))))) as Hblock.
  { intros s <-. unfold make_marker, place_blocks.
    cbn [m_content c_editorData ed_blocks with_summary p_summary Py.get_default].
    apply elem_of_app. right. apply elem_of_app. right. apply elem_of_app. left.
    apply elem_of_cons. by left. }
  split.
  - intros before v after -> Hnotin.
    apply (Hblock (Some v)). by apply summaries_dict_last.
  - intros Hnotin. apply (Hblock None). by apply summaries_dict_none.
Qed.

Lemma food_summary_by_identifier_witness :
  let pv :=
    Stub.make "0a1b2c3d" Stub.unavailable (fun _ => Stub.unavailable)
      (fun _ => Stub.unavailable) (fun _ => Stub.unavailable)
      (fun _ => Stub.unavailable) (fun _ => Stub.unavailable)
      (Ok (Some "<two summaries>"))
      (Stub.decode "<two summaries>"
         [("id-Ichiran", "Rich broth"); ("id-Ichiran", "Rich broth, long queue")]) in
  exists doc m,
    generate_content_and_format pv
      [Stub.plain_place "Ichiran" (43 # 10); Stub.plain_place "Afuri" (41 # 10)]
      FOOD "拉面" = Ok doc
    /\ markers doc !! 0%nat = Some m
    /\ ParagraphBlock ("【概要】" ++ "Rich broth, long queue")
       ∈ ed_blocks (c_editorData (m_content m)).
Proof.
  intros pv.
  destruct (food_summary_by_identifier pv
              [Stub.plain_place "Ichiran" (43 # 10); Stub.plain_place "Afuri" (41 # 10)]
              "拉面" "<two summaries>"
              [("id-Ichiran", "Rich broth"); ("id-Ichiran", "Rich broth, long queue")]
              eq_refl eq_refl) as (doc & Hdoc & _ & Hmarkers).
  destruct (Hmarkers 0%nat _ eq_refl) as (m & Hm & _ & Hlast & _).
  exists doc, m. split; [exact Hdoc|]. split; [exact Hm|].
  apply (Hlast [("id-Ichiran", "Rich broth")] "Rich broth, long queue" []);
    [reflexivity|]. simpl. apply not_elem_of_nil.
Defined.

(** ** The images of an attraction *)

Lemma omap_imap_length {A B} (l : list A) : forall g : nat -> A -> option B,
  (length (omap (M := list) id (imap g l)) <= length l)%nat.
Proof.
  induction l as [|x l IH]; intros g; simpl; [lia|].
  specialize (IH (g ∘ S)). unfold omap in IH. destruct (g 0%nat x); simpl; lia.
Qed.

Lemma omap_imap_Forall {A B} (P : B -> Prop) (l : list A) : forall g : nat -> A -> option B,
  (forall i x y, x ∈ l -> g i x = Some y -> P y) ->
  Forall P (omap (M := list) id (imap g l)).
Proof.
  induction l as [|x l IH]; intros g Hg; simpl; [constructor|].
  assert (Forall P (omap (M := list) id (imap (g ∘ S) l))) as Hrest.
  { apply IH. intros i x' y Hin Hy. apply (Hg (S i) x' y); [by right|done]. }
  destruct (g 0%nat x) as [y|] eqn:Hy; simpl; [|done].
  constructor; [|done]. apply (Hg 0%nat x y); [by left|done].
Qed.

Lemma omap_imap_all {A B} (l : list A) : forall g : nat -> A -> option B,
  (forall i x, x ∈ l -> is_Some (g i x)) ->
  length (omap (M := list) id (imap g l)) = length l.
Proof.
  induction l as [|x l IH]; intros g Hg; simpl; [done|].
  destruct (Hg 0%nat x) as [y Hy]; [by left|]. rewrite Hy. simpl. f_equal.
  apply IH. intros i x' Hin. apply (Hg (S i)). by right.
Qed.

Lemma upload_photos_spec cfg pv name photos :
  (length (upload_photos cfg pv name photos) <= 3)%nat
  /\ Forall (fun url =>
               Py.truthy url = true
               /\ exists reference caption,
                    Some reference ∈ take 3 photos
                    /\ photo_transfer pv reference caption = Ok url)
       (upload_photos cfg pv name photos).
Proof.
  unfold upload_photos. split.
  - etransitivity; [apply omap_imap_length|]. rewrite length_take.
    unfold Config.ATTRACTION_IMAGE_COUNT. lia.
  - apply omap_imap_Forall. intros i photo url Hin.
    destruct photo as [reference|]; [|done].
    destruct (Py.truthy reference); [|done].
    unfold upload_image_to_s3.
    destruct (negb _); [done|]. destruct (negb _); [done|].
    destruct (photo_transfer pv reference _) as [s3_url|e] eqn:Ht; [|done].
    destruct (Py.truthy s3_url) eqn:Hurl; [|done]. intros [= <-].
    split; [done|]. by exists reference, (name ++ "_" ++ Py.decimal i).
Qed.

Lemma image_blocks_length name address urls :
  Forall (fun url => Py.truthy url = true) urls ->
  length (image_blocks name address urls) = length urls.
Proof.
  intros Hall. unfold image_blocks. apply omap_imap_all.
  intros i url Hin. rewrite Forall_forall in Hall. by rewrite (Hall url Hin).
Qed.

Lemma image_blocks_are_images name address urls :
  Forall (fun block => is_image_block block = true) (image_blocks name address urls).
Proof.
  unfold image_blocks. apply omap_imap_Forall. intros i url block _.
  destruct (Py.truthy url); [|done]. by intros [= <-].
Qed.

Lemma filter_all {A} (P : A -> Prop) `{forall x, Decision (P x)} (l : list A) :
  Forall P l -> filter P l = l.
Proof.
  induction 1 as [|x l Hx _ IH]; [done|]. rewrite filter_cons_True by done. by rewrite IH.
Qed.

(** X17. An attraction found in the provider's records carries at
    most three image addresses; every one of them is non-empty and is the
    result of transferring one of the first three photos of the place
    record; and its content shows exactly one image block per address. *)
Theorem attraction_images cfg pv lat lng candidate place_id place_details :
  let place := matched_attraction cfg pv lat lng candidate place_id place_details in
  (length (p_s3_image_urls place) <= 3)%nat
  /\ Forall (fun url =>
               Py.truthy url = true
               /\ exists reference caption,
                    Some reference ∈ take 3 (pd_photos place_details)
                    /\ photo_transfer pv reference caption = Ok url)
       (p_s3_image_urls place)
  /\ length (filter (fun block => is_image_block block = true)
               (place_blocks ATTRACTIONS place))
     = length (p_s3_image_urls place).
Proof.
  cbv zeta.
  destruct (upload_photos_spec cfg pv
              (Py.get_default (pd_name place_details) (gp_name candidate))
              (pd_photos place_details)) as [Hlen Hall].
  split; [exact Hlen|]. split; [exact Hall|].
  unfold place_blocks.
  change (image_urls_of ATTRACTIONS
            (matched_attraction cfg pv lat lng candidate place_id place_details))
    with (p_s3_image_urls
            (matched_attraction cfg pv lat lng candidate place_id place_details)).
  rewrite !filter_app.
  rewrite (filter_all _ (image_blocks _ _ _)) by apply image_blocks_are_images.
  rewrite !length_app, image_blocks_length.
  - destruct (Py.truthy _); simpl; lia.
  - eapply Forall_impl; [exact Hall|]. by intros url [Hurl _].
Qed.

(** ** Code fences around a generated text *)

Lemma substring_all (s : string) : String.substring 0 (String.length s) s = s.
Proof. induction s as [|c s IH]; simpl; [done|]. by rewrite IH. Qed.

Lemma drop_str_app (p rest : string) :
  Py.drop_str (String.length p) (p ++ rest) = rest.
Proof.
  unfold Py.drop_str. induction p as [|c p IH]; simpl.
  - rewrite Nat.sub_0_r. apply substring_all.
  - exact IH.
Qed.

Lemma take_str_app (a p : string) : Py.take_str (String.length a) (a ++ p) = a.
Proof.
  unfold Py.take_str. induction a as [|c a IH]; simpl.
  - by destruct p.
  - by rewrite IH.
Qed.

Lemma endswith_app (a p : string) : Py.endswith (a ++ p) p = true.
Proof.
  unfold Py.endswith. rewrite string_app_length.
  replace (String.length a + String.length p - String.length p)%nat
    with (String.length a) by lia.
  rewrite drop_str_app, String.eqb_refl.
  rewrite andb_true_r. apply Nat.leb_le. lia.
Qed.

Lemma take_str_fence (a : string) :
  Py.take_str (String.length (a ++ "```") - 3) (a ++ "```") = a.
Proof.
  rewrite string_app_length.
  replace (String.length a + String.length "```" - 3)%nat with (String.length a)
    by (simpl; lia).
  apply take_str_app.
Qed.

Lemma no_backtick_substring (s : string) : forall n m,
  no_backtick s = true -> no_backtick (String.substring n m s) = true.
Proof.
  induction s as [|c s IH]; intros n m Hs.
  - by destruct n, m.
  - simpl in Hs. apply andb_true_iff in Hs as [Hc Hs].
    destruct n as [|n]; [destruct m as [|m]|]; simpl; [done| |by apply IH].
    rewrite Hc. by apply IH.
Qed.

Lemma prefix_head_ne (a b : ascii) (p s : string) :
  a <> b -> String.prefix (String a p) (String b s) = false.
Proof. intros Hne. cbn -[ascii_dec]. by destruct (ascii_dec a b). Qed.

Lemma no_backtick_head (c : ascii) (s : string) :
  no_backtick (String c s) = true -> "`"%char <> c.
Proof.
  simpl. intros Hs Heq. apply andb_true_iff in Hs as [Hc _]. subst c. done.
Qed.

Lemma no_backtick_no_fence (s : string) :
  no_backtick s = true ->
  Py.startswith s "```json" = false /\ Py.startswith s "```" = false
  /\ Py.endswith s "```" = false.
Proof.
  intros Hs. split; [|split].
  - destruct s as [|c s]; [done|]. apply prefix_head_ne. by eapply no_backtick_head.
  - destruct s as [|c s]; [done|]. apply prefix_head_ne. by eapply no_backtick_head.
  - unfold Py.endswith, Py.drop_str.
    destruct (String.eqb_spec
                (String.substring (String.length s - String.length "```")
                   (String.length s - (String.length s - String.length "```")) s)
                "```") as [Heq|_]; [|by rewrite andb_false_r].
    pose proof (no_backtick_substring s (String.length s - String.length "```")
                  (String.length s - (String.length s - String.length "```")) Hs) as H.
    rewrite Heq in H. done.
Qed.

Lemma string_app_cons (c : ascii) (s t : string) : String c s ++ t = String c (s ++ t).
Proof. reflexivity. Qed.

Lemma prefix_json_fence (body : string) :
  String.prefix "json" body = false -> String.prefix "json" (body ++ "```") = false.
Proof.
  destruct body as [|c1 [|c2 [|c3 [|c4 body]]]]; rewrite ?string_app_cons;
    change ("" ++ "```") with "```"; cbn -[ascii_dec];
    repeat (destruct (ascii_dec _ _); try done).
  by destruct body.
Qed.

Lemma prefix_app (p rest : string) : String.prefix p (p ++ rest) = true.
Proof.
  induction p as [|c p IH]; [by destruct rest|].
  rewrite string_app_cons. cbn -[ascii_dec]. by destruct (ascii_dec c c).
Qed.

(** X18. Cleaning a generated text of its code fence: for a text
    without backticks, the cleaned text is the text stripped of
    surrounding white space, whether it arrives bare, inside a fence
    opened with the json tag, or inside a plain fence (provided it does
    not itself begin with the letters of the tag, which a plain fence
    cannot be told from). *)
Theorem strip_code_fence_fenced (body : string) :
  no_backtick body = true ->
  strip_code_fence body = Py.strip body
  /\ strip_code_fence ("```json" ++ body ++ "```") = Py.strip body
  /\ (Py.startswith body "json" = false ->
      strip_code_fence ("```" ++ body ++ "```") = Py.strip body).
Proof.
  intros Hbody. destruct (no_backtick_no_fence body Hbody) as (Hj & Hs & He).
  split; [|split].
  - unfold strip_code_fence. by rewrite Hj, Hs, He.
  - unfold strip_code_fence.
    assert (Py.startswith ("```json" ++ body ++ "```") "```json" = true) as ->
      by apply prefix_app.
    change (Py.drop_str 7 ("```json" ++ body ++ "```"))
      with (Py.drop_str (String.length "```json") ("```json" ++ (body ++ "```"))).
    rewrite drop_str_app.
    destruct body as [|c body]; [reflexivity|].
    assert (Py.startswith (String c body ++ "```") "```" = false) as ->
      by (apply prefix_head_ne; by eapply no_backtick_head).
    rewrite endswith_app. by rewrite take_str_fence.
  - intros Hplain. unfold strip_code_fence.
    assert (Py.startswith ("```" ++ body ++ "```") "```json" = false) as ->
      by (by apply prefix_json_fence).
    assert (Py.startswith ("```" ++ body ++ "```") "```" = true) as ->
      by apply prefix_app.
    change (Py.drop_str 3 ("```" ++ body ++ "```"))
      with (Py.drop_str (String.length "```") ("```" ++ (body ++ "```"))).
    rewrite drop_str_app, endswith_app. by rewrite take_str_fence.
Qed.

Lemma strip_code_fence_fenced_witness :
  strip_code_fence ("```json" ++ String "010" ("[1, 2]" ++ String "010" "```")) = "[1, 2]".
Proof.
  destruct (strip_code_fence_fenced (String "010" ("[1, 2]" ++ String "010" "")) eq_refl)
    as (_ & H & _).
  exact H.
Defined.

(** ** The attractions category *)

Lemma upload_photos_ext cfg pv1 pv2 name photos :
  (forall reference caption,
      photo_transfer pv1 reference caption = photo_transfer pv2 reference caption) ->
  upload_photos cfg pv1 name photos = upload_photos cfg pv2 name photos.
Proof.
  intros Hphoto. unfold upload_photos. f_equal. apply imap_ext.
  intros i photo _. destruct photo as [reference|]; [|done].
  unfold upload_image_to_s3. by rewrite Hphoto.
Qed.

Lemma attraction_places_ext cfg pv1 pv2 lat lng candidates :
  (forall query center, textsearch_api pv1 query center = textsearch_api pv2 query center) ->
  (forall place_id, details_api pv1 place_id = details_api pv2 place_id) ->
  (forall reference caption,
      photo_transfer pv1 reference caption = photo_transfer pv2 reference caption) ->
  time_s pv1 = time_s pv2 ->
  attraction_places cfg pv1 lat lng candidates = attraction_places cfg pv2 lat lng candidates.
Proof.
  intros Htext Hdetails Hphoto Hclock.
  induction candidates as [|place rest IH]; [done|].
  cbn [attraction_places]. rewrite IH.
  assert (find_place_by_name_and_address cfg pv1 (gp_name place)
            (gp_formatted_address place) lat lng
          = find_place_by_name_and_address cfg pv2 (gp_name place)
              (gp_formatted_address place) lat lng) as ->.
  { unfold find_place_by_name_and_address. by rewrite Htext. }
  destruct (truthy_id _) as [place_id|].
  - rewrite Hdetails.
    destruct (details_api pv2 place_id) as [details_data|e]; simpl; [|done].
    destruct (negb _); [done|].
    destruct (attraction_places cfg pv2 lat lng rest) as [others|e]; simpl; [|done].
    do 2 f_equal. unfold matched_attraction. f_equal. by apply upload_photos_ext.
  - destruct (attraction_places cfg pv2 lat lng rest) as [others|e]; simpl; [|done].
    do 2 f_equal. unfold unmatched_attraction, gemini_place_id. by rewrite Hclock.
Qed.

(** X19. The attractions category is served by the generative search,
    the text search, the place details and the photo transfer: the
    nearby search and the geocoder are never consulted, and the
    subcategory and the budget of the request are ignored. *)
Theorem attractions_ignore_refinements cfg pv1 pv2 fuel1 fuel2 lat lng
    sub_type1 sub_type2 budget1 budget2 :
  (forall la lo main_type,
      gemini_search pv1 la lo main_type = gemini_search pv2 la lo main_type) ->
  (forall text, json_loads_places pv1 text = json_loads_places pv2 text) ->
  (forall query center, textsearch_api pv1 query center = textsearch_api pv2 query center) ->
  (forall place_id, details_api pv1 place_id = details_api pv2 place_id) ->
  (forall reference caption,
      photo_transfer pv1 reference caption = photo_transfer pv2 reference caption) ->
  time_s pv1 = time_s pv2 ->
  fetch_data_and_process_images cfg pv1 fuel1 lat lng ATTRACTIONS sub_type1 budget1
  = fetch_data_and_process_images cfg pv2 fuel2 lat lng ATTRACTIONS sub_type2 budget2.
Proof.
  intros Hsearch Hloads Htext Hdetails Hphoto Hclock.
  unfold fetch_data_and_process_images.
  change (String.eqb ATTRACTIONS ATTRACTIONS || String.eqb ATTRACTIONS EVENTS) with true.
  cbv iota. f_equal. unfold fetch_places_via_gemini_and_process_images.
  destruct (negb _); [done|].
  unfold fetch_places_via_gemini. rewrite Hsearch.
  destruct (gemini_search pv2 lat lng ATTRACTIONS) as [text|e]; simpl; [|done].
  destruct (negb _); [done|]. destruct (negb _); [done|]. rewrite Hloads.
  destruct (json_loads_places pv2 _) as [items|e]; simpl; [|done].
  destruct (omap _ items) as [|candidate candidates]; [done|].
  change (String.eqb ATTRACTIONS EVENTS) with false. cbv iota.
  by apply attraction_places_ext.
Qed.

Lemma attractions_ignore_refinements_witness :
  let other :=
    Stub.make "ffffffff" (Ok (Some "<one attraction>"))
      (Stub.decode "<one attraction>" Stub.one_attraction)
      (fun _ => Ok {| nb_status := "OK"; nb_error_message := None;
                      nb_results := Stub.twelve_candidates;
                      nb_next_page_token := None |})
      (fun _ => Stub.unavailable)
      (fun _ => Stub.unavailable)
      (fun _ => Ok {| ts_status := "ZERO_RESULTS"; ts_results := [] |})
      (Ok (Some "[]")) (Stub.decode "[]" []) in
  fetch_data_and_process_images Stub.cfg Stub.attraction_unmatched 0 Stub.lat Stub.lng
    ATTRACTIONS "" ""
  = fetch_data_and_process_images Stub.cfg other 2 Stub.lat Stub.lng
      ATTRACTIONS "拉面" "8000日元以上".
Proof.
  intros other. apply attractions_ignore_refinements; intros; reflexivity.
Defined.

(** ** Failing lookups *)

(** X20. In the details loop a lookup that is answered with a status
    other than OK only drops its candidate, but a lookup that raises
    (a transport error) ends the loop: the loop fails exactly when the
    lookup of some candidate that carries an identifier raises, with the
    message of such a lookup, and no partial list is returned. *)
Theorem details_lookup_failure_is_fatal pv lat lng main_type all_places :
  (forall e,
      details_loop pv lat lng main_type all_places = Raise e ->
      exists candidate place_id,
        candidate ∈ all_places
        /\ truthy_id (np_place_id candidate) = Some place_id
        /\ details_api pv place_id = Raise e)
  /\ (forall candidate place_id e,
        candidate ∈ all_places ->
        truthy_id (np_place_id candidate) = Some place_id ->
        details_api pv place_id = Raise e ->
        exists e', details_loop pv lat lng main_type all_places = Raise e').
Proof.
  induction all_places as [|place rest [IH1 IH2]]; split.
  - done.
  - intros candidate place_id e Hin. by apply elem_of_nil in Hin.
  - intros e. cbn [details_loop].
    destruct (truthy_id (np_place_id place)) as [place_id|] eqn:Hid.
    + destruct (details_api pv place_id) as [details_data|e0] eqn:Hd; simpl.
      * assert (details_loop pv lat lng main_type rest = Raise e ->
                exists candidate place_id0,
                  candidate ∈ place :: rest
                  /\ truthy_id (np_place_id candidate) = Some place_id0
                  /\ details_api pv place_id0 = Raise e) as Hrest.
        { intros H. destruct (IH1 e H) as (c & i & Hin & Hc & He).
          exists c, i. split; [by right|done]. }
        destruct (negb _); [exact Hrest|].
        destruct (details_loop pv lat lng main_type rest) as [others|e1]; simpl; [done|].
        intros [= <-]. by apply Hrest.
      * intros [= <-]. exists place, place_id. split; [by left|done].
    + intros H. destruct (IH1 e H) as (c & i & Hin & Hc & He).
      exists c, i. split; [by right|done].
  - intros candidate place_id e Hin Hid Hraise. cbn [details_loop].
    apply elem_of_cons in Hin as [->|Hin].
    + rewrite Hid, Hraise. simpl. by eexists.
    + destruct (IH2 candidate place_id e Hin Hid Hraise) as [e' He'].
      destruct (truthy_id (np_place_id place)) as [i|]; [|by eexists].
      destruct (details_api pv i) as [details_data|e0]; simpl; [|by eexists].
      destruct (negb _); [by eexists|]. rewrite He'. simpl. by eexists.
Qed.
